(** * taskfile2d2: the Taskfile-to-D2 translation, embedded and verified

    The development follows [d2writer.go] (the [D2Writer] accumulator) and
    the main file of the tool (the document model [Taskfile]/[Task], the
    accessors [GetIncludes], [GetDepCalls], [GetCmds], [GetCalls],
    [GetRequiredVars], the entry point [TaskfileToD2] and the call emitter
    [EncapsulatePassedVars]).

    Go values of type [any] produced by the YAML decoder are a tagged
    union; Go maps are [gmap]s; the module-global memo
    [includesToIncludedTasks] is part of an explicit process state that
    every run receives and hands back; [log.Fatal] and runtime panics are
    failures of an error monad. *)

From Stdlib Require Import String Ascii ZArith List.
From stdpp Require Import base gmap strings list sorting pretty.

Local Open Scope string_scope.
Local Open Scope list_scope.

#[local] Set Warnings "-register-all".

(** ** Characters that cannot be written inside a literal *)

Definition dquote : string := String "034"%char EmptyString.
Definition newline : string := String "010"%char EmptyString.
Definition backslash : string := String "092"%char EmptyString.

(** ** Decoded YAML values: Go's [any]

    [yaml.v3] decodes into [any] as [nil], [string], [int], [float64],
    [bool], [[]any] and [map[string]any].  The program only ever tells
    apart [nil], [string], [[]any] and [map[string]any]; a number or a
    boolean falls into the [default] arm of every type switch and fails
    every type assertion. *)

Inductive any : Type :=
  | ANil
  | AString (s : string)
  | AInt (z : Z)
  | AFloat (bits : Z)
  | ABool (b : bool)
  | ASlice (l : list any)
  | AMap (m : gmap string any).

(** ** Failures and the outcome of a computation *)

Inductive failure : Type :=
  | LogFatal (msg : string)        (* log.Fatal: message, then exit status 1 *)
  | PanicExplicit                  (* panic with the empty message *)
  | PanicTypeAssertion             (* x.(T) on a value of another dynamic type *)
  | PanicNilMap                    (* assignment to entry in nil map *)
  | PanicIndex.                    (* index out of range *)

Inductive outcome (A : Type) : Type :=
  | Ok (a : A)
  | Failed (f : failure).

Arguments Ok {A} a.
Arguments Failed {A} f.

Definition outcome_bind {A B} (o : outcome A) (k : A -> outcome B) : outcome B :=
  match o with
  | Ok a => k a
  | Failed f => Failed f
  end.

(** [for _, x := range xs { result = append(result, f x) }] where [f] may
    abort the whole function. *)
Fixpoint outcome_mapM {A B} (f : A -> outcome B) (xs : list A) : outcome (list B) :=
  match xs with
  | [] => Ok []
  | x :: xs' =>
      outcome_bind (f x) (fun y =>
      outcome_bind (outcome_mapM f xs') (fun ys => Ok (y :: ys)))
  end.

(** ** d2writer.go *)

Record D2Writer : Type := { data : list string }.

Definition NewD2Writer : D2Writer := {| data := [] |}.

Definition D2Writer_Write (w : D2Writer) (key : string) (values : list string) : D2Writer :=
  match values with
  | [] => {| data := data w ++ [key] |}
  | _ =>
      fold_left (fun w' value => {| data := data w' ++ [key +:+ ": " +:+ value] |})
                values w
  end.

Definition D2Writer_String (w : D2Writer) : string :=
  String.concat newline (data w).

(** The line [Write] appends for a key and one value. *)
Definition statement (key value : string) : string := key +:+ ": " +:+ value.

(** ** The pieces of package [strings] the program calls

    Every separator the program passes is the one-byte string of a colon
    or of a quote or brace, so the functions are given for a one-byte
    [old]/[sep]. *)

Fixpoint strings_ReplaceAll (s : string) (old : ascii) (new : string) : string :=
  match s with
  | EmptyString => EmptyString
  | String c s' =>
      if Ascii.eqb c old then new +:+ strings_ReplaceAll s' old new
      else String c (strings_ReplaceAll s' old new)
  end.

Fixpoint strings_Contains (s : string) (sub : ascii) : bool :=
  match s with
  | EmptyString => false
  | String c s' => if Ascii.eqb c sub then true else strings_Contains s' sub
  end.

(** [before sep s]: the bytes of [s] in front of the first [sep];
    [after sep s]: the bytes behind it, [None] when [s] has no [sep]. *)
Fixpoint before (sep : ascii) (s : string) : string :=
  match s with
  | EmptyString => EmptyString
  | String c s' => if Ascii.eqb c sep then EmptyString else String c (before sep s')
  end.

Fixpoint after (sep : ascii) (s : string) : option string :=
  match s with
  | EmptyString => None
  | String c s' => if Ascii.eqb c sep then Some s' else after sep s'
  end.

(** [strings.SplitN(s, sep, 2)]: at most two chunks, cut at the first [sep]. *)
Definition strings_SplitN2 (s : string) (sep : ascii) : list string :=
  match after sep s with
  | Some rest => [before sep s; rest]
  | None => [s]
  end.

(** The replacer built by [strings.NewReplacer] at line 493 maps each of
    the four bytes quote, double quote, opening and closing brace to a
    backslash followed by that byte; all four old strings are single
    bytes, so [Replace] rewrites byte by byte. *)
Definition escaped_byte (c : ascii) : bool :=
  Ascii.eqb c "'" || Ascii.eqb c "034" || Ascii.eqb c "{" || Ascii.eqb c "}".

Fixpoint escape_Replace (s : string) : string :=
  match s with
  | EmptyString => EmptyString
  | String c s' =>
      if escaped_byte c then String "092" (String c (escape_Replace s'))
      else String c (escape_Replace s')
  end.

(** ** The document model *)

Record Requires_t : Type := { Requires_Vars : list any }.

(** [Cmds] is [None] for the nil slice (key absent) and [Some l] for a
    decoded sequence, since [GetCmds] compares it with [nil]; [Cmd] is
    [ANil] for the nil interface.  [Deps] and [Requires.Vars] are only
    ranged over, where a nil and an empty slice behave alike. *)
Record Task : Type := {
  Desc : string;
  Summary : string;
  Silent : bool;
  Internal : bool;
  Requires : Requires_t;
  Task_Vars : gmap string any;
  Deps : list any;
  Cmd : any;
  Cmds : option (list any)
}.

Record Taskfile : Type := {
  Includes : gmap string any;
  Version : string;
  Vars : gmap string any;
  Tasks : gmap string Task
}.

(** [Variable] of the source; the name is a keyword here. *)
Record Variable_t : Type := { Name : string; Value : any }.

Record TaskCall : Type := { TaskName : string; TaskCall_Vars : list Variable_t }.

Record RequiredVariable : Type := { RV_Name : string; Enum : list string }.

(** The zero value of [Task], which indexing [Tasks] returns for an absent key. *)
Definition Task_zero : Task :=
  {| Desc := EmptyString; Summary := EmptyString; Silent := false; Internal := false;
     Requires := {| Requires_Vars := [] |}; Task_Vars := ∅; Deps := [];
     Cmd := ANil; Cmds := None |}.

Definition externalTaskIconName : string := "externalTaskIcon".
Definition internalTaskIconName : string := "internalTaskIcon".
Definition unknownTaskIconName : string := "unknownTaskIcon".
Definition varIconName : string := "varIcon".
Definition includedTaskfileIconName : string := "includedTaskfileIcon".

(** ** The embedded image payloads and the legend (literals of [TaskfileToD2]) *)

Definition externalTaskIconData : string :=
  "data:image/svg+xml,%3C%3Fxml version='1.0' encoding='utf-8'%3F%3E%3Csvg fill='%23000000' width='800px' height='800px' viewBox='0 0 24 24' xmlns='http://www.w3.org/2000/svg'%3E%3Cpath d='M5 22h14c1.103 0 2-.897 2-2V5c0-1.103-.897-2-2-2h-2a1 1 0 0 0-1-1H8a1 1 0 0 0-1 1H5c-1.103 0-2 .897-2 2v15c0 1.103.897 2 2 2zM5 5h2v2h10V5h2v15H5V5z'/%3E%3Cpath d='m11 13.586-1.793-1.793-1.414 1.414L11 16.414l5.207-5.207-1.414-1.414z'/%3E%3C/svg%3E".

Definition internalTaskIconData : string :=
  "data:image/svg+xml,%3C%3Fxml version='1.0' encoding='utf-8'%3F%3E%3Csvg fill='%23000000' width='800px' height='800px' viewBox='0 0 24 24' xmlns='http://www.w3.org/2000/svg'%3E%3Cpath d='M3 20c0 1.103.897 2 2 2h14c1.103 0 2-.897 2-2V5c0-1.103-.897-2-2-2h-2a1 1 0 0 0-1-1H8a1 1 0 0 0-1 1H5c-1.103 0-2 .897-2 2v15zM5 5h2v2h10V5h2v15H5V5z'/%3E%3Cpath d='M14.292 10.295 12 12.587l-2.292-2.292-1.414 1.414 2.292 2.292-2.292 2.292 1.414 1.414L12 15.415l2.292 2.292 1.414-1.414-2.292-2.292 2.292-2.292z'/%3E%3C/svg%3E".

Definition unknownTaskIconData : string :=
  "data:image/svg+xml,%3C%3Fxml version='1.0' encoding='utf-8'%3F%3E%3Csvg width='800px' height='800px' viewBox='0 0 24 24' fill='none' xmlns='http://www.w3.org/2000/svg'%3E%3Cpath fill-rule='evenodd' clip-rule='evenodd' d='M9.29289 1.29289C9.48043 1.10536 9.73478 1 10 1H18C19.6569 1 21 2.34315 21 4V7C21 7.55228 20.5523 8 20 8C19.4477 8 19 7.55228 19 7V4C19 3.44772 18.5523 3 18 3H11V8C11 8.55228 10.5523 9 10 9H5V20C5 20.5523 5.44772 21 6 21H11C11.5523 21 12 21.4477 12 22C12 22.5523 11.5523 23 11 23H6C4.34315 23 3 21.6569 3 20V8C3 7.73478 3.10536 7.48043 3.29289 7.29289L9.29289 1.29289ZM6.41421 7H9V4.41421L6.41421 7ZM18.25 20.75C18.25 21.4404 17.6904 22 17 22C16.3096 22 15.75 21.4404 15.75 20.75C15.75 20.0596 16.3096 19.5 17 19.5C17.6904 19.5 18.25 20.0596 18.25 20.75ZM15.1353 12.9643C15.3999 12.4596 16.0831 12 17 12C18.283 12 19 12.8345 19 13.5C19 14.1655 18.283 15 17 15C16.4477 15 16 15.4477 16 16V17C16 17.5523 16.4477 18 17 18C17.5523 18 18 17.5523 18 17V16.8866C19.6316 16.5135 21 15.2471 21 13.5C21 11.404 19.0307 10 17 10C15.4566 10 14.0252 10.7745 13.364 12.0357C13.1075 12.5248 13.2962 13.1292 13.7853 13.3857C14.2744 13.6421 14.8788 13.4535 15.1353 12.9643Z' fill='%23000000'/%3E%3C/svg%3E".

Definition varIconData : string :=
  "data:image/svg+xml,%3C%3Fxml%20version%3D%221.0%22%20encoding%3D%22iso-8859-1%22%3F%3E%0A%0A%3Csvg%20version%3D%221.1%22%20id%3D%22Capa_1%22%20xmlns%3D%22http%3A%2F%2Fwww.w3.org%2F2000%2Fsvg%22%20xmlns%3Axlink%3D%22http%3A%2F%2Fwww.w3.org%2F1999%2Fxlink%22%20x%3D%220px%22%20y%3D%220px%22%0A%09%20viewBox%3D%220%200%20512%20512%22%20style%3D%22enable-background%3Anew%200%200%20512%20512%3B%22%20xml%3Aspace%3D%22preserve%22%3E%0A%3Cpath%20style%3D%22fill%3A%23ECECF1%3B%22%20d%3D%22M421%2C0H91C49.6%2C0%2C16%2C33.6%2C16%2C75v362c0%2C41.4%2C33.6%2C75%2C75%2C75h330c41.4%2C0%2C75-33.6%2C75-75V75%0A%09C496%2C33.6%2C462.4%2C0%2C421%2C0z%22%2F%3E%0A%3Cpath%20style%3D%22fill%3A%23E2E2E7%3B%22%20d%3D%22M496%2C75v362c0%2C41.4-33.6%2C75-75%2C75H256V0h165C462.4%2C0%2C496%2C33.6%2C496%2C75z%22%2F%3E%0A%3Cpath%20style%3D%22fill%3A%235A5A5A%3B%22%20d%3D%22M136%2C75v362c0%2C8.401-6.599%2C15-15%2C15s-15-6.599-15-15V75c0-8.401%2C6.599-15%2C15-15S136%2C66.599%2C136%2C75z%22%0A%09%2F%3E%0A%3Cpath%20style%3D%22fill%3A%23444444%3B%22%20d%3D%22M136%2C75v362c0%2C8.401-6.599%2C15-15%2C15V60C129.401%2C60%2C136%2C66.599%2C136%2C75z%22%2F%3E%0A%3Cpath%20style%3D%22fill%3A%235A5A5A%3B%22%20d%3D%22M226%2C75v362c0%2C8.401-6.599%2C15-15%2C15s-15-6.599-15-15V75c0-8.401%2C6.599-15%2C15-15S226%2C66.599%2C226%2C75z%22%0A%09%2F%3E%0A%3Cpath%20style%3D%22fill%3A%23444444%3B%22%20d%3D%22M226%2C75v362c0%2C8.401-6.599%2C15-15%2C15V60C219.401%2C60%2C226%2C66.599%2C226%2C75z%22%2F%3E%0A%3Cpath%20style%3D%22fill%3A%235A5A5A%3B%22%20d%3D%22M316%2C75v362c0%2C8.401-6.599%2C15-15%2C15s-15-6.599-15-15V75c0-8.401%2C6.599-15%2C15-15S316%2C66.599%2C316%2C75z%22%0A%09%2F%3E%0A%3Cpath%20style%3D%22fill%3A%23444444%3B%22%20d%3D%22M316%2C75v362c0%2C8.401-6.599%2C15-15%2C15V60C309.401%2C60%2C316%2C66.599%2C316%2C75z%22%2F%3E%0A%3Cpath%20style%3D%22fill%3A%235A5A5A%3B%22%20d%3D%22M406%2C75v362c0%2C8.401-6.599%2C15-15%2C15s-15-6.599-15-15V75c0-8.401%2C6.599-15%2C15-15S406%2C66.599%2C406%2C75z%22%0A%09%2F%3E%0A%3Cpath%20style%3D%22fill%3A%23444444%3B%22%20d%3D%22M406%2C75v362c0%2C8.401-6.599%2C15-15%2C15V60C399.401%2C60%2C406%2C66.599%2C406%2C75z%22%2F%3E%0A%3Cpath%20style%3D%22fill%3A%23FF7816%3B%22%20d%3D%22M121%2C241c-24.901%2C0-45%2C21.099-45%2C46s20.099%2C45%2C45%2C45s45-20.099%2C45-45S145.901%2C241%2C121%2C241z%22%2F%3E%0A%3Cpath%20style%3D%22fill%3A%23FF4B00%3B%22%20d%3D%22M166%2C287c0%2C24.901-20.099%2C45-45%2C45v-91C145.901%2C241%2C166%2C262.099%2C166%2C287z%22%2F%3E%0A%3Cpath%20style%3D%22fill%3A%23FF7816%3B%22%20d%3D%22M391%2C90c-24.901%2C0-45%2C20.099-45%2C45s20.099%2C45%2C45%2C45s45-20.099%2C45-45S415.901%2C90%2C391%2C90z%22%2F%3E%0A%3Cpath%20style%3D%22fill%3A%23FF4B00%3B%22%20d%3D%22M436%2C135c0%2C24.901-20.099%2C45-45%2C45V90C415.901%2C90%2C436%2C110.099%2C436%2C135z%22%2F%3E%0A%3Cpath%20style%3D%22fill%3A%23FF7816%3B%22%20d%3D%22M301%2C332c-24.901%2C0-45%2C20.099-45%2C45s20.099%2C45%2C45%2C45s45-20.099%2C45-45S325.901%2C332%2C301%2C332z%22%2F%3E%0A%3Cpath%20style%3D%22fill%3A%23FF4B00%3B%22%20d%3D%22M346%2C377c0%2C24.901-20.099%2C45-45%2C45v-90C325.901%2C332%2C346%2C352.099%2C346%2C377z%22%2F%3E%0A%3Cpath%20style%3D%22fill%3A%23FF7816%3B%22%20d%3D%22M211%2C120c-24.901%2C0-45%2C20.099-45%2C45s20.099%2C45%2C45%2C45s45-20.099%2C45-45S235.901%2C120%2C211%2C120z%22%2F%3E%0A%3Cpath%20style%3D%22fill%3A%23FF4B00%3B%22%20d%3D%22M256%2C165c0%2C24.901-20.099%2C45-45%2C45v-90C235.901%2C120%2C256%2C140.099%2C256%2C165z%22%2F%3E%0A%3Cg%3E%0A%3C%2Fg%3E%0A%3Cg%3E%0A%3C%2Fg%3E%0A%3Cg%3E%0A%3C%2Fg%3E%0A%3Cg%3E%0A%3C%2Fg%3E%0A%3Cg%3E%0A%3C%2Fg%3E%0A%3Cg%3E%0A%3C%2Fg%3E%0A%3Cg%3E%0A%3C%2Fg%3E%0A%3Cg%3E%0A%3C%2Fg%3E%0A%3Cg%3E%0A%3C%2Fg%3E%0A%3Cg%3E%0A%3C%2Fg%3E%0A%3Cg%3E%0A%3C%2Fg%3E%0A%3Cg%3E%0A%3C%2Fg%3E%0A%3Cg%3E%0A%3C%2Fg%3E%0A%3Cg%3E%0A%3C%2Fg%3E%0A%3Cg%3E%0A%3C%2Fg%3E%0A%3C%2Fsvg%3E%0A".

Definition includedTaskfileIconData : string :=
  "data:image/svg+xml,%3C%3Fxml version='1.0' encoding='utf-8'%3F%3E%3Csvg width='800px' height='800px' viewBox='0 0 24 24' fill='none' xmlns='http://www.w3.org/2000/svg'%3E%3Cpath d='M3 5.25C3 4.00736 4.00736 3 5.25 3H18.75C19.9926 3 21 4.00736 21 5.25V12.0218C20.5368 11.7253 20.0335 11.4858 19.5 11.3135V5.25C19.5 4.83579 19.1642 4.5 18.75 4.5H5.25C4.83579 4.5 4.5 4.83579 4.5 5.25V18.75C4.5 19.1642 4.83579 19.5 5.25 19.5H11.3135C11.4858 20.0335 11.7253 20.5368 12.0218 21H5.25C4.00736 21 3 19.9926 3 18.75V5.25Z' fill='%23212121'/%3E%3Cpath d='M10.7803 7.71967C11.0732 8.01256 11.0732 8.48744 10.7803 8.78033L8.78033 10.7803C8.48744 11.0732 8.01256 11.0732 7.71967 10.7803L6.71967 9.78033C6.42678 9.48744 6.42678 9.01256 6.71967 8.71967C7.01256 8.42678 7.48744 8.42678 7.78033 8.71967L8.25 9.18934L9.71967 7.71967C10.0126 7.42678 10.4874 7.42678 10.7803 7.71967Z' fill='%23212121'/%3E%3Cpath d='M10.7803 13.2197C11.0732 13.5126 11.0732 13.9874 10.7803 14.2803L8.78033 16.2803C8.48744 16.5732 8.01256 16.5732 7.71967 16.2803L6.71967 15.2803C6.42678 14.9874 6.42678 14.5126 6.71967 14.2197C7.01256 13.9268 7.48744 13.9268 7.78033 14.2197L8.25 14.6893L9.71967 13.2197C10.0126 12.9268 10.4874 12.9268 10.7803 13.2197Z' fill='%23212121'/%3E%3Cpath d='M17.5 12C20.5376 12 23 14.4624 23 17.5C23 20.5376 20.5376 23 17.5 23C14.4624 23 12 20.5376 12 17.5C12 14.4624 14.4624 12 17.5 12ZM18.0011 20.5035L18.0006 18H20.503C20.7792 18 21.003 17.7762 21.003 17.5C21.003 17.2239 20.7792 17 20.503 17H18.0005L18 14.4993C18 14.2231 17.7761 13.9993 17.5 13.9993C17.2239 13.9993 17 14.2231 17 14.4993L17.0005 17H14.4961C14.22 17 13.9961 17.2239 13.9961 17.5C13.9961 17.7762 14.22 18 14.4961 18H17.0006L17.0011 20.5035C17.0011 20.7797 17.225 21.0035 17.5011 21.0035C17.7773 21.0035 18.0011 20.7797 18.0011 20.5035Z' fill='%23212121'/%3E%3Cpath d='M13.25 8.5C12.8358 8.5 12.5 8.83579 12.5 9.25C12.5 9.66421 12.8358 10 13.25 10H16.75C17.1642 10 17.5 9.66421 17.5 9.25C17.5 8.83579 17.1642 8.5 16.75 8.5H13.25Z' fill='%23212121'/%3E%3C/svg%3E".

Definition legendBlock : string :=
  "Legend {
  **.style: {
    font-size: 30
    bold: true
  }
  near: top-center
  style.3d: true
  subLegend1: "
  +:+ dquote
  +:+ dquote
  +:+ " {
    style.opacity: 0
    grid-columns: 4
    grid-rows: 2
    icon1: Variable {
      shape: image
      icon: ${"
  +:+ varIconName
  +:+ "}
    }
    icon1Description: |md
      Variables are passed to tasks
    |
    icon2: External Task {
      shape: image
      icon: ${"
  +:+ externalTaskIconName
  +:+ "}
    }
    icon2Description: |md
      Tasks that can be called\
      directly by the Task CLI tool.
    |
    icon3: Internal Task {
      shape: image
      icon: ${"
  +:+ internalTaskIconName
  +:+ "}
    }
    icon3Description: |md
      Tasks that can NOT be called\
      directly by the Task CLI tool.
    |
    icon4: Unknown Task {
      shape: image
      icon: ${"
  +:+ unknownTaskIconName
  +:+ "}
    }
    icon4Description: |md
      It is not possible to identify the origin of these\
      tasks as they are
      - a dynamically named task using template variable(s)\
        **or**
      - a task in another imported Taskfile
    |
    icon5: Included Taskfile {
      shape: image
      icon: ${"
  +:+ includedTaskfileIconName
  +:+ "}
    }
    icon5Description: |md
      Container for tasks that are included from other Taskfiles
    |
  }
  subLegend2: Silent Task {
    style: {
      fill: grey
    }
    description: |md
      Tasks that do NOT print their template resolution ("
  +:+ "**silent: true**"
  +:+ ").
      - This makes sure that **template resolution does not expose secret** variables
      - There could be other, less important reasons why a template resolution is not printed to the screen
    |
  }
}".

(** [d2Vars]: the [vars] block naming the five payloads. *)
Definition d2Vars : string :=
  "{" +:+ newline
  +:+ "  " +:+ externalTaskIconName +:+ ": " +:+ externalTaskIconData +:+ newline
  +:+ "  " +:+ internalTaskIconName +:+ ": " +:+ internalTaskIconData +:+ newline
  +:+ "  " +:+ unknownTaskIconName +:+ ": " +:+ unknownTaskIconData +:+ newline
  +:+ "  " +:+ varIconName +:+ ": " +:+ varIconData +:+ newline
  +:+ "  " +:+ includedTaskfileIconName +:+ ": " +:+ includedTaskfileIconData +:+ newline
  +:+ "}".

(** ** Process state and the monad of the translation

    [includesToIncludedTasks] is the package-level variable, initialised
    to the empty map when the process starts; an inner map that was never
    made is the nil map ([None] under [!!]).  [d2Writer] is the writer
    the run allocates; [uuidsDrawn] counts the calls of [uuid.NewString]
    made so far in the process. *)

Record World : Type := {
  d2Writer : D2Writer;
  includesToIncludedTasks : gmap string (gset string);
  uuidsDrawn : nat
}.

Definition World_start : World :=
  {| d2Writer := NewD2Writer; includesToIncludedTasks := ∅; uuidsDrawn := 0 |}.

(** A computation either returns a value or dies ([log.Fatal], panic);
    both leave the world they reached, so that what had been written
    when the process died stays visible. *)
Inductive result (A : Type) : Type :=
  | Returned (a : A) (w : World)
  | Died (f : failure) (w : World).

Arguments Returned {A} a w.
Arguments Died {A} f w.

Definition M (A : Type) : Type := World -> result A.

Definition M_ret {A} (a : A) : M A := fun w => Returned a w.

Definition M_bind {A B} (c : M A) (k : A -> M B) : M B :=
  fun w =>
    match c w with
    | Returned a w' => k a w'
    | Died f w' => Died f w'
    end.

Definition M_fail {A} (f : failure) : M A := fun w => Died f w.

Definition M_lift {A} (o : outcome A) : M A :=
  fun w => match o with Ok a => Returned a w | Failed f => Died f w end.

Declare Scope M_scope.
Delimit Scope M_scope with M.
Notation "x <- c ;; k" := (M_bind c (fun x => k))
  (at level 100, c at next level, right associativity) : M_scope.
Notation "c ;;; k" := (M_bind c (fun _ => k))
  (at level 100, right associativity) : M_scope.

(** [for _, x := range xs { body x }] *)
Fixpoint M_range {A} (body : A -> M unit) (xs : list A) : M unit :=
  match xs with
  | [] => M_ret tt
  | x :: xs' => M_bind (body x) (fun _ => M_range body xs')
  end.

Definition Write (key : string) (values : list string) : M unit :=
  fun w =>
    Returned tt {| d2Writer := D2Writer_Write (d2Writer w) key values;
                   includesToIncludedTasks := includesToIncludedTasks w;
                   uuidsDrawn := uuidsDrawn w |}.

(** [slices.Sorted]: the keys in ascending byte-wise order. *)
Definition slices_Sorted (keys : list string) : list string :=
  merge_sort String.le keys.

(** [callCount] is a [uint]: 64 bits on the platforms the tool is built for. *)
Definition uint_succ (n : N) : N := ((n + 1) mod 2 ^ 64)%N.

Section Translation.

(** What the run takes from its environment:
    - [uuid_NewString n]: the identifier returned by the [n]-th call of
      [uuid.NewString] in the process;
    - [rangeOrder keys]: the order in which a [range] over a Go map with
      these keys visits them (the runtime picks it anew for each run);
    - [GoSyntax v]: [fmt.Sprintf("%#v", v)]. *)
Variable uuid_NewString : nat -> string.
Variable rangeOrder : list string -> list string.
Variable GoSyntax : any -> string.

Local Open Scope M_scope.

(** [uuid.NewString()]: the next identifier of the process. *)
Definition NewString : M string :=
  fun w =>
    Returned (uuid_NewString (uuidsDrawn w))
      {| d2Writer := d2Writer w;
         includesToIncludedTasks := includesToIncludedTasks w;
         uuidsDrawn := S (uuidsDrawn w) |}.

(** [maps.Keys(m)], and the keys visited by [for key := range m]. *)
Definition maps_Keys {V} (m : gmap string V) : list string :=
  rangeOrder (map fst (map_to_list m)).

(** Lines 169-174: the keys in the order of the [range], unsorted. *)
Definition GetIncludes (tf : Taskfile) : list string :=
  maps_Keys (Includes tf).

(** The bindings of a structured entry: [entry["vars"].(map[string]any)]
    with the comma-ok form, then the keys in sorted order (the same
    block in [GetDepCalls] and in [GetCalls]). *)
Definition passedVarsOf (entry : gmap string any) : list Variable_t :=
  match entry !! "vars" with
  | Some (AMap passedVars) =>
      map (fun passedVarName =>
             {| Name := passedVarName;
                Value := default ANil (passedVars !! passedVarName) |})
          (slices_Sorted (maps_Keys passedVars))
  | _ => []
  end.

(** The body of the loop of [GetDepCalls] (lines 178-196): the type
    switch on the entry; [dep["task"].(string)] panics unless the value
    is a string. *)
Definition depCall (dep : any) : outcome TaskCall :=
  match dep with
  | AString dep => Ok {| TaskName := dep; TaskCall_Vars := [] |}
  | AMap dep =>
      match dep !! "task" with
      | Some (AString taskName) =>
          Ok {| TaskName := taskName; TaskCall_Vars := passedVarsOf dep |}
      | _ => Failed PanicTypeAssertion
      end
  | _ => Failed PanicExplicit
  end.

Definition GetDepCalls (t : Task) : outcome (list TaskCall) :=
  outcome_mapM depCall (Deps t).

Definition is_nil (v : any) : bool :=
  match v with ANil => true | _ => false end.

(** Lines 200-210. *)
Definition GetCmds (t : Task) : outcome (list any) :=
  if negb (is_nil (Cmd t)) && negb (bool_decide (Cmds t = None)) then
    Failed (LogFatal "task cannot have both cmd and cmds")
  else if is_nil (Cmd t) then Ok (default [] (Cmds t))
  else Ok [Cmd t].

(** The body of the loop of [GetCalls] (lines 223-240): only a structured
    entry with a string [task] is a call, every other entry is skipped. *)
Definition cmdCall (cmd : any) : option TaskCall :=
  match cmd with
  | AMap typedCmd =>
      match typedCmd !! "task" with
      | Some (AString taskName) =>
          Some {| TaskName := taskName; TaskCall_Vars := passedVarsOf typedCmd |}
      | _ => None
      end
  | _ => None
  end.

Definition GetCalls (t : Task) : outcome (list TaskCall) :=
  outcome_bind (GetCmds t) (fun cmds => Ok (omap cmdCall cmds)).

(** [enum.(string)] (line 260). *)
Definition enumString (enum : any) : outcome string :=
  match enum with
  | AString s => Ok s
  | _ => Failed PanicTypeAssertion
  end.

(** The body of the loop of [GetRequiredVars] (lines 252-265):
    [variable["name"].(string)] and [variable["enum"].([]any)] panic
    unless the values have these types, an absent key being [nil]. *)
Definition requiredVar (variable : any) : outcome RequiredVariable :=
  match variable with
  | AString variable => Ok {| RV_Name := variable; Enum := [] |}
  | AMap variable =>
      match variable !! "name" with
      | Some (AString name) =>
          match variable !! "enum" with
          | Some (ASlice enums) =>
              outcome_bind (outcome_mapM enumString enums) (fun enum =>
              Ok {| RV_Name := name; Enum := enum |})
          | _ => Failed PanicTypeAssertion
          end
      | _ => Failed PanicTypeAssertion
      end
  | _ => Failed PanicExplicit
  end.

Definition GetRequiredVars (t : Task) : outcome (list RequiredVariable) :=
  outcome_mapM requiredVar (Requires_Vars (Requires t)).

(** *** The memo [includesToIncludedTasks] *)

(** [includesToIncludedTasks[include] = make(map[string]struct{})] *)
Definition memo_make (include : string) : M unit :=
  fun w =>
    Returned tt {| d2Writer := d2Writer w;
                   includesToIncludedTasks := <[include := ∅]> (includesToIncludedTasks w);
                   uuidsDrawn := uuidsDrawn w |}.

(** [includedTasks := includesToIncludedTasks[ns]]: [None] is the nil map. *)
Definition memo_get (ns : string) : M (option (gset string)) :=
  fun w => Returned (includesToIncludedTasks w !! ns) w.

(** [includedTasks[sub] = struct{}{}]: [includedTasks] aliases the inner
    map of the global, so the entry lands there; on the nil map the
    assignment panics. *)
Definition memo_assign (ns : string) (includedTasks : option (gset string))
    (sub : string) : M unit :=
  fun w =>
    match includedTasks with
    | None => Died PanicNilMap w
    | Some tasks =>
        Returned tt {| d2Writer := d2Writer w;
                       includesToIncludedTasks :=
                         <[ns := {[sub]} ∪ tasks]> (includesToIncludedTasks w);
                       uuidsDrawn := uuidsDrawn w |}
    end.

Definition alreadyHasIcon (includedTasks : option (gset string)) (sub : string) : bool :=
  match includedTasks with
  | None => false
  | Some tasks => bool_decide (sub ∈ tasks)
  end.

(** *** EncapsulatePassedVars *)

(** The body of the loop over the bindings (lines 493-497). *)
Definition passedVarStatements (passedVarsContainerUuid : string)
    (passedVar : Variable_t) : M unit :=
  let escaped := escape_Replace (GoSyntax (Value passedVar)) in
  Write (passedVarsContainerUuid +:+ ".'" +:+ Name passedVar +:+ "'")
        ["{shape: image; icon: ${" +:+ varIconName +:+ "}}"] ;;;
  valueUuid <- NewString ;;
  Write (passedVarsContainerUuid +:+ "." +:+ valueUuid)
        [escaped +:+ " {shape: text}"] ;;;
  Write (passedVarsContainerUuid +:+ ".'" +:+ Name passedVar +:+ "' -> "
           +:+ passedVarsContainerUuid +:+ "." +:+ valueUuid)
        ["set to"].

(** Lines 485-499: the edge, or the [With] container and its bindings. *)
Definition emitCallEdges (taskName calledD2TaskName : string) (taskCall : TaskCall)
    (firstConnectionValue secondConnectionValue : string) : M unit :=
  match TaskCall_Vars taskCall with
  | [] =>
      Write ("'" +:+ taskName +:+ "' -> '" +:+ calledD2TaskName +:+ "'")
            [firstConnectionValue]
  | _ =>
      passedVarsContainerUuid <- NewString ;;
      Write ("'" +:+ taskName +:+ "' -> " +:+ passedVarsContainerUuid)
            [firstConnectionValue] ;;;
      Write (passedVarsContainerUuid +:+ " -> '" +:+ calledD2TaskName +:+ "'")
            [secondConnectionValue] ;;;
      Write passedVarsContainerUuid
            ["With {shape: parallelogram; style.stroke-dash: 3}"] ;;;
      M_range (passedVarStatements passedVarsContainerUuid) (TaskCall_Vars taskCall)
  end.

(** Lines 500-509: the unknown-task icon of the target. *)
Definition classifyTarget (calledD2TaskName : string) (taskfile : Taskfile)
    (taskCall : TaskCall) : M unit :=
  if strings_Contains (TaskName taskCall) ":" then
    match strings_SplitN2 (TaskName taskCall) ":" with
    | chunk0 :: chunk1 :: _ =>
        includedTasks <- memo_get chunk0 ;;
        if alreadyHasIcon includedTasks chunk1 then M_ret tt
        else
          memo_assign chunk0 includedTasks chunk1 ;;;
          Write ("'" +:+ calledD2TaskName +:+ "'.icon")
                ["${" +:+ unknownTaskIconName +:+ "}"]
    | _ => M_fail PanicIndex
    end
  else
    match Tasks taskfile !! calledD2TaskName with
    | Some _ => M_ret tt
    | None =>
        Write ("'" +:+ calledD2TaskName +:+ "'.icon")
              ["${" +:+ unknownTaskIconName +:+ "}"]
    end.

Definition EncapsulatePassedVars (taskName : string) (taskfile : Taskfile)
    (taskCall : TaskCall) (firstConnectionValue secondConnectionValue : string)
    : M unit :=
  let calledD2TaskName := strings_ReplaceAll (TaskName taskCall) ":" "'.'" in
  emitCallEdges taskName calledD2TaskName taskCall
    firstConnectionValue secondConnectionValue ;;;
  classifyTarget calledD2TaskName taskfile taskCall.

(** *** TaskfileToD2 *)

(** The label of a required variable (lines 395-398). *)
Definition requiredVarLabel (requiredVar : RequiredVariable) : string :=
  if bool_decide (length (Enum requiredVar) ≠ 0) then
    dquote +:+ RV_Name requiredVar +:+ backslash +:+ "n["
      +:+ String.concat ", " (Enum requiredVar) +:+ "]" +:+ dquote
  else RV_Name requiredVar.

Definition markdownText (task : Task) : string :=
  (if negb (String.eqb (Desc task) EmptyString)
   then "## Description" +:+ newline +:+ Desc task +:+ newline else EmptyString)
  +:+
  (if negb (String.eqb (Summary task) EmptyString)
   then "## Summary" +:+ newline +:+ Summary task +:+ newline else EmptyString).

(** The loop over [task.GetCalls()] with its counter (lines 409-413). *)
Fixpoint callsLoop (taskName : string) (taskfile : Taskfile) (callCount : N)
    (calls : list TaskCall) : M unit :=
  match calls with
  | [] => M_ret tt
  | taskCall :: calls' =>
      let callCount := uint_succ callCount in
      EncapsulatePassedVars taskName taskfile taskCall
        ("calls (" +:+ pretty callCount +:+ ")")
        "passed to {style.stroke-dash: 3}" ;;;
      callsLoop taskName taskfile callCount calls'
  end.

(** The body of the loop over the sorted task names (lines 370-413). *)
Definition emitTask (taskfile : Taskfile) (taskName : string) : M unit :=
  let task := default Task_zero (Tasks taskfile !! taskName) in
  (if negb (String.eqb (Desc task) EmptyString)
      || negb (String.eqb (Summary task) EmptyString)
   then Write ("'" +:+ taskName +:+ "'.Text")
              ["|md" +:+ newline +:+ markdownText task +:+ "|"]
   else M_ret tt) ;;;
  (if Silent task
   then Write ("'" +:+ taskName +:+ "'.style.fill") ["grey"]
   else M_ret tt) ;;;
  let taskIcon := if Internal task then internalTaskIconName else externalTaskIconName in
  Write ("'" +:+ taskName +:+ "'.icon") ["${" +:+ taskIcon +:+ "}"] ;;;
  requiredVars <- M_lift (GetRequiredVars task) ;;
  M_range (fun requiredVar =>
             Write ("'" +:+ RV_Name requiredVar +:+ "'")
                   [requiredVarLabel requiredVar
                      +:+ " {shape: image; icon: ${" +:+ varIconName +:+ "}}"] ;;;
             Write ("'" +:+ RV_Name requiredVar +:+ "' -> '" +:+ taskName +:+ "'")
                   ["required by"])
          requiredVars ;;;
  depCalls <- M_lift (GetDepCalls task) ;;
  M_range (fun depCall =>
             EncapsulatePassedVars taskName taskfile depCall
               "calls as dependency"
               "passed to {style {stroke-dash: 3; stroke: green}}")
          depCalls ;;;
  calls <- M_lift (GetCalls task) ;;
  callsLoop taskName taskfile 0%N calls.

(** The six trailing style rules (lines 415-455). *)
Definition styleRules : M unit :=
  Write ("(" +:+ "** -> **" +:+ ")[*].style")
    ["{
  stroke-width: 4
  font-size: 25
  bold: true
}"] ;;;
  Write ("(" +:+ "** -> **" +:+ ")[*]")
    ["{
  &label: required by
  style {
    stroke: red
    stroke-dash: 3
  }
}"] ;;;
  Write ("(" +:+ "** -> **" +:+ ")[*]")
    ["{
  &label: calls as dependency
  style {
    stroke: green
  }
}"] ;;;
  Write "*" ["{
  !&shape: image
  style.bold: true
  style.font-size: 30
}"] ;;;
  Write "**.icon" ["{
  near: bottom-center
}"] ;;;
  Write "**" ["{
  &shape: text
  style.font-size: 20
  style.bold: true
}"].

Definition newWriter : M unit :=
  fun w =>
    Returned tt {| d2Writer := NewD2Writer;
                   includesToIncludedTasks := includesToIncludedTasks w;
                   uuidsDrawn := uuidsDrawn w |}.

Definition writerString : M string :=
  fun w => Returned (D2Writer_String (d2Writer w)) w.

(** Lines 362-366: one container per include, its memo made afresh. *)
Definition emitIncludes (taskfile : Taskfile) : M unit :=
  M_range (fun include =>
             memo_make include ;;;
             Write ("'" +:+ include +:+ "'.icon")
                   ["${" +:+ includedTaskfileIconName +:+ "}"])
          (GetIncludes taskfile).

(** Lines 369-414: the loop over the sorted task names. *)
Definition emitTasks (taskfile : Taskfile) : M unit :=
  M_range (emitTask taskfile) (slices_Sorted (maps_Keys (Tasks taskfile))).

(** [TaskfileToD2] from the decoded document on: [yaml.Unmarshal] is the
    decoder's, and a decoding error returns before anything below. *)
Definition TaskfileToD2 (taskfile : Taskfile) : M string :=
  if negb (String.eqb (Version taskfile) "3") then
    M_fail (LogFatal "Only version 3 Taskfiles are supported")
  else
    newWriter ;;;
    Write "vars" [d2Vars] ;;;
    legendUuid <- NewString ;;
    Write legendUuid [legendBlock] ;;;
    emitIncludes taskfile ;;;
    emitTasks taskfile ;;;
    styleRules ;;;
    writerString.

(** * The trace of a run

    From the first task on, a run is a sequence of two kinds of action:
    a [Write] of one value, and a call of [EncapsulatePassedVars].  The
    trace lists them in program order; [replay] performs a trace with the
    program's own [Write] and [EncapsulatePassedVars]. *)

Record CallSite : Type := {
  site_source : string;
  site_call : TaskCall;
  site_first : string;
  site_second : string
}.

Inductive action : Type :=
  | DoWrite (key value : string)
  | DoCall (site : CallSite).

Definition action_call (a : action) : option CallSite :=
  match a with
  | DoCall site => Some site
  | DoWrite _ _ => None
  end.

(** The targets named by the calls of a trace, in order. *)
Definition calledNames (trace : list action) : list string :=
  omap (fun a => TaskName <$> (site_call <$> action_call a)) trace.

Definition dependencySite (taskName : string) (depCall : TaskCall) : CallSite :=
  {| site_source := taskName; site_call := depCall;
     site_first := "calls as dependency";
     site_second := "passed to {style {stroke-dash: 3; stroke: green}}" |}.

Fixpoint inlineSites (taskName : string) (callCount : N) (calls : list TaskCall)
    : list CallSite :=
  match calls with
  | [] => []
  | taskCall :: calls' =>
      let callCount := uint_succ callCount in
      {| site_source := taskName; site_call := taskCall;
         site_first := "calls (" +:+ pretty callCount +:+ ")";
         site_second := "passed to {style.stroke-dash: 3}" |}
      :: inlineSites taskName callCount calls'
  end.

Definition taskHeader (taskName : string) (task : Task) : list action :=
  (if negb (String.eqb (Desc task) EmptyString)
      || negb (String.eqb (Summary task) EmptyString)
   then [DoWrite ("'" +:+ taskName +:+ "'.Text")
                 ("|md" +:+ newline +:+ markdownText task +:+ "|")]
   else [])
  ++ (if Silent task then [DoWrite ("'" +:+ taskName +:+ "'.style.fill") "grey"] else [])
  ++ [DoWrite ("'" +:+ taskName +:+ "'.icon")
              ("${" +:+ (if Internal task then internalTaskIconName
                         else externalTaskIconName) +:+ "}")].

Definition requiredVarActions (taskName : string) (requiredVar : RequiredVariable)
    : list action :=
  [DoWrite ("'" +:+ RV_Name requiredVar +:+ "'")
           (requiredVarLabel requiredVar
              +:+ " {shape: image; icon: ${" +:+ varIconName +:+ "}}");
   DoWrite ("'" +:+ RV_Name requiredVar +:+ "' -> '" +:+ taskName +:+ "'")
           "required by"].

Definition perform (taskfile : Taskfile) (a : action) : M unit :=
  match a with
  | DoWrite key value => Write key [value]
  | DoCall site =>
      EncapsulatePassedVars
        (site_source site) taskfile (site_call site) (site_first site) (site_second site)
  end.

Definition replay (taskfile : Taskfile) (trace : list action) : M unit :=
  M_range (perform taskfile) trace.

Definition taskTrace (taskfile : Taskfile) (taskName : string) : outcome (list action) :=
  let task := default Task_zero (Tasks taskfile !! taskName) in
  outcome_bind (GetRequiredVars task) (fun requiredVars =>
  outcome_bind (GetDepCalls task) (fun depCalls =>
  outcome_bind (GetCalls task) (fun calls =>
  Ok (taskHeader taskName task
      ++ concat (map (requiredVarActions taskName) requiredVars)
      ++ map (fun c => DoCall (dependencySite taskName c)) depCalls
      ++ map DoCall (inlineSites taskName 0%N calls))%list))).

Definition runTrace (taskfile : Taskfile) : outcome (list action) :=
  outcome_bind
    (outcome_mapM (taskTrace taskfile)
       (slices_Sorted (maps_Keys (Tasks taskfile))))
    (fun traces => Ok (concat traces)).

(** The run from its start to the first task (lines 278-366). *)
Definition runToTasks (taskfile : Taskfile) : M unit :=
  (newWriter ;;;
   Write "vars" [d2Vars] ;;;
   legendUuid <- NewString ;;
   Write legendUuid [legendBlock] ;;;
   emitIncludes taskfile)%M.

(** The statements of lines 485-499 for a call made when [n] identifiers
    have been drawn, as the call-emission rule words them: the edge alone
    without bindings; with bindings the two edges around the [With]
    container and, per binding, the variable node, the value node and the
    edge between them. *)
Definition bindingStatements (container value : string) (passedVar : Variable_t)
    : list string :=
  [statement (container +:+ ".'" +:+ Name passedVar +:+ "'")
             "{shape: image; icon: ${varIcon}}";
   statement (container +:+ "." +:+ value)
             (escape_Replace (GoSyntax (Value passedVar)) +:+ " {shape: text}");
   statement (container +:+ ".'" +:+ Name passedVar +:+ "' -> "
                +:+ container +:+ "." +:+ value)
             "set to"].

Fixpoint bindingsStatements (container : string) (n : nat) (passedVars : list Variable_t)
    : list string :=
  match passedVars with
  | [] => []
  | passedVar :: rest =>
      (bindingStatements container (uuid_NewString n) passedVar
       ++ bindingsStatements container (S n) rest)%list
  end.

Definition callStatements (n : nat) (source target : string) (passedVars : list Variable_t)
    (first second : string) : list string :=
  match passedVars with
  | [] => [statement ("'" +:+ source +:+ "' -> '" +:+ target +:+ "'") first]
  | _ =>
      let container := uuid_NewString n in
      ([statement ("'" +:+ source +:+ "' -> " +:+ container) first;
        statement (container +:+ " -> '" +:+ target +:+ "'") second;
        statement container "With {shape: parallelogram; style.stroke-dash: 3}"]
       ++ bindingsStatements container (S n) passedVars)%list
  end.

(** Identifiers a call draws: none without bindings, else one for the
    container and one per binding. *)
Definition uuidCost (passedVars : list Variable_t) : nat :=
  match passedVars with
  | [] => 0
  | _ => S (length passedVars)
  end.

(** The D2 address of a call target and its unknown-task icon statement. *)
Definition d2Name (taskName : string) : string :=
  strings_ReplaceAll taskName ":" "'.'".

Definition unknownIconStatement (taskName : string) : string :=
  statement ("'" +:+ d2Name taskName +:+ "'.icon") "${unknownTaskIcon}".

(** The pair (namespace, sub-task) of a namespaced target: the name cut
    at its first colon. *)
Definition splitTarget (taskName : string) : option (string * string) :=
  match after ":" taskName with
  | Some sub => Some (before ":" taskName, sub)
  | None => None
  end.

(** [w] after [statements] were appended and [n] identifiers drawn. *)
Definition World_emit (w : World) (statements : list string) (n : nat) : World :=
  {| d2Writer := {| data := data (d2Writer w) ++ statements |};
     includesToIncludedTasks := includesToIncludedTasks w;
     uuidsDrawn := n + uuidsDrawn w |}.

Definition World_mark (w : World) (ns sub : string) (tasks : gset string) : World :=
  {| d2Writer := d2Writer w;
     includesToIncludedTasks := <[ns := {[sub]} ∪ tasks]> (includesToIncludedTasks w);
     uuidsDrawn := uuidsDrawn w |}.

(** The world in which the classification of a call starts: the edges
    are written and their identifiers drawn. *)
Definition afterEdges (site : CallSite) (w : World) : World :=
  World_emit w
    (callStatements (uuidsDrawn w) (site_source site) (d2Name (TaskName (site_call site)))
       (TaskCall_Vars (site_call site)) (site_first site) (site_second site))
    (uuidCost (TaskCall_Vars (site_call site))).

(** The five ways a call of [EncapsulatePassedVars] ends, by the shape of
    its target and the state of the memo: a target without colon that is
    a task, one that is not, a namespaced target whose namespace has no
    memo, one already entered in the memo, one not yet entered. *)
Inductive callOutcome (taskfile : Taskfile) (site : CallSite) (w : World)
    : result unit -> Prop :=
  | call_known (task : Task) :
      splitTarget (TaskName (site_call site)) = None ->
      Tasks taskfile !! TaskName (site_call site) = Some task ->
      callOutcome taskfile site w (Returned tt (afterEdges site w))
  | call_unknown :
      splitTarget (TaskName (site_call site)) = None ->
      Tasks taskfile !! TaskName (site_call site) = None ->
      callOutcome taskfile site w
        (Returned tt (World_emit (afterEdges site w)
                        [unknownIconStatement (TaskName (site_call site))] 0))
  | call_nil_memo (ns sub : string) :
      splitTarget (TaskName (site_call site)) = Some (ns, sub) ->
      includesToIncludedTasks w !! ns = None ->
      callOutcome taskfile site w (Died PanicNilMap (afterEdges site w))
  | call_seen (ns sub : string) (tasks : gset string) :
      splitTarget (TaskName (site_call site)) = Some (ns, sub) ->
      includesToIncludedTasks w !! ns = Some tasks ->
      sub ∈ tasks ->
      callOutcome taskfile site w (Returned tt (afterEdges site w))
  | call_fresh (ns sub : string) (tasks : gset string) :
      splitTarget (TaskName (site_call site)) = Some (ns, sub) ->
      includesToIncludedTasks w !! ns = Some tasks ->
      sub ∉ tasks ->
      callOutcome taskfile site w
        (Returned tt (World_emit (World_mark (afterEdges site w) ns sub tasks)
                        [unknownIconStatement (TaskName (site_call site))] 0)).

(** The memo after an action that returned: a call of a namespaced target
    whose namespace has a memo enters the sub-task there; nothing else
    touches the memo. *)
Definition memo_step (memo : gmap string (gset string)) (a : action)
    : gmap string (gset string) :=
  match action_call a with
  | Some site =>
      match splitTarget (TaskName (site_call site)) with
      | Some (ns, sub) =>
          match memo !! ns with
          | Some tasks => <[ns := {[sub]} ∪ tasks]> memo
          | None => memo
          end
      | None => memo
      end
  | None => memo
  end.

(** The memo [emitIncludes] leaves. *)
Definition memo_made (memo : gmap string (gset string)) (includes : list string)
    : gmap string (gset string) :=
  foldl (fun m include => <[include := ∅]> m) memo includes.

Definition includeStatement (include : string) : string :=
  statement ("'" +:+ include +:+ "'.icon") "${includedTaskfileIcon}".

(** The target an entry of [deps] names (a bare string, or a structured
    entry with a string [task]), and the target an entry of the command
    list names (a structured entry with a string [task]). *)
Definition depTarget (dep : any) : option string :=
  match dep with
  | AString taskName => Some taskName
  | AMap entry =>
      match entry !! "task" with
      | Some (AString taskName) => Some taskName
      | _ => None
      end
  | _ => None
  end.

Definition cmdTarget (cmd : any) : option string :=
  match cmd with
  | AMap entry =>
      match entry !! "task" with
      | Some (AString taskName) => Some taskName
      | _ => None
      end
  | _ => None
  end.

(** [callsTarget task target]: the task has a dependency or an inline
    call of [target]. *)
Definition callsTarget (task : Task) (target : string) : Prop :=
  (exists dep, dep ∈ Deps task /\ depTarget dep = Some target)
  \/ (exists cmd, (cmd = Cmd task \/ cmd ∈ default [] (Cmds task))
                  /\ cmdTarget cmd = Some target).

(** Strictly ascending byte-wise order. *)
Definition String_lt (s1 s2 : string) : Prop := String.le s1 s2 /\ s1 <> s2.

(** What an entry of [requires.vars] yields: a bare string its name and
    no enumeration; a structured entry with a string [name] and an
    [enum] list of strings its name and these strings.  No other entry
    yields anything. *)
Inductive requiredVarOf : any -> RequiredVariable -> Prop :=
  | requiredVarOf_bare (name : string) :
      requiredVarOf (AString name) {| RV_Name := name; Enum := [] |}
  | requiredVarOf_structured (entry : gmap string any) (name : string)
        (enum : list string) :
      entry !! "name" = Some (AString name) ->
      entry !! "enum" = Some (ASlice (AString <$> enum)) ->
      requiredVarOf (AMap entry) {| RV_Name := name; Enum := enum |}.

(** What the caller of [TaskfileToD2] observes: the text, or the failure. *)
Definition result_outcome {A} (r : result A) : outcome A :=
  match r with
  | Returned a _ => Ok a
  | Died f _ => Failed f
  end.

(** ** Sample documents and a sample environment *)

(** Identifiers [uuid-0], [uuid-1], ... in the order they are drawn. *)
Definition sample_uuid (n : nat) : string := "uuid-" +:+ pretty n.

(** [%#v] of a string without quotes, backslashes or control bytes is the
    string between double quotes; the samples bind no other value. *)
Definition sample_GoSyntax (v : any) : string :=
  match v with
  | AString s => dquote +:+ s +:+ dquote
  | _ => "<nil>"
  end.

Definition sample_task (deps : list any) (cmd : any) (cmds : option (list any)) : Task :=
  {| Desc := EmptyString; Summary := EmptyString; Silent := false; Internal := false;
     Requires := {| Requires_Vars := [] |}; Task_Vars := ∅; Deps := deps;
     Cmd := cmd; Cmds := cmds |}.

(** [version: "2"] and nothing else. *)
Definition doc_version2 : Taskfile :=
  {| Includes := ∅; Version := "2"; Vars := ∅; Tasks := ∅ |}.

(** [tasks: {build: {cmd: echo one, cmds: [echo two]}}] *)
Definition task_cmd_and_cmds : Task :=
  sample_task [] (AString "echo one") (Some [AString "echo two"]).

Definition doc_cmd_and_cmds : Taskfile :=
  {| Includes := ∅; Version := "3"; Vars := ∅;
     Tasks := {[ "build" := task_cmd_and_cmds ]} |}.

(** [tasks: {deploy: {deps: [infra:provision]}}], no [includes]. *)
Definition task_deploy_provision : Task :=
  sample_task [AString "infra:provision"] ANil None.

Definition doc_undeclared_namespace : Taskfile :=
  {| Includes := ∅; Version := "3"; Vars := ∅;
     Tasks := {[ "deploy" := task_deploy_provision ]} |}.



(** [includes: {infra: ./infra}] and
    [deploy: {deps: [infra:provision, {task: infra:provision, vars: {region: us-east, env: prod}}, missing, missing]}],
    [release: {cmds: [echo hi, {task: infra:provision}, {task: deploy}]}]. *)
Definition call_provision_with_vars : any :=
  AMap {[ "task" := AString "infra:provision";
          "vars" := AMap {[ "region" := AString "us-east"; "env" := AString "prod" ]} ]}.

Definition doc_calls : Taskfile :=
  {| Includes := {[ "infra" := AString "./infra" ]}; Version := "3"; Vars := ∅;
     Tasks :=
       {[ "deploy" := sample_task [AString "infra:provision"; call_provision_with_vars;
                                   AString "missing"; AString "missing"] ANil None;
          "release" := sample_task [] ANil
                         (Some [AString "echo hi";
                                AMap {[ "task" := AString "infra:provision" ]};
                                AMap {[ "task" := AString "deploy" ]}]) ]} |}.

(** [includes: {a: ./a.yml, b: ./b.yml}], no tasks. *)
Definition doc_two_includes : Taskfile :=
  {| Includes := {[ "a" := AString "./a.yml"; "b" := AString "./b.yml" ]};
     Version := "3"; Vars := ∅; Tasks := ∅ |}.

(** [requires: {vars: [{name: ENV}]}] and [requires: {vars: [{name: ENV, enum: [1]}]}] *)
Definition task_requires_name_only : Task :=
  {| Desc := EmptyString; Summary := EmptyString; Silent := false; Internal := false;
     Requires := {| Requires_Vars := [AMap {[ "name" := AString "ENV" ]}] |};
     Task_Vars := ∅; Deps := []; Cmd := ANil; Cmds := None |}.

Definition task_requires_numeric_enum : Task :=
  {| Desc := EmptyString; Summary := EmptyString; Silent := false; Internal := false;
     Requires := {| Requires_Vars :=
                      [AMap {[ "name" := AString "ENV"; "enum" := ASlice [AInt 1] ]}] |};
     Task_Vars := ∅; Deps := []; Cmd := ANil; Cmds := None |}.

(** [requires: {vars: [REGION, {name: ENV, enum: [prod, staging]}]}] *)
Definition task_requires_enum : Task :=
  {| Desc := EmptyString; Summary := EmptyString; Silent := false; Internal := false;
     Requires := {| Requires_Vars :=
                      [AString "REGION";
                       AMap {[ "name" := AString "ENV";
                               "enum" := ASlice [AString "prod"; AString "staging"] ]}] |};
     Task_Vars := ∅; Deps := []; Cmd := ANil; Cmds := None |}.

(** The call [{task: infra:provision, vars: {region: us-east, env: prod}}]
    as [GetDepCalls] returns it, and a world in which the include [infra]
    has its empty memo. *)
Definition sample_call : TaskCall :=
  {| TaskName := "infra:provision";
     TaskCall_Vars := [{| Name := "env"; Value := AString "prod" |};
                       {| Name := "region"; Value := AString "us-east" |}] |}.

Definition World_infra : World :=
  {| d2Writer := NewD2Writer;
     includesToIncludedTasks := {[ "infra" := ∅ ]};
     uuidsDrawn := 1 |}.

(** ** Further definitions for the properties beyond the claims *)

(** The lines [D2Writer.Write] appends for a key and its values. *)
Definition writtenLines (key : string) (values : list string) : list string :=
  match values with
  | [] => [key]
  | _ => map (statement key) values
  end.

(** The six statements of the trailing style rules. *)
Definition styleStatements : list string :=
  [statement ("(" +:+ "** -> **" +:+ ")[*].style") "{
  stroke-width: 4
  font-size: 25
  bold: true
}";
   statement ("(" +:+ "** -> **" +:+ ")[*]") "{
  &label: required by
  style {
    stroke: red
    stroke-dash: 3
  }
}";
   statement ("(" +:+ "** -> **" +:+ ")[*]") "{
  &label: calls as dependency
  style {
    stroke: green
  }
}";
   statement "*" "{
  !&shape: image
  style.bold: true
  style.font-size: 30
}";
   statement "**.icon" "{
  near: bottom-center
}";
   statement "**" "{
  &shape: text
  style.font-size: 20
  style.bold: true
}"].

(** The identifiers the calls of a trace draw. *)
Definition traceCost (trace : list action) : nat :=
  sum_list (map (fun a => match action_call a with
                          | Some site => uuidCost (TaskCall_Vars (site_call site))
                          | None => 0
                          end) trace).

(** The failures a run can die of. *)
Definition runFailure (f : failure) : Prop :=
  f = LogFatal "Only version 3 Taskfiles are supported"
  \/ f = LogFatal "task cannot have both cmd and cmds"
  \/ f = PanicExplicit
  \/ f = PanicTypeAssertion
  \/ f = PanicNilMap.

(** The world a computation ends in, returned or dead. *)
Definition result_world {A} (r : result A) : World :=
  match r with
  | Returned _ w => w
  | Died _ w => w
  end.

(** [vars: {region: us-east, env: prod}] and the entry that carries it. *)
Definition sample_vars : gmap string any :=
  {[ "region" := AString "us-east"; "env" := AString "prod" ]}.

Definition sample_entry : gmap string any :=
  {[ "task" := AString "infra:provision"; "vars" := AMap sample_vars ]}.

(** [includes: {infra: ./infra}] and the tasks [build: {cmds: [go build]}],
    [test: {cmds: [go test]}] and
    [release: {desc: Ship it, silent: true, internal: true,
               requires: {vars: [REGION, {name: ENV, enum: [prod, staging]}]},
               deps: [build, {task: infra:provision, vars: {region: us-east, env: prod}}],
               cmds: [echo start, {task: build}, echo middle, {task: test}]}]. *)
Definition task_release : Task :=
  {| Desc := "Ship it"; Summary := EmptyString; Silent := true; Internal := true;
     Requires := {| Requires_Vars :=
                      [AString "REGION";
                       AMap {[ "name" := AString "ENV";
                               "enum" := ASlice [AString "prod"; AString "staging"] ]}] |};
     Task_Vars := ∅;
     Deps := [AString "build"; AMap sample_entry];
     Cmd := ANil;
     Cmds := Some [AString "echo start"; AMap {[ "task" := AString "build" ]};
                   AString "echo middle"; AMap {[ "task" := AString "test" ]}] |}.

Definition doc_release : Taskfile :=
  {| Includes := {[ "infra" := AString "./infra" ]}; Version := "3"; Vars := ∅;
     Tasks := {[ "build" := sample_task [] ANil (Some [AString "go build"]);
                 "test" := sample_task [] ANil (Some [AString "go test"]);
                 "release" := task_release ]} |}.

(** * Verification *)

(** * Reasoning about the monad *)

Lemma M_bind_Returned {A B} (c : M A) (k : A -> M B) w b w' :
  M_bind c k w = Returned b w' ->
  exists a w1, c w = Returned a w1 /\ k a w1 = Returned b w'.
Proof.
  unfold M_bind. destruct (c w) as [a w1|f w1]; [eauto | discriminate].
Qed.

Lemma M_bind_step {A B} (c : M A) (k : A -> M B) w a w1 :
  c w = Returned a w1 -> M_bind c k w = k a w1.
Proof. unfold M_bind. intros ->. reflexivity. Qed.

Lemma M_range_app {A} (body : A -> M unit) xs ys w :
  M_range body (xs ++ ys) w = M_bind (M_range body xs) (fun _ => M_range body ys) w.
Proof.
  revert w. induction xs as [|x xs IH]; intros w; simpl.
  - reflexivity.
  - unfold M_bind in *. destruct (body x w) as [[] w1|f w1]; [apply IH | reflexivity].
Qed.

Lemma M_range_map {A B} (g : A -> B) (body : B -> M unit) xs w :
  M_range body (map g xs) w = M_range (fun x => body (g x)) xs w.
Proof.
  revert w. induction xs as [|x xs IH]; intros w; simpl; [reflexivity|].
  unfold M_bind. destruct (body (g x) w) as [[] w1|f w1]; [apply IH | reflexivity].
Qed.

Lemma outcome_bind_Ok {A B} (o : outcome A) (k : A -> outcome B) b :
  outcome_bind o k = Ok b -> exists a, o = Ok a /\ k a = Ok b.
Proof. destruct o; simpl; [eauto | discriminate]. Qed.

Lemma outcome_mapM_Ok {A B} (f : A -> outcome B) xs ys :
  outcome_mapM f xs = Ok ys -> Forall2 (fun x y => f x = Ok y) xs ys.
Proof.
  revert ys. induction xs as [|x xs IH]; intros ys H; simpl in H.
  - inversion H. constructor.
  - apply outcome_bind_Ok in H as (y & Hy & H).
    apply outcome_bind_Ok in H as (ys' & Hys & H). inversion H. subst.
    constructor; auto.
Qed.

Lemma outcome_mapM_Failed {A B} (f : A -> outcome B) xs x e :
  x ∈ xs -> f x = Failed e -> exists e', outcome_mapM f xs = Failed e'.
Proof.
  intros Hin Hx. induction xs as [|y xs IH]; [inversion Hin|].
  apply elem_of_cons in Hin as [<-|Hin]; simpl.
  - rewrite Hx. simpl. eauto.
  - destruct (f y); simpl; [|eauto].
    destruct (IH Hin) as [e' ->]. simpl. eauto.
Qed.

(** * The writer *)

Lemma Write_one key value w :
  Write key [value] w = Returned tt (World_emit w [statement key value] 0).
Proof. reflexivity. Qed.

Lemma World_emit_nil w : World_emit w [] 0 = w.
Proof.
  destruct w as [[d] m u]. unfold World_emit. simpl. by rewrite app_nil_r.
Qed.

(** * Names and their namespace *)

Lemma strings_Contains_after s c :
  strings_Contains s c = true <-> is_Some (after c s).
Proof.
  induction s as [|a s IH]; simpl.
  - split; [discriminate | intros [? ?]; discriminate].
  - destruct (Ascii.eqb a c); [split; eauto | exact IH].
Qed.

Lemma strings_Contains_splitTarget name :
  strings_Contains name ":" = false <-> splitTarget name = None.
Proof.
  unfold splitTarget. pose proof (strings_Contains_after name ":") as H.
  destruct (after ":" name) as [sub|], (strings_Contains name ":"); split; try done.
  - intros _. destruct H as [_ H]. by specialize (H (mk_is_Some _ _ eq_refl)).
  - intros _. destruct H as [H _]. destruct (H eq_refl) as [? ?]. discriminate.
Qed.

Lemma strings_SplitN2_splitTarget name ns sub :
  splitTarget name = Some (ns, sub) ->
  strings_Contains name ":" = true /\ strings_SplitN2 name ":" = [ns; sub].
Proof.
  unfold splitTarget, strings_SplitN2. intros H.
  destruct (after ":" name) as [rest|] eqn:E; [|discriminate].
  inversion H. subst. split; [|reflexivity].
  apply strings_Contains_after. rewrite E. eauto.
Qed.

Lemma append_String a s t : String a s +:+ t = String a (s +:+ t).
Proof. reflexivity. Qed.

(** The pair determines the name: [name = ns:sub], and [ns] has no colon. *)
Lemma splitTarget_join name ns sub :
  splitTarget name = Some (ns, sub) -> name = ns +:+ ":" +:+ sub.
Proof.
  unfold splitTarget. revert ns sub. induction name as [|a s IH]; intros ns sub; simpl.
  - discriminate.
  - destruct (Ascii.eqb_spec a ":") as [->|Hne].
    + intros H. inversion H. reflexivity.
    + destruct (after ":" s) as [rest|] eqn:E; [|discriminate].
      intros H. inversion H. subst. rewrite append_String. f_equal.
      apply IH. reflexivity.
Qed.

Lemma splitTarget_namespace name ns sub :
  splitTarget name = Some (ns, sub) -> strings_Contains ns ":" = false.
Proof.
  unfold splitTarget. revert ns sub. induction name as [|a s IH]; intros ns sub; simpl.
  - discriminate.
  - destruct (Ascii.eqb_spec a ":") as [->|Hne].
    + intros H. inversion H. reflexivity.
    + destruct (after ":" s) as [rest|] eqn:E; [|discriminate].
      intros H. inversion H. subst. simpl.
      destruct (Ascii.eqb_spec a ":"); [done|]. eapply IH. reflexivity.
Qed.

Lemma splitTarget_of_join ns sub :
  strings_Contains ns ":" = false ->
  splitTarget (ns +:+ ":" +:+ sub) = Some (ns, sub).
Proof.
  unfold splitTarget. induction ns as [|a s IH]; [reflexivity|].
  rewrite append_String. simpl.
  destruct (Ascii.eqb a ":"); [discriminate|]. intros H.
  specialize (IH H). destruct (after ":" (s +:+ ":" +:+ sub)); [|discriminate].
  inversion IH. subst. repeat f_equal. congruence.
Qed.

Lemma splitTarget_inj name name' p :
  splitTarget name = Some p -> splitTarget name' = Some p -> name = name'.
Proof.
  destruct p as [ns sub]. intros H H'.
  apply splitTarget_join in H, H'. congruence.
Qed.

Lemma d2Name_flat name :
  strings_Contains name ":" = false -> d2Name name = name.
Proof.
  unfold d2Name. induction name as [|a s IH]; simpl; [reflexivity|].
  destruct (Ascii.eqb a ":"); [discriminate|]. intros H. by rewrite IH.
Qed.

(** * What one call of [EncapsulatePassedVars] does *)

Lemma passedVarStatements_run container passedVars w :
  M_range (passedVarStatements container) passedVars w
  = Returned tt (World_emit w (bindingsStatements container (uuidsDrawn w) passedVars)
                              (length passedVars)).
Proof.
  revert w. induction passedVars as [|v vs IH]; intros w; simpl.
  - by rewrite World_emit_nil.
  - unfold M_bind, passedVarStatements, M_bind, Write, NewString. simpl.
    rewrite IH. f_equal. unfold World_emit. simpl. f_equal.
    + f_equal. by rewrite <- !app_assoc.
    + lia.
Qed.

Lemma emitCallEdges_run source target taskCall first second w :
  emitCallEdges source target taskCall first second w
  = Returned tt (World_emit w
      (callStatements (uuidsDrawn w) source target (TaskCall_Vars taskCall) first second)
      (uuidCost (TaskCall_Vars taskCall))).
Proof.
  unfold emitCallEdges, callStatements, uuidCost.
  destruct (TaskCall_Vars taskCall) as [|v vs] eqn:E.
  - reflexivity.
  - unfold M_bind at 1. unfold NewString at 1. cbv beta iota.
    unfold M_bind at 1. unfold Write at 1. cbv beta iota.
    unfold M_bind at 1. unfold Write at 1. cbv beta iota.
    unfold M_bind at 1. unfold Write at 1. cbv beta iota.
    rewrite passedVarStatements_run. f_equal.
    unfold World_emit. simpl. f_equal.
    + f_equal. by rewrite <- !app_assoc.
    + lia.
Qed.
Lemma EncapsulatePassedVars_classify taskfile site w :
  EncapsulatePassedVars (site_source site) taskfile (site_call site)
    (site_first site) (site_second site) w
  = classifyTarget (d2Name (TaskName (site_call site))) taskfile (site_call site)
      (afterEdges site w).
Proof.
  unfold EncapsulatePassedVars. cbv zeta.
  erewrite M_bind_step by apply emitCallEdges_run. reflexivity.
Qed.

(** A target without a colon that is a key of [Tasks]: the edges only. *)
Lemma call_flat_known taskfile site w task :
  splitTarget (TaskName (site_call site)) = None ->
  Tasks taskfile !! TaskName (site_call site) = Some task ->
  EncapsulatePassedVars (site_source site) taskfile (site_call site)
    (site_first site) (site_second site) w
  = Returned tt (afterEdges site w).
Proof.
  intros Hflat Hknown. rewrite EncapsulatePassedVars_classify.
  apply strings_Contains_splitTarget in Hflat.
  unfold classifyTarget. rewrite Hflat, (d2Name_flat _ Hflat), Hknown. reflexivity.
Qed.

(** A target without a colon that is no key of [Tasks]: the edges, then
    the icon. *)
Lemma call_flat_unknown taskfile site w :
  splitTarget (TaskName (site_call site)) = None ->
  Tasks taskfile !! TaskName (site_call site) = None ->
  EncapsulatePassedVars (site_source site) taskfile (site_call site)
    (site_first site) (site_second site) w
  = Returned tt (World_emit (afterEdges site w)
                   [unknownIconStatement (TaskName (site_call site))] 0).
Proof.
  intros Hflat Hunknown. rewrite EncapsulatePassedVars_classify.
  apply strings_Contains_splitTarget in Hflat.
  unfold classifyTarget. rewrite Hflat, (d2Name_flat _ Hflat), Hunknown.
  rewrite Write_one. unfold unknownIconStatement. by rewrite (d2Name_flat _ Hflat).
Qed.

(** A namespaced target whose namespace has no memo: the assignment to
    the nil map panics, after the edges. *)
Lemma call_namespace_nil taskfile site w ns sub :
  splitTarget (TaskName (site_call site)) = Some (ns, sub) ->
  includesToIncludedTasks w !! ns = None ->
  EncapsulatePassedVars (site_source site) taskfile (site_call site)
    (site_first site) (site_second site) w
  = Died PanicNilMap (afterEdges site w).
Proof.
  intros Hsplit Hnil. rewrite EncapsulatePassedVars_classify.
  apply strings_SplitN2_splitTarget in Hsplit as [Hc Hs].
  unfold classifyTarget. rewrite Hc, Hs.
  unfold M_bind, memo_get, afterEdges, World_emit. simpl. rewrite Hnil. reflexivity.
Qed.

(** A namespaced target already in the memo of its namespace: the edges only. *)
Lemma call_namespace_seen taskfile site w ns sub tasks :
  splitTarget (TaskName (site_call site)) = Some (ns, sub) ->
  includesToIncludedTasks w !! ns = Some tasks ->
  sub ∈ tasks ->
  EncapsulatePassedVars (site_source site) taskfile (site_call site)
    (site_first site) (site_second site) w
  = Returned tt (afterEdges site w).
Proof.
  intros Hsplit Hmemo Hin. rewrite EncapsulatePassedVars_classify.
  apply strings_SplitN2_splitTarget in Hsplit as [Hc Hs].
  unfold classifyTarget. rewrite Hc, Hs.
  unfold M_bind, memo_get, afterEdges, World_emit. simpl. rewrite Hmemo. simpl.
  rewrite bool_decide_eq_true_2 by done. reflexivity.
Qed.

(** A namespaced target not yet in the memo of its namespace: the edges,
    the entry in the memo, the icon. *)
Lemma call_namespace_fresh taskfile site w ns sub tasks :
  splitTarget (TaskName (site_call site)) = Some (ns, sub) ->
  includesToIncludedTasks w !! ns = Some tasks ->
  sub ∉ tasks ->
  EncapsulatePassedVars (site_source site) taskfile (site_call site)
    (site_first site) (site_second site) w
  = Returned tt (World_emit (World_mark (afterEdges site w) ns sub tasks)
                   [unknownIconStatement (TaskName (site_call site))] 0).
Proof.
  intros Hsplit Hmemo Hin. rewrite EncapsulatePassedVars_classify.
  apply strings_SplitN2_splitTarget in Hsplit as [Hc Hs].
  unfold classifyTarget. rewrite Hc, Hs.
  unfold M_bind, memo_get, afterEdges, World_emit. simpl. rewrite Hmemo. simpl.
  rewrite bool_decide_eq_false_2 by done. reflexivity.
Qed.

(** Every call ends in one of the five ways. *)
Lemma EncapsulatePassedVars_outcome taskfile site w :
  callOutcome taskfile site w
    (EncapsulatePassedVars (site_source site) taskfile (site_call site)
       (site_first site) (site_second site) w).
Proof.
  destruct (splitTarget (TaskName (site_call site))) as [[ns sub]|] eqn:Hsplit.
  - destruct (includesToIncludedTasks w !! ns) as [tasks|] eqn:Hmemo.
    + destruct (decide (sub ∈ tasks)) as [Hin|Hin].
      * erewrite call_namespace_seen by eassumption. by eapply call_seen.
      * erewrite call_namespace_fresh by eassumption. by eapply call_fresh.
    + erewrite call_namespace_nil by eassumption. by eapply call_nil_memo.
  - destruct (Tasks taskfile !! TaskName (site_call site)) as [task|] eqn:Hknown.
    + erewrite call_flat_known by eassumption. by eapply call_known.
    + erewrite call_flat_unknown by eassumption. by eapply call_unknown.
Qed.

(** * The memo along a trace *)

Lemma afterEdges_memo site w :
  includesToIncludedTasks (afterEdges site w) = includesToIncludedTasks w.
Proof. reflexivity. Qed.

Lemma perform_memo taskfile a w w' :
  perform taskfile a w = Returned tt w' ->
  includesToIncludedTasks w' = memo_step (includesToIncludedTasks w) a.
Proof.
  destruct a as [key value|site]; unfold memo_step; simpl.
  - rewrite Write_one. intros H. inversion H. reflexivity.
  - intros H. pose proof (EncapsulatePassedVars_outcome taskfile site w) as Hcase.
    rewrite H in Hcase.
    inversion Hcase as [task Hs Hk|Hs Hk|ns sub Hs Hm|ns sub tasks Hs Hm Hin
                        |ns sub tasks Hs Hm Hin]; subst; rewrite Hs; try reflexivity.
    + rewrite Hm. simpl.
      assert ({[sub]} ∪ tasks = tasks) as Hsame.
      { apply set_eq. intros x. rewrite elem_of_union, elem_of_singleton.
        split; [intros [->|?]; done | auto]. }
      by rewrite Hsame, insert_id.
    + by rewrite Hm.
Qed.

Lemma replay_memo taskfile trace w w' :
  replay taskfile trace w = Returned tt w' ->
  includesToIncludedTasks w' = foldl memo_step (includesToIncludedTasks w) trace.
Proof.
  unfold replay. revert w. induction trace as [|a trace IH]; intros w H; simpl in *.
  - inversion H. reflexivity.
  - apply M_bind_Returned in H as ([] & w1 & Ha & H).
    rewrite (IH _ H). f_equal. by apply (perform_memo taskfile).
Qed.

Lemma memo_step_None memo a ns :
  memo !! ns = None -> memo_step memo a !! ns = None.
Proof.
  intros H. unfold memo_step.
  destruct (action_call a) as [site|]; [|done].
  destruct (splitTarget _) as [[ns' sub']|]; [|done].
  destruct (memo !! ns') as [tasks|] eqn:E; [|done].
  rewrite lookup_insert_ne; [done|]. congruence.
Qed.

Lemma memo_fold_None memo trace ns :
  memo !! ns = None -> foldl memo_step memo trace !! ns = None.
Proof.
  revert memo. induction trace as [|a trace IH]; intros memo H; simpl; [done|].
  apply IH. by apply memo_step_None.
Qed.

(** The memo of a namespace holds what it held plus the sub-tasks of the
    calls made into the namespace. *)
Lemma memo_fold_Some memo trace ns tasks :
  memo !! ns = Some tasks ->
  exists tasks', foldl memo_step memo trace !! ns = Some tasks' /\
    forall sub, sub ∈ tasks' <->
      sub ∈ tasks \/ exists name, name ∈ calledNames trace /\ splitTarget name = Some (ns, sub).
Proof.
  revert memo tasks. induction trace as [|a trace IH]; intros memo tasks H; simpl.
  - exists tasks. split; [done|]. intros sub. split; [auto|].
    intros [?|(name & Hin & _)]; [done|]. inversion Hin.
  - assert (exists tasks1, memo_step memo a !! ns = Some tasks1 /\
              forall sub, sub ∈ tasks1 <->
                sub ∈ tasks \/ exists site, action_call a = Some site /\
                  splitTarget (TaskName (site_call site)) = Some (ns, sub))
      as (tasks1 & H1 & Hiff1).
    { unfold memo_step. destruct (action_call a) as [site|].
      - destruct (splitTarget (TaskName (site_call site))) as [[ns' sub']|] eqn:Hs.
        + destruct (memo !! ns') as [tasks0|] eqn:E.
          * destruct (decide (ns' = ns)) as [->|Hne].
            -- rewrite lookup_insert_eq. eexists. split; [done|].
               intros sub. rewrite elem_of_union, elem_of_singleton.
               assert (tasks0 = tasks) as -> by congruence.
               split.
               ++ intros [->|?]; [right; eauto | by left].
               ++ intros [?|(site' & Hsite & Hs')]; [by right|].
                  left. inversion Hsite. subst. congruence.
            -- rewrite lookup_insert_ne by done. exists tasks. split; [done|].
               intros sub. split; [auto|].
               intros [?|(site' & Hsite & Hs')]; [done|].
               inversion Hsite. subst. congruence.
          * exists tasks. split; [done|]. intros sub. split; [auto|].
            intros [?|(site' & Hsite & Hs')]; [done|].
            inversion Hsite. subst. congruence.
        + exists tasks. split; [done|]. intros sub. split; [auto|].
          intros [?|(site' & Hsite & Hs')]; [done|].
          inversion Hsite. subst. congruence.
      - exists tasks. split; [done|]. intros sub. split; [auto|].
        intros [?|(site' & Hsite & _)]; [done|]. discriminate. }
    destruct (IH _ _ H1) as (tasks' & H' & Hiff'). exists tasks'. split; [done|].
    intros sub. rewrite Hiff', Hiff1. unfold calledNames. simpl.
    destruct (action_call a) as [site|]; simpl.
    + split.
      * intros [[?|(site' & Hsite & Hs)]|(name & Hin & Hs)]; [by left| |].
        -- inversion Hsite. subst. right. eexists. split; [apply elem_of_cons; by left|done].
        -- right. exists name. split; [apply elem_of_cons; by right|done].
      * intros [?|(name & Hin & Hs)]; [by left; left|].
        apply elem_of_cons in Hin as [->|Hin].
        -- left. right. eauto.
        -- right. eauto.
    + split.
      * intros [[?|(site' & Hsite & _)]|?]; [by left|discriminate|by right].
      * intros [?|?]; [by left; left|by right].
Qed.

(** * Cutting a trace at an action *)

Lemma replay_app taskfile t1 t2 w :
  replay taskfile (t1 ++ t2) w
  = M_bind (replay taskfile t1) (fun _ => replay taskfile t2) w.
Proof. apply M_range_app. Qed.

Lemma replay_at taskfile trace i a w w' :
  replay taskfile trace w = Returned tt w' ->
  trace !! i = Some a ->
  exists wi wi',
    replay taskfile (take i trace) w = Returned tt wi /\
    perform taskfile a wi = Returned tt wi' /\
    replay taskfile (drop (S i) trace) wi' = Returned tt w'.
Proof.
  intros Hrun Hi. rewrite <- (take_drop_middle _ _ _ Hi) in Hrun.
  rewrite (replay_app taskfile) in Hrun.
  apply M_bind_Returned in Hrun as ([] & wi & Hpre & Hrest).
  unfold replay in Hrest. simpl in Hrest.
  apply M_bind_Returned in Hrest as ([] & wi' & Ha & Hpost).
  exists wi, wi'. auto.
Qed.

(** * A run and its trace *)

Lemma M_bind_ext {A B} (c c' : M A) (k k' : A -> M B) w :
  c w = c' w -> (forall a w1, k a w1 = k' a w1) -> M_bind c k w = M_bind c' k' w.
Proof.
  intros Hc Hk. unfold M_bind. rewrite Hc. destruct (c' w); [apply Hk | reflexivity].
Qed.

Lemma M_lift_Returned {A} (o : outcome A) w a w' :
  M_lift o w = Returned a w' -> o = Ok a /\ w' = w.
Proof. destruct o; simpl; intros H; inversion H; auto. Qed.

Lemma M_range_concat_replay {A} taskfile (body : A -> M unit) (actions : A -> list action)
    xs w :
  (forall x w1, body x w1 = replay taskfile (actions x) w1) ->
  M_range body xs w = replay taskfile (concat (map actions xs)) w.
Proof.
  intros Hbody. revert w. induction xs as [|x xs IH]; intros w; [reflexivity|].
  simpl. rewrite (replay_app taskfile). apply M_bind_ext; [apply Hbody|].
  intros _ w1. apply IH.
Qed.

Lemma callsLoop_replay taskfile taskName callCount calls w :
  callsLoop taskName taskfile callCount calls w
  = replay taskfile (map DoCall (inlineSites taskName callCount calls)) w.
Proof.
  revert callCount w. induction calls as [|c calls IH]; intros callCount w; [reflexivity|].
  simpl. unfold replay. simpl. apply M_bind_ext; [reflexivity|].
  intros _ w1. apply IH.
Qed.

Lemma depCalls_replay taskfile taskName depCalls w :
  M_range (fun depCall =>
             EncapsulatePassedVars taskName taskfile depCall "calls as dependency"
               "passed to {style {stroke-dash: 3; stroke: green}}")
          depCalls w
  = replay taskfile (map (fun c => DoCall (dependencySite taskName c)) depCalls) w.
Proof. unfold replay. rewrite M_range_map. reflexivity. Qed.

Lemma emitTask_replay taskfile taskName trace w :
  taskTrace taskfile taskName = Ok trace ->
  emitTask taskfile taskName w = replay taskfile trace w.
Proof.
  unfold taskTrace, emitTask. cbv zeta.
  set (task := default Task_zero (Tasks taskfile !! taskName)).
  intros H.
  apply outcome_bind_Ok in H as (requiredVars & Hreq & H).
  apply outcome_bind_Ok in H as (depCalls & Hdep & H).
  apply outcome_bind_Ok in H as (calls & Hcalls & H).
  inversion H as [Htrace]. clear H Htrace. rewrite Hreq, Hdep, Hcalls.
  rewrite (replay_app taskfile).
  assert (forall (k : M unit) w0,
    M_bind (if negb (String.eqb (Desc task) EmptyString)
               || negb (String.eqb (Summary task) EmptyString)
            then Write ("'" +:+ taskName +:+ "'.Text")
                   ["|md" +:+ newline +:+ markdownText task +:+ "|"]
            else M_ret tt)
      (fun _ =>
         M_bind (if Silent task
                 then Write ("'" +:+ taskName +:+ "'.style.fill") ["grey"]
                 else M_ret tt)
           (fun _ =>
              M_bind (Write ("'" +:+ taskName +:+ "'.icon")
                        ["${" +:+ (if Internal task then internalTaskIconName
                                   else externalTaskIconName) +:+ "}"])
                (fun _ => k))) w0
    = M_bind (replay taskfile (taskHeader taskName task)) (fun _ => k) w0) as Hheader.
  { intros k w0. unfold taskHeader.
    destruct (negb (String.eqb (Desc task) EmptyString)
              || negb (String.eqb (Summary task) EmptyString)), (Silent task);
      reflexivity. }
  rewrite Hheader. apply M_bind_ext; [reflexivity|]. intros _ w1.
  unfold M_bind at 1. simpl M_lift. cbv beta iota.
  rewrite (replay_app taskfile). apply M_bind_ext;
    [apply (M_range_concat_replay taskfile); intros rv w2; reflexivity|].
  intros _ w2. unfold M_bind at 1. simpl M_lift. cbv beta iota.
  rewrite (replay_app taskfile). apply M_bind_ext; [apply depCalls_replay|].
  intros _ w3. unfold M_bind at 1. simpl M_lift. cbv beta iota.
  apply callsLoop_replay.
Qed.

Lemma emitTask_Returned taskfile taskName w w' :
  emitTask taskfile taskName w = Returned tt w' ->
  exists trace, taskTrace taskfile taskName = Ok trace.
Proof.
  unfold emitTask, taskTrace. cbv zeta.
  set (task := default Task_zero (Tasks taskfile !! taskName)).
  intros H.
  apply M_bind_Returned in H as (_ & w1 & _ & H).
  apply M_bind_Returned in H as (_ & w2 & _ & H).
  apply M_bind_Returned in H as (_ & w3 & _ & H).
  apply M_bind_Returned in H as (requiredVars & w4 & Hreq & H).
  apply M_lift_Returned in Hreq as [-> _].
  apply M_bind_Returned in H as (_ & w5 & _ & H).
  apply M_bind_Returned in H as (depCalls & w6 & Hdep & H).
  apply M_lift_Returned in Hdep as [-> _].
  apply M_bind_Returned in H as (_ & w7 & _ & H).
  apply M_bind_Returned in H as (calls & w8 & Hcalls & H).
  apply M_lift_Returned in Hcalls as [-> _].
  simpl. eauto.
Qed.

Lemma emitTasks_Returned taskfile names w w' :
  M_range (emitTask taskfile) names w = Returned tt w' ->
  exists traces,
    outcome_mapM (taskTrace taskfile) names = Ok traces /\
    replay taskfile (concat traces) w = Returned tt w'.
Proof.
  revert w. induction names as [|name names IH]; intros w H; simpl in H.
  - inversion H. subst. exists []. split; reflexivity.
  - apply M_bind_Returned in H as ([] & w1 & Hname & H).
    destruct (emitTask_Returned _ _ _ _ Hname) as [trace Htrace].
    destruct (IH _ H) as (traces & Htraces & Hreplay).
    exists (trace :: traces). simpl. rewrite Htrace, Htraces. simpl. split; [reflexivity|].
    rewrite (replay_app taskfile).
    erewrite M_bind_step; [exact Hreplay|].
    rewrite <- (emitTask_replay _ _ _ _ Htrace). exact Hname.
Qed.

(** The run up to the first task: two statements, one per include, and
    the memo of every include made afresh. *)
Lemma emitIncludes_run taskfile w :
  emitIncludes taskfile w
  = Returned tt
      {| d2Writer := {| data := data (d2Writer w)
                                ++ map includeStatement (GetIncludes taskfile) |};
         includesToIncludedTasks :=
           memo_made (includesToIncludedTasks w) (GetIncludes taskfile);
         uuidsDrawn := uuidsDrawn w |}.
Proof.
  unfold emitIncludes. generalize (GetIncludes taskfile) as includes.
  intros includes. revert w. induction includes as [|include includes IH]; intros w; simpl.
  - destruct w as [[d] m u]. simpl. by rewrite app_nil_r.
  - unfold M_bind at 1. unfold M_bind at 1. simpl. rewrite IH. simpl.
    f_equal. f_equal. f_equal. by rewrite <- app_assoc.
Qed.

Lemma runToTasks_run taskfile w :
  runToTasks taskfile w
  = Returned tt
      {| d2Writer := {| data := [statement "vars" d2Vars;
                                 statement (uuid_NewString (uuidsDrawn w)) legendBlock]
                                ++ map includeStatement (GetIncludes taskfile) |};
         includesToIncludedTasks :=
           memo_made (includesToIncludedTasks w) (GetIncludes taskfile);
         uuidsDrawn := S (uuidsDrawn w) |}.
Proof.
  unfold runToTasks.
  do 4 (erewrite M_bind_step by reflexivity).
  rewrite emitIncludes_run. reflexivity.
Qed.

(** A run that returns is: the part up to the first task, the replay of
    the trace, the style rules; the text is the writer joined by newlines. *)
Lemma TaskfileToD2_Returned taskfile w text w' :
  TaskfileToD2 taskfile w = Returned text w' ->
  Version taskfile = "3" /\
  exists trace wS wT,
    runTrace taskfile = Ok trace /\
    runToTasks taskfile w = Returned tt wS /\
    replay taskfile trace wS = Returned tt wT /\
    styleRules wT = Returned tt w' /\
    text = D2Writer_String (d2Writer w').
Proof.
  unfold TaskfileToD2.
  destruct (String.eqb_spec (Version taskfile) "3") as [Hv|Hv]; simpl; [|discriminate].
  intros H. split; [exact Hv|].
  destruct (runToTasks taskfile w) as [[] wS|] eqn:HS;
    [|by rewrite runToTasks_run in HS].
  assert (M_bind (emitTasks taskfile)
            (fun _ => M_bind styleRules (fun _ => writerString)) wS
          = Returned text w') as H'.
  { rewrite <- H. unfold runToTasks in HS. unfold M_bind in *.
    destruct (newWriter w) as [[] w1|]; [|discriminate].
    destruct (Write "vars" [d2Vars] w1) as [[] w2|]; [|discriminate].
    destruct (NewString w2) as [u w3|]; [|discriminate].
    destruct (Write u [legendBlock] w3) as [[] w4|]; [|discriminate].
    rewrite HS. reflexivity. }
  apply M_bind_Returned in H' as ([] & wT & Htasks & H').
  apply M_bind_Returned in H' as ([] & w2 & Hstyle & H').
  unfold writerString in H'. inversion H'. subst.
  destruct (emitTasks_Returned _ _ _ _ Htasks) as (traces & Htraces & Hreplay).
  exists (concat traces), wS, wT. unfold runTrace. rewrite Htraces. simpl. auto.
Qed.

(** * Keys, their order and what the loops visit *)

Lemma slices_Sorted_elem keys k : k ∈ slices_Sorted keys <-> k ∈ keys.
Proof. unfold slices_Sorted. by rewrite merge_sort_Permutation. Qed.

Lemma slices_Sorted_sorted keys : StronglySorted String.le (slices_Sorted keys).
Proof. apply StronglySorted_merge_sort; apply _. Qed.

Lemma slices_Sorted_strict keys :
  NoDup keys -> StronglySorted String_lt (slices_Sorted keys).
Proof.
  intros Hnd. assert (NoDup (slices_Sorted keys)) as Hnd'.
  { unfold slices_Sorted. by rewrite merge_sort_Permutation. }
  pose proof (slices_Sorted_sorted keys) as Hs.
  induction Hs as [|k l Hs IH Hall]; [constructor|].
  apply NoDup_cons in Hnd' as [Hk Hl]. constructor; [by apply IH|].
  rewrite Forall_forall in *. intros k' Hk'. split; [by apply Hall|].
  intros ->. contradiction.
Qed.

Lemma outcome_mapM_elem {A B} (f : A -> outcome B) xs ys x :
  outcome_mapM f xs = Ok ys -> x ∈ xs -> exists y, f x = Ok y /\ y ∈ ys.
Proof.
  intros H Hin. apply outcome_mapM_Ok in H.
  apply list_elem_of_lookup in Hin as [i Hi].
  destruct (Forall2_lookup_l _ _ _ _ _ H Hi) as (y & Hy & Hxy).
  exists y. split; [done|]. apply list_elem_of_lookup. eauto.
Qed.

Lemma inlineSites_elem taskName callCount calls c :
  c ∈ calls ->
  exists site, site ∈ inlineSites taskName callCount calls /\ site_call site = c
               /\ site_source site = taskName.
Proof.
  revert callCount. induction calls as [|c' calls IH]; intros callCount Hin;
    [inversion Hin|].
  apply elem_of_cons in Hin as [->|Hin]; simpl.
  - eexists. split; [apply elem_of_cons; by left|]. done.
  - destruct (IH (uint_succ callCount) Hin) as (site & Hs & Hc).
    exists site. split; [apply elem_of_cons; by right|done].
Qed.

Lemma GetCmds_both task :
  Cmd task <> ANil -> Cmds task <> None ->
  GetCmds task = Failed (LogFatal "task cannot have both cmd and cmds").
Proof.
  intros Hcmd Hcmds. unfold GetCmds.
  destruct (Cmd task); try contradiction;
    (destruct (Cmds task); [reflexivity | contradiction]).
Qed.

Lemma GetCmds_Ok task cmds cmd :
  GetCmds task = Ok cmds ->
  cmd <> ANil ->
  cmd = Cmd task \/ cmd ∈ default [] (Cmds task) ->
  cmd ∈ cmds.
Proof.
  unfold GetCmds. intros H Hnil Hcmd.
  destruct (Cmd task) eqn:Ecmd; simpl in H.
  1: { inversion H. subst. destruct Hcmd as [->|Hcmd]; [contradiction|exact Hcmd]. }
  all: destruct (Cmds task) as [cmdList|] eqn:Ecmds; simpl in H; [discriminate|];
    inversion H; subst; destruct Hcmd as [->|Hcmd];
    [apply elem_of_cons; by left | inversion Hcmd].
Qed.

Lemma depTarget_depCall dep target :
  depTarget dep = Some target -> exists c, depCall dep = Ok c /\ TaskName c = target.
Proof.
  destruct dep as [|name|z|bits|b|l|m]; simpl; try discriminate.
  - intros H. inversion H. eauto.
  - destruct (m !! "task") as [[|name| | | | |]|]; try discriminate.
    intros H. inversion H. eauto.
Qed.

Lemma cmdTarget_cmdCall cmd target :
  cmdTarget cmd = Some target -> exists c, cmdCall cmd = Some c /\ TaskName c = target.
Proof.
  destruct cmd as [|name|z|bits|b|l|m]; simpl; try discriminate.
  destruct (m !! "task") as [[|name| | | | |]|]; try discriminate.
  intros H. inversion H. eauto.
Qed.

(** Every call of a task is a call site of the task's trace. *)
Lemma taskTrace_calls taskfile taskName trace target :
  taskTrace taskfile taskName = Ok trace ->
  callsTarget (default Task_zero (Tasks taskfile !! taskName)) target ->
  exists site, DoCall site ∈ trace /\ TaskName (site_call site) = target.
Proof.
  unfold taskTrace. cbv zeta.
  set (task := default Task_zero (Tasks taskfile !! taskName)).
  intros H Hcalls.
  apply outcome_bind_Ok in H as (requiredVars & Hreq & H).
  apply outcome_bind_Ok in H as (depCalls & Hdep & H).
  apply outcome_bind_Ok in H as (calls & Hcalls' & H).
  inversion H as [Htrace]. clear H.
  destruct Hcalls as [(dep & Hin & Ht)|(cmd & Hin & Ht)].
  - apply depTarget_depCall in Ht as (c & Hc & Ht).
    destruct (outcome_mapM_elem _ _ _ _ Hdep Hin) as (c' & Hc' & Hin').
    assert (c' = c) as -> by congruence.
    exists (dependencySite taskName c). split; [|exact Ht].
    rewrite !elem_of_app. right. right. left.
    apply list_elem_of_fmap. eauto.
  - apply cmdTarget_cmdCall in Ht as (c & Hc & Ht).
    unfold GetCalls in Hcalls'.
    apply outcome_bind_Ok in Hcalls' as (cmds & Hcmds & Hcalls').
    inversion Hcalls'. subst calls.
    assert (cmd ∈ cmds) as Hcmd.
    { eapply GetCmds_Ok; [exact Hcmds| |exact Hin]. intros ->. discriminate. }
    assert (c ∈ omap cmdCall cmds) as Hc'.
    { apply list_elem_of_omap. eauto. }
    destruct (inlineSites_elem taskName 0%N _ _ Hc') as (site & Hs & Hsc & _).
    exists site. split; [|by rewrite Hsc].
    rewrite !elem_of_app. right. right. right.
    apply list_elem_of_fmap. eauto.
Qed.

Section RangeOrder.

(** A [range] over a map visits every key once. *)
Hypothesis rangeOrder_permutes : forall keys, rangeOrder keys ≡ₚ keys.

Lemma maps_Keys_elem {V} (m : gmap string V) k :
  k ∈ maps_Keys m <-> is_Some (m !! k).
Proof.
  unfold maps_Keys. rewrite rangeOrder_permutes.
  change (map fst (map_to_list m)) with ((map_to_list m).*1).
  rewrite list_elem_of_fmap. split.
  - intros ([k' v] & -> & Hin). apply elem_of_map_to_list in Hin. simpl. eauto.
  - intros [v Hv]. exists (k, v). split; [done|]. by apply elem_of_map_to_list.
Qed.

Lemma maps_Keys_NoDup {V} (m : gmap string V) : NoDup (maps_Keys m).
Proof.
  unfold maps_Keys. rewrite rangeOrder_permutes. apply NoDup_fst_map_to_list.
Qed.

(** Sorting makes the visiting order immaterial. *)
Lemma slices_Sorted_maps_Keys {V} (m : gmap string V) :
  slices_Sorted (maps_Keys m) = merge_sort String.le (map_to_list m).*1.
Proof.
  apply (Sorted_unique String.le).
  - apply Sorted_merge_sort; apply _.
  - apply Sorted_merge_sort; apply _.
  - unfold slices_Sorted, maps_Keys.
    rewrite !merge_sort_Permutation. apply rangeOrder_permutes.
Qed.

(** The loop over the tasks visits the keys of [Tasks], each once, in
    strictly ascending order, whatever the order of the [range]. *)
Lemma emitTasks_order taskfile :
  StronglySorted String_lt (slices_Sorted (maps_Keys (Tasks taskfile)))
  /\ forall taskName,
       taskName ∈ slices_Sorted (maps_Keys (Tasks taskfile))
       <-> is_Some (Tasks taskfile !! taskName).
Proof.
  split; [apply slices_Sorted_strict, maps_Keys_NoDup|].
  intros taskName. by rewrite slices_Sorted_elem, maps_Keys_elem.
Qed.

(** A run that returns has the trace of each of its tasks in its trace. *)
Lemma runTrace_task taskfile trace taskName task :
  runTrace taskfile = Ok trace ->
  Tasks taskfile !! taskName = Some task ->
  exists taskActions,
    taskTrace taskfile taskName = Ok taskActions /\
    forall a, a ∈ taskActions -> a ∈ trace.
Proof.
  unfold runTrace. intros H Htask.
  apply outcome_bind_Ok in H as (traces & Htraces & H). inversion H. subst trace.
  assert (taskName ∈ slices_Sorted (maps_Keys (Tasks taskfile))) as Hin.
  { apply slices_Sorted_elem, maps_Keys_elem. eauto. }
  destruct (outcome_mapM_elem _ _ _ _ Htraces Hin) as (taskActions & Ht & Hin').
  exists taskActions. split; [exact Ht|].
  intros a Ha. apply list_elem_of_In, in_concat. exists taskActions.
  split; by apply list_elem_of_In.
Qed.

Lemma memo_made_lookup memo includes ns :
  memo_made memo includes !! ns = if decide (ns ∈ includes) then Some ∅ else memo !! ns.
Proof.
  unfold memo_made. revert memo. induction includes as [|i includes IH]; intros memo; simpl.
  - destruct (decide (ns ∈ [])) as [Hin|]; [inversion Hin|done].
  - rewrite IH. destruct (decide (ns ∈ includes)) as [Hin|Hin].
    + rewrite decide_True; [done|]. apply elem_of_cons. by right.
    + destruct (decide (ns = i)) as [->|Hne].
      * rewrite decide_True by (apply elem_of_cons; by left).
        by rewrite lookup_insert_eq.
      * rewrite decide_False.
        -- by rewrite lookup_insert_ne.
        -- intros [?|?]%elem_of_cons; contradiction.
Qed.

(** * Fatal inputs *)

Lemma TaskfileToD2_version taskfile w :
  Version taskfile <> "3" ->
  TaskfileToD2 taskfile w
  = Died (LogFatal "Only version 3 Taskfiles are supported") w.
Proof.
  intros Hv. unfold TaskfileToD2.
  destruct (String.eqb_spec (Version taskfile) "3"); [contradiction|reflexivity].
Qed.

(** C8. A document whose version is not the string [3] (any other value,
    or none, which decodes to the empty string) makes [TaskfileToD2] die
    in [log.Fatal] at once: the world is the one it was called in, so no
    writer was allocated, no statement written and no identifier drawn,
    and no text is returned. *)
Theorem C8_unsupported_version_is_fatal taskfile w :
  Version taskfile <> "3" ->
  TaskfileToD2 taskfile w
  = Died (LogFatal "Only version 3 Taskfiles are supported") w
  /\ (forall text w', TaskfileToD2 taskfile w <> Returned text w')
  /\ result_outcome (TaskfileToD2 taskfile w)
     = Failed (LogFatal "Only version 3 Taskfiles are supported").
Proof.
  intros Hv. pose proof (TaskfileToD2_version taskfile w Hv) as Hdied.
  split; [exact Hdied|]. split.
  - intros text w' Hreturned. rewrite Hdied in Hreturned. discriminate Hreturned.
  - rewrite Hdied. reflexivity.
Qed.

Lemma TaskfileToD2_dies taskfile w :
  (forall text w', TaskfileToD2 taskfile w <> Returned text w') ->
  exists f w', TaskfileToD2 taskfile w = Died f w'.
Proof.
  intros H. destruct (TaskfileToD2 taskfile w) as [text w'|f w'] eqn:E; [|eauto].
  by destruct (H text w').
Qed.

(** C9. A task with both [cmd] and [cmds] makes [GetCmds] die in
    [log.Fatal], and [TaskfileToD2] on a document with such a task never
    returns a text: it dies, there or earlier. *)
Theorem C9_cmd_and_cmds_is_fatal taskfile taskName task w :
  Tasks taskfile !! taskName = Some task ->
  Cmd task <> ANil ->
  Cmds task <> None ->
  GetCmds task = Failed (LogFatal "task cannot have both cmd and cmds")
  /\ exists f w', TaskfileToD2 taskfile w = Died f w'.
Proof.
  intros Htask Hcmd Hcmds.
  pose proof (GetCmds_both task Hcmd Hcmds) as Hfatal. split; [exact Hfatal|].
  apply TaskfileToD2_dies. intros text w' Hrun.
  apply TaskfileToD2_Returned in Hrun as (_ & trace & wS & wT & Htrace & _).
  destruct (runTrace_task _ _ _ _ Htrace Htask) as (actions & Hactions & _).
  unfold taskTrace in Hactions. rewrite Htask in Hactions. simpl in Hactions.
  apply outcome_bind_Ok in Hactions as (requiredVars & _ & Hactions).
  apply outcome_bind_Ok in Hactions as (depCalls & _ & Hactions).
  apply outcome_bind_Ok in Hactions as (calls & Hcalls & _).
  unfold GetCalls in Hcalls. rewrite Hfatal in Hcalls. discriminate.
Qed.

(** C3. A document with a call of [ns:sub] whose namespace is no key of
    [includes], run in a world whose memo has no entry for [ns] (as at
    process start), never returns: the call, once reached, assigns into
    the nil map and panics. *)
Theorem C3_undeclared_namespace_panics taskfile taskName task target ns sub w :
  Tasks taskfile !! taskName = Some task ->
  callsTarget task target ->
  splitTarget target = Some (ns, sub) ->
  Includes taskfile !! ns = None ->
  includesToIncludedTasks w !! ns = None ->
  (forall site wi,
     TaskName (site_call site) = target ->
     includesToIncludedTasks wi !! ns = None ->
     EncapsulatePassedVars (site_source site) taskfile (site_call site)
       (site_first site) (site_second site) wi
     = Died PanicNilMap (afterEdges site wi))
  /\ exists f w', TaskfileToD2 taskfile w = Died f w'.
Proof.
  intros Htask Hcalls Hsplit Hinc Hmemo. split.
  { intros site wi <- Hnil. by eapply call_namespace_nil. }
  apply TaskfileToD2_dies. intros text w' Hrun.
  apply TaskfileToD2_Returned in Hrun
    as (_ & trace & wS & wT & Htrace & HS & Hreplay & _).
  destruct (runTrace_task _ _ _ _ Htrace Htask) as (actions & Hactions & Hsub).
  destruct (taskTrace_calls _ _ _ target Hactions) as (site & Hsite & Htarget).
  { by rewrite Htask. }
  apply Hsub, list_elem_of_lookup in Hsite as [i Hi].
  destruct (replay_at _ _ _ _ _ _ Hreplay Hi) as (wi & wi' & Hpre & Hcall & _).
  rewrite runToTasks_run in HS. inversion HS as [HwS]. clear HS.
  apply replay_memo in Hpre.
  assert (includesToIncludedTasks wi !! ns = None) as Hnil.
  { rewrite Hpre. apply memo_fold_None. rewrite <- HwS. simpl.
    rewrite memo_made_lookup. rewrite decide_False; [exact Hmemo|].
    unfold GetIncludes. rewrite maps_Keys_elem, Hinc. by intros [? ?]. }
  simpl in Hcall. rewrite <- Htarget in Hsplit.
  erewrite call_namespace_nil in Hcall by eassumption. discriminate.
Qed.

(** * Required variables *)

Lemma enumString_Ok enums strs :
  outcome_mapM enumString enums = Ok strs <-> enums = AString <$> strs.
Proof.
  revert strs. induction enums as [|e enums IH]; intros strs; simpl.
  - split.
    + intros H. inversion H. reflexivity.
    + destruct strs; [reflexivity|discriminate].
  - split.
    + intros H. apply outcome_bind_Ok in H as (s & Hs & H).
      apply outcome_bind_Ok in H as (strs' & Hstrs & H). inversion H. subst.
      destruct e; try discriminate. inversion Hs. subst.
      simpl. f_equal. by apply IH.
    + destruct strs as [|s strs]; [discriminate|]. intros H. inversion H. subst.
      simpl. destruct (IH strs) as [_ ->]; reflexivity.
Qed.

Lemma requiredVar_Ok entry rv :
  requiredVar entry = Ok rv <-> requiredVarOf entry rv.
Proof.
  split.
  - destruct entry as [|name|z|bits|b|l|m]; simpl; try discriminate.
    + intros H. inversion H. constructor.
    + destruct (m !! "name") as [[|name| | | | |]|] eqn:Hname; try discriminate.
      destruct (m !! "enum") as [[| | | | |enums|]|] eqn:Henum; try discriminate.
      intros H. apply outcome_bind_Ok in H as (strs & Hstrs & H). inversion H. subst.
      apply enumString_Ok in Hstrs as ->. by constructor.
  - intros [name|m name enum Hname Henum]; simpl; [reflexivity|].
    rewrite Hname, Henum.
    destruct (enumString_Ok (AString <$> enum) enum) as [_ ->]; reflexivity.
Qed.

Lemma outcome_mapM_iff {A B} (f : A -> outcome B) xs ys :
  outcome_mapM f xs = Ok ys <-> Forall2 (fun x y => f x = Ok y) xs ys.
Proof.
  split; [apply outcome_mapM_Ok|].
  induction 1 as [|x y xs ys Hxy _ IH]; simpl; [reflexivity|].
  by rewrite Hxy, IH.
Qed.

Lemma enumString_failure enums f :
  outcome_mapM enumString enums = Failed f -> f = PanicTypeAssertion.
Proof.
  induction enums as [|e enums IH]; simpl; [discriminate|].
  destruct e; simpl; try (intros H; by inversion H).
  destruct (outcome_mapM enumString enums); simpl; [discriminate|].
  intros H. inversion H. subst. by apply IH.
Qed.

Lemma requiredVar_failure entry f :
  requiredVar entry = Failed f -> f = PanicTypeAssertion \/ f = PanicExplicit.
Proof.
  destruct entry as [|name|z|bits|b|l|m]; simpl;
    try (intros H; inversion H; by auto).
  destruct (m !! "name") as [[|name| | | | |]|]; try (intros H; inversion H; by auto).
  destruct (m !! "enum") as [[| | | | |enums|]|]; try (intros H; inversion H; by auto).
  destruct (outcome_mapM enumString enums) eqn:E; simpl; [discriminate|].
  intros H. inversion H. subst. left. by eapply enumString_failure.
Qed.

Lemma requiredVar_no_enum entry :
  entry !! "enum" = None -> requiredVar (AMap entry) = Failed PanicTypeAssertion.
Proof.
  intros H. simpl. rewrite H.
  by destruct (entry !! "name") as [[|name| | | | |]|].
Qed.

(** C7 (amended). [GetRequiredVars] returns exactly when every entry is a
    bare string, which yields its name and no enumeration, or a
    structured entry with a string [name] and an [enum] list of strings,
    which yields the name and these strings; in every other case it
    panics, in particular on a structured entry without [enum]. *)
Theorem C7_required_vars_shapes task :
  (forall requiredVars,
     GetRequiredVars task = Ok requiredVars
     <-> Forall2 requiredVarOf (Requires_Vars (Requires task)) requiredVars)
  /\ (forall f, GetRequiredVars task = Failed f ->
                f = PanicTypeAssertion \/ f = PanicExplicit)
  /\ (forall entry, AMap entry ∈ Requires_Vars (Requires task) ->
                    entry !! "enum" = None ->
                    exists f, GetRequiredVars task = Failed f).
Proof.
  unfold GetRequiredVars. split; [|split].
  - intros requiredVars. rewrite outcome_mapM_iff.
    split; intros H; (eapply Forall2_impl; [exact H|]); intros entry rv;
      apply requiredVar_Ok.
  - induction (Requires_Vars (Requires task)) as [|entry entries IH]; simpl;
      [discriminate|].
    intros f. destruct (requiredVar entry) eqn:E; simpl.
    + destruct (outcome_mapM requiredVar entries); simpl; [discriminate|].
      intros H. inversion H. subst. by apply IH.
    + intros H. inversion H. subst. by eapply requiredVar_failure.
  - intros entry Hin Henum.
    eapply outcome_mapM_Failed; [exact Hin|]. by apply requiredVar_no_enum.
Qed.

(** * Bindings in name order *)

Lemma bindings_names (value : string -> any) names :
  Name <$> map (fun name => {| Name := name; Value := value name |}) names = names.
Proof.
  induction names as [|name names IH]; simpl; [reflexivity|]. f_equal. exact IH.
Qed.

Lemma passedVarsOf_names_sorted entry :
  StronglySorted String_lt (Name <$> passedVarsOf entry).
Proof.
  unfold passedVarsOf.
  destruct (entry !! "vars") as [[| | | | | |passedVars]|]; try constructor.
  rewrite (bindings_names (fun name => default ANil (passedVars !! name))).
  apply slices_Sorted_strict, maps_Keys_NoDup.
Qed.

Lemma depCall_names_sorted dep c :
  depCall dep = Ok c -> StronglySorted String_lt (Name <$> TaskCall_Vars c).
Proof.
  destruct dep as [|name|z|bits|b|l|m]; simpl; try discriminate.
  - intros H. inversion H. constructor.
  - destruct (m !! "task") as [[|name| | | | |]|]; try discriminate.
    intros H. inversion H. apply passedVarsOf_names_sorted.
Qed.

Lemma cmdCall_names_sorted cmd c :
  cmdCall cmd = Some c -> StronglySorted String_lt (Name <$> TaskCall_Vars c).
Proof.
  destruct cmd as [|name|z|bits|b|l|m]; simpl; try discriminate.
  destruct (m !! "task") as [[|name| | | | |]|]; try discriminate.
  intros H. inversion H. apply passedVarsOf_names_sorted.
Qed.

(** * What a call appends *)

Lemma call_Returned taskfile site w w' :
  perform taskfile (DoCall site) w = Returned tt w' ->
  exists annotation,
    (annotation = [] \/ annotation = [unknownIconStatement (TaskName (site_call site))])
    /\ data (d2Writer w') = data (d2Writer (afterEdges site w)) ++ annotation
    /\ uuidsDrawn w' = uuidsDrawn (afterEdges site w).
Proof.
  simpl. intros H.
  pose proof (EncapsulatePassedVars_outcome taskfile site w) as Hcase.
  rewrite H in Hcase.
  inversion Hcase; subst.
  - exists []. rewrite app_nil_r. auto.
  - eexists. split; [right; reflexivity|]. auto.
  - exists []. rewrite app_nil_r. auto.
  - eexists. split; [right; reflexivity|]. auto.
Qed.

Lemma perform_data taskfile a w w' :
  perform taskfile a w = Returned tt w' ->
  exists l, data (d2Writer w') = data (d2Writer w) ++ l.
Proof.
  destruct a as [key value|site].
  - simpl. rewrite Write_one. intros H. inversion H. simpl. eauto.
  - intros H. apply call_Returned in H as (annotation & _ & -> & _).
    unfold afterEdges, World_emit. simpl. rewrite <- app_assoc. eauto.
Qed.

Lemma replay_data taskfile trace w w' :
  replay taskfile trace w = Returned tt w' ->
  exists l, data (d2Writer w') = data (d2Writer w) ++ l.
Proof.
  unfold replay. revert w. induction trace as [|a trace IH]; intros w H; simpl in H.
  - inversion H. exists []. by rewrite app_nil_r.
  - apply M_bind_Returned in H as ([] & w1 & Ha & H).
    apply perform_data in Ha as [l1 Hl1]. apply IH in H as [l2 Hl2].
    exists (l1 ++ l2). by rewrite Hl2, Hl1, app_assoc.
Qed.

Lemma styleRules_data w w' :
  styleRules w = Returned tt w' ->
  exists l, data (d2Writer w') = data (d2Writer w) ++ l.
Proof.
  unfold styleRules. do 5 (erewrite M_bind_step by reflexivity).
  rewrite Write_one. intros H. inversion H. simpl.
  rewrite <- !app_assoc. eauto.
Qed.

(** In a run that returned, the action at an index of the trace started
    in the world the replay of the prefix reaches, and what it had
    written is still there, in front of what followed, in the final
    writer. *)
Lemma run_at taskfile trace wS wT w' i a :
  replay taskfile trace wS = Returned tt wT ->
  styleRules wT = Returned tt w' ->
  trace !! i = Some a ->
  exists wi wi' rest,
    replay taskfile (take i trace) wS = Returned tt wi /\
    perform taskfile a wi = Returned tt wi' /\
    data (d2Writer w') = data (d2Writer wi') ++ rest.
Proof.
  intros Hreplay Hstyle Hi.
  destruct (replay_at _ _ _ _ _ _ Hreplay Hi) as (wi & wi' & Hpre & Ha & Hpost).
  apply replay_data in Hpost as [l1 Hl1]. apply styleRules_data in Hstyle as [l2 Hl2].
  exists wi, wi', (l1 ++ l2). rewrite Hl2, Hl1, app_assoc. auto.
Qed.

(** The escaping, byte by byte: a quote, a double quote and a brace get
    a backslash in front, every byte is kept. *)
Lemma escape_Replace_bytes s :
  escape_Replace s
  = string_of_list_ascii
      (flat_map (fun c => if escaped_byte c then ["092"%char; c] else [c])
                (list_ascii_of_string s)).
Proof.
  induction s as [|a s IH]; [reflexivity|]. simpl.
  destruct (escaped_byte a); simpl; by rewrite <- IH.
Qed.

(** C6. A call that is emitted appends: without bindings, the one edge
    from the source to the target under the first label; with bindings,
    under an identifier drawn for the purpose, the edge from the source
    to the [With] container under the first label, the edge from the
    container to the target under the second label, the parallelogram
    container, and per binding, in the order of the bindings, its
    variable node, a text node under a further drawn identifier holding
    the escaped verbose rendering of the value, and the [set to] edge;
    after them at most the unknown-task icon of the target.  The bindings
    of every call of [GetDepCalls] and [GetCalls] are in strictly
    ascending name order.  The escaping keeps every byte of the
    rendering, in order, and puts one backslash in front of each quote,
    double quote, opening brace and closing brace, and nowhere else. *)
Theorem C6_call_emission :
  (forall task calls c,
     GetDepCalls task = Ok calls \/ GetCalls task = Ok calls ->
     c ∈ calls ->
     StronglySorted String_lt (Name <$> TaskCall_Vars c))
  /\ (forall taskName taskfile taskCall first second w w',
        EncapsulatePassedVars taskName taskfile taskCall first second w
        = Returned tt w' ->
        exists annotation,
          (annotation = [] \/ annotation = [unknownIconStatement (TaskName taskCall)])
          /\ data (d2Writer w')
             = data (d2Writer w)
               ++ callStatements (uuidsDrawn w) taskName (d2Name (TaskName taskCall))
                    (TaskCall_Vars taskCall) first second
               ++ annotation
          /\ uuidsDrawn w' = uuidCost (TaskCall_Vars taskCall) + uuidsDrawn w)
  /\ (forall n source target first second,
        callStatements n source target [] first second
        = [statement ("'" +:+ source +:+ "' -> '" +:+ target +:+ "'") first])
  /\ (forall n source target passedVar passedVars first second,
        callStatements n source target (passedVar :: passedVars) first second
        = [statement ("'" +:+ source +:+ "' -> " +:+ uuid_NewString n) first;
           statement (uuid_NewString n +:+ " -> '" +:+ target +:+ "'") second;
           statement (uuid_NewString n)
                     "With {shape: parallelogram; style.stroke-dash: 3}"]
          ++ bindingsStatements (uuid_NewString n) (S n) (passedVar :: passedVars))
  /\ (forall container n passedVar passedVars,
        bindingsStatements container n (passedVar :: passedVars)
        = [statement (container +:+ ".'" +:+ Name passedVar +:+ "'")
                     "{shape: image; icon: ${varIcon}}";
           statement (container +:+ "." +:+ uuid_NewString n)
                     (escape_Replace (GoSyntax (Value passedVar)) +:+ " {shape: text}");
           statement (container +:+ ".'" +:+ Name passedVar +:+ "' -> "
                        +:+ container +:+ "." +:+ uuid_NewString n)
                     "set to"]
          ++ bindingsStatements container (S n) passedVars)
  /\ (forall s,
        escape_Replace s
        = string_of_list_ascii
            (flat_map (fun c => if (Ascii.eqb c "'" || Ascii.eqb c "034"
                                    || Ascii.eqb c "{" || Ascii.eqb c "}")%bool
                                then ["092"%char; c] else [c])
                      (list_ascii_of_string s))).
Proof.
  split; [|split; [|split; [|split; [|split]]]]; try reflexivity;
    [| |exact escape_Replace_bytes].
  - intros task calls c [H|H] Hin.
    + unfold GetDepCalls in H. apply outcome_mapM_Ok in H.
      apply list_elem_of_lookup in Hin as [i Hi].
      destruct (Forall2_lookup_r _ _ _ _ _ H Hi) as (dep & _ & Hdep).
      by eapply depCall_names_sorted.
    + unfold GetCalls in H. apply outcome_bind_Ok in H as (cmds & _ & H).
      inversion H. subst. apply list_elem_of_omap in Hin as (cmd & _ & Hcmd).
      by eapply cmdCall_names_sorted.
  - intros taskName taskfile taskCall first second w w' H.
    pose (site := {| site_source := taskName; site_call := taskCall;
                     site_first := first; site_second := second |}).
    destruct (call_Returned taskfile site w w' H) as (annotation & Hann & Hdata & Hu).
    exists annotation. split; [exact Hann|]. rewrite Hdata, Hu.
    unfold afterEdges, World_emit. simpl. by rewrite <- app_assoc.
Qed.

(** * The unknown-task icon along a run *)

(** C5. In a run that returns, every call whose target has no colon and
    is no key of [Tasks] writes, right after its edges, the unknown-task
    icon statement of the target, whatever was called before; the
    statement stays in the output, so [n] such calls leave [n] of them. *)
Theorem C5_unknown_flat_target_every_time taskfile w text w' :
  TaskfileToD2 taskfile w = Returned text w' ->
  exists trace wS,
    runTrace taskfile = Ok trace /\
    runToTasks taskfile w = Returned tt wS /\
    forall i site,
      trace !! i = Some (DoCall site) ->
      strings_Contains (TaskName (site_call site)) ":" = false ->
      Tasks taskfile !! TaskName (site_call site) = None ->
      exists wi rest,
        replay taskfile (take i trace) wS = Returned tt wi /\
        EncapsulatePassedVars (site_source site) taskfile (site_call site)
          (site_first site) (site_second site) wi
        = Returned tt (World_emit (afterEdges site wi)
                         [unknownIconStatement (TaskName (site_call site))] 0) /\
        data (d2Writer w')
        = data (d2Writer (afterEdges site wi))
          ++ [unknownIconStatement (TaskName (site_call site))] ++ rest.
Proof.
  intros Hrun.
  apply TaskfileToD2_Returned in Hrun
    as (_ & trace & wS & wT & Htrace & HS & Hreplay & Hstyle & _).
  exists trace, wS. split; [exact Htrace|]. split; [exact HS|].
  intros i site Hi Hflat Hunknown.
  apply strings_Contains_splitTarget in Hflat.
  destruct (run_at _ _ _ _ _ _ _ Hreplay Hstyle Hi)
    as (wi & wi' & rest & Hpre & Hcall & Hdata).
  exists wi, rest. split; [exact Hpre|].
  simpl in Hcall. rewrite (call_flat_unknown _ _ _ Hflat Hunknown) in Hcall |- *.
  split; [reflexivity|]. inversion Hcall as [Hwi']. rewrite Hdata, <- Hwi'.
  simpl. by rewrite <- !app_assoc.
Qed.

(** The memo of a declared include when the first task starts, and
    after a prefix of the trace. *)
Lemma memo_at taskfile w wS trace i wi ns :
  runToTasks taskfile w = Returned tt wS ->
  replay taskfile (take i trace) wS = Returned tt wi ->
  is_Some (Includes taskfile !! ns) ->
  exists tasks,
    includesToIncludedTasks wi !! ns = Some tasks /\
    forall sub, sub ∈ tasks <->
      exists name, name ∈ calledNames (take i trace) /\ splitTarget name = Some (ns, sub).
Proof.
  intros HS Hpre Hdeclared.
  rewrite runToTasks_run in HS. inversion HS as [HwS]. clear HS.
  apply replay_memo in Hpre. rewrite <- HwS in Hpre. simpl in Hpre.
  assert (memo_made (includesToIncludedTasks w) (GetIncludes taskfile) !! ns = Some ∅)
    as Hempty.
  { rewrite memo_made_lookup, decide_True; [done|]. by apply maps_Keys_elem. }
  destruct (memo_fold_Some _ (take i trace) _ _ Hempty) as (tasks & Htasks & Hiff).
  exists tasks. rewrite Hpre. split; [exact Htasks|].
  intros sub. rewrite Hiff. split; [|auto]. intros [Hin|?]; [|done]. inversion Hin.
Qed.

(** C4. In a run that returns, a call of a namespaced target [ns:sub]
    whose namespace is a declared include writes, after its edges, the
    unknown-task icon statement of the target exactly when no earlier
    call of the run, from any task, named the same target; a later call
    of the same target writes its edges and nothing more. *)
Theorem C4_unknown_icon_once_per_pair taskfile w text w' :
  TaskfileToD2 taskfile w = Returned text w' ->
  exists trace wS,
    runTrace taskfile = Ok trace /\
    runToTasks taskfile w = Returned tt wS /\
    forall i site ns sub,
      trace !! i = Some (DoCall site) ->
      splitTarget (TaskName (site_call site)) = Some (ns, sub) ->
      is_Some (Includes taskfile !! ns) ->
      exists wi wi' rest,
        replay taskfile (take i trace) wS = Returned tt wi /\
        EncapsulatePassedVars (site_source site) taskfile (site_call site)
          (site_first site) (site_second site) wi
        = Returned tt wi' /\
        data (d2Writer wi')
        = data (d2Writer (afterEdges site wi))
          ++ (if bool_decide (TaskName (site_call site) ∈ calledNames (take i trace))
              then []
              else [unknownIconStatement (TaskName (site_call site))]) /\
        data (d2Writer w') = data (d2Writer wi') ++ rest.
Proof.
  intros Hrun.
  apply TaskfileToD2_Returned in Hrun
    as (_ & trace & wS & wT & Htrace & HS & Hreplay & Hstyle & _).
  exists trace, wS. split; [exact Htrace|]. split; [exact HS|].
  intros i site ns sub Hi Hsplit Hdeclared.
  destruct (run_at _ _ _ _ _ _ _ Hreplay Hstyle Hi)
    as (wi & wi' & rest & Hpre & Hcall & Hdata).
  exists wi, wi', rest. split; [exact Hpre|]. split; [exact Hcall|].
  split; [|exact Hdata].
  destruct (memo_at _ _ _ _ _ _ _ HS Hpre Hdeclared) as (tasks & Htasks & Hiff).
  simpl in Hcall. case_bool_decide as Hseen.
  - assert (sub ∈ tasks) as Hin by (apply Hiff; eauto).
    rewrite (call_namespace_seen _ _ _ _ _ _ Hsplit Htasks Hin) in Hcall.
    inversion Hcall. by rewrite app_nil_r.
  - assert (sub ∉ tasks) as Hin.
    { intros (name & Hname & Hsplit')%Hiff.
      by rewrite (splitTarget_inj _ _ _ Hsplit Hsplit') in Hseen. }
    rewrite (call_namespace_fresh _ _ _ _ _ _ Hsplit Htasks Hin) in Hcall.
    inversion Hcall. reflexivity.
Qed.

(** * The memo across runs *)

Lemma TaskfileToD2_from_tasks taskfile w wS :
  Version taskfile = "3" ->
  runToTasks taskfile w = Returned tt wS ->
  TaskfileToD2 taskfile w
  = M_bind (emitTasks taskfile) (fun _ => M_bind styleRules (fun _ => writerString)) wS.
Proof.
  intros Hv HS. unfold TaskfileToD2. rewrite Hv. simpl.
  unfold runToTasks in HS. unfold M_bind in *.
  destruct (newWriter w) as [[] w1|]; [|discriminate].
  destruct (Write "vars" [d2Vars] w1) as [[] w2|]; [|discriminate].
  destruct (NewString w2) as [u w3|]; [|discriminate].
  destruct (Write u [legendBlock] w3) as [[] w4|]; [|discriminate].
  rewrite HS. reflexivity.
Qed.


(** * Beyond the claims: the writer *)

Lemma append_assoc (s1 s2 s3 : string) : (s1 +:+ s2) +:+ s3 = s1 +:+ (s2 +:+ s3).
Proof. induction s1 as [|a s1 IH]; [reflexivity|]. rewrite !append_String. by f_equal. Qed.

Lemma append_nil_r (s : string) : s +:+ EmptyString = s.
Proof. induction s as [|a s IH]; [reflexivity|]. rewrite append_String. by f_equal. Qed.

Lemma length_append (s1 s2 : string) :
  String.length (s1 +:+ s2) = String.length s1 + String.length s2.
Proof. induction s1 as [|a s1 IH]; [reflexivity|]. rewrite append_String. simpl. by f_equal. Qed.

Lemma fold_left_Write_data key values w :
  data (fold_left (fun w' value => {| data := data w' ++ [key +:+ ": " +:+ value] |})
                  values w)
  = data w ++ map (statement key) values.
Proof.
  revert w. induction values as [|v vs IH]; intros w; simpl.
  - by rewrite app_nil_r.
  - rewrite IH. simpl. by rewrite <- app_assoc.
Qed.

Lemma D2Writer_Write_data w key values :
  data (D2Writer_Write w key values) = data w ++ writtenLines key values.
Proof.
  unfold D2Writer_Write, writtenLines.
  destruct values as [|v vs]; [reflexivity|]. apply fold_left_Write_data.
Qed.

(** X1. [Write] never fails and only appends: the statements already in
    the writer stay, in order, followed by the bare key when no value is
    given and by one [key: value] line per value, in the order of the
    values, otherwise; the memo and the identifiers drawn are untouched. *)
Theorem X1_Write_appends key values w :
  Write key values w = Returned tt (World_emit w (writtenLines key values) 0).
Proof.
  unfold Write, World_emit. f_equal. f_equal.
  pose proof (D2Writer_Write_data (d2Writer w) key values) as H.
  destruct (D2Writer_Write (d2Writer w) key values) as [d']. simpl in H. by rewrite H.
Qed.

Lemma concat_newline_app l1 l2 :
  l1 <> [] -> l2 <> [] ->
  String.concat newline (l1 ++ l2)
  = String.concat newline l1 +:+ newline +:+ String.concat newline l2.
Proof.
  intros H1 H2. induction l1 as [|x l1 IH]; [contradiction|].
  destruct l1 as [|y l1].
  - simpl. destruct l2; [contradiction|]. reflexivity.
  - change (String.concat newline ((x :: y :: l1) ++ l2))
      with (x +:+ newline +:+ String.concat newline ((y :: l1) ++ l2)).
    rewrite IH by discriminate.
    change (String.concat newline (x :: y :: l1))
      with (x +:+ newline +:+ String.concat newline (y :: l1)).
    by rewrite !append_assoc.
Qed.

(** X2. [String] joins with single newlines, with none in front or
    behind: the empty writer renders the empty string, and a [Write]
    extends the rendering of a non-empty writer by a newline and the new
    lines joined by newlines, while on the empty writer the rendering is
    the new lines alone. *)
Theorem X2_String_after_Write w key values :
  D2Writer_String NewD2Writer = EmptyString
  /\ D2Writer_String (D2Writer_Write w key values)
     = match data w with
       | [] => String.concat newline (writtenLines key values)
       | _ => D2Writer_String w +:+ newline
              +:+ String.concat newline (writtenLines key values)
       end.
Proof.
  split; [reflexivity|].
  pose proof (D2Writer_Write_data w key values) as H.
  unfold D2Writer_String. rewrite H.
  destruct (data w) as [|x l] eqn:E; [reflexivity|].
  apply concat_newline_app; [discriminate|].
  unfold writtenLines. destruct values; discriminate.
Qed.

(** * Beyond the claims: the accessors of the document model *)

Lemma GetCmds_cases task :
  (Cmd task = ANil /\ GetCmds task = Ok (default [] (Cmds task)))
  \/ (Cmd task <> ANil /\ Cmds task = None /\ GetCmds task = Ok [Cmd task])
  \/ (Cmd task <> ANil /\ Cmds task <> None
      /\ GetCmds task = Failed (LogFatal "task cannot have both cmd and cmds")).
Proof.
  unfold GetCmds.
  destruct (Cmd task) eqn:Ecmd; simpl;
    try (left; split; [reflexivity|reflexivity]);
    (destruct (Cmds task) eqn:Ecmds; simpl;
     [right; right; repeat split; discriminate
     |right; left; repeat split; discriminate]).
Qed.

Lemma omap_cmdCall_targets (cmds : list any) :
  TaskName <$> omap cmdCall cmds = omap cmdTarget cmds.
Proof.
  induction cmds as [|cmd cmds IH]; [reflexivity|]. simpl.
  destruct cmd as [|name|z|bits|b|l|m]; simpl; try exact IH.
  destruct (m !! "task") as [[|name| | | | |]|]; simpl; try exact IH.
  by f_equal.
Qed.

(** X3. [GetCalls] fails in one case only, a task with both [cmd] and
    [cmds] (an empty [cmds] list included), and never panics: an entry
    that is a shell command, or a structured entry without a string
    [task], is skipped.  When it returns, the calls are, in order, the
    entries naming a task, taken from the single command if there is one
    and from the list otherwise; a task with neither has no calls. *)
Theorem X3_GetCalls_skips_commands task :
  (forall f, GetCalls task = Failed f ->
             f = LogFatal "task cannot have both cmd and cmds"
             /\ Cmd task <> ANil /\ Cmds task <> None)
  /\ (forall calls, GetCalls task = Ok calls ->
        TaskName <$> calls
        = omap cmdTarget (if is_nil (Cmd task) then default [] (Cmds task)
                          else [Cmd task]))
  /\ (Cmd task = ANil -> Cmds task = None -> GetCalls task = Ok [])
  /\ (Cmd task = ANil \/ Cmds task = None -> exists calls, GetCalls task = Ok calls).
Proof.
  unfold GetCalls.
  destruct (GetCmds_cases task) as [[Hcmd H]|[(Hcmd & Hcmds & H)|(Hcmd & Hcmds & H)]];
    rewrite H; simpl.
  - split; [discriminate|]. split; [|split].
    + intros calls Hc. inversion Hc. rewrite Hcmd.
      exact (omap_cmdCall_targets (default [] (Cmds task))).
    + intros _ ->. reflexivity.
    + eauto.
  - split; [discriminate|]. split; [|split].
    + intros calls Hc. inversion Hc.
      assert (is_nil (Cmd task) = false) as -> by (by destruct (Cmd task)).
      exact (omap_cmdCall_targets [Cmd task]).
    + intros Hnil. contradiction.
    + eauto.
  - split; [|split; [discriminate|split]].
    + intros f Hf. inversion Hf. auto.
    + intros Hnil. contradiction.
    + intros [Hnil|Hnone]; contradiction.
Qed.

Lemma depCall_target dep c :
  depCall dep = Ok c -> depTarget dep = Some (TaskName c).
Proof.
  destruct dep as [|name|z|bits|b|l|m]; simpl; try discriminate.
  - intros H. by inversion H.
  - destruct (m !! "task") as [[|name| | | | |]|]; try discriminate.
    intros H. by inversion H.
Qed.

Lemma depCall_failure dep f :
  depCall dep = Failed f -> depTarget dep = None /\ (f = PanicTypeAssertion \/ f = PanicExplicit).
Proof.
  destruct dep as [|name|z|bits|b|l|m]; simpl;
    try (intros H; inversion H; by auto).
  destruct (m !! "task") as [[|name| | | | |]|]; intros H; inversion H; auto.
Qed.

(** X4. [GetDepCalls] returns exactly when every entry of [deps] is a
    string or a structured entry with a string [task]; it then returns
    one call per entry, in the order of the entries, each with the
    target its entry names.  On any other entry it panics: by the empty
    [panic] for an entry that is neither string nor mapping, by the type
    assertion for a mapping without a string [task]. *)
Theorem X4_GetDepCalls_one_call_per_entry task :
  (forall calls, GetDepCalls task = Ok calls ->
     Forall2 (fun dep c => depTarget dep = Some (TaskName c)) (Deps task) calls
     /\ length calls = length (Deps task))
  /\ ((exists calls, GetDepCalls task = Ok calls)
      <-> Forall (fun dep => is_Some (depTarget dep)) (Deps task))
  /\ (forall f, GetDepCalls task = Failed f ->
                f = PanicTypeAssertion \/ f = PanicExplicit).
Proof.
  unfold GetDepCalls. split; [|split].
  - intros calls H. apply outcome_mapM_Ok in H. split.
    + eapply Forall2_impl; [exact H|]. intros dep c. apply depCall_target.
    + symmetry. by eapply Forall2_length.
  - split.
    + intros [calls H]. apply outcome_mapM_Ok in H.
      induction H as [|dep c deps calls Hd _ IH]; constructor; [|exact IH].
      apply depCall_target in Hd. rewrite Hd. eauto.
    + induction 1 as [|dep deps [target Ht] _ [calls IH]]; simpl; [eauto|].
      apply depTarget_depCall in Ht as (c & -> & _). rewrite IH. simpl. eauto.
  - induction (Deps task) as [|dep deps IH]; simpl; [discriminate|].
    intros f. destruct (depCall dep) eqn:E; simpl.
    + destruct (outcome_mapM depCall deps); simpl; [discriminate|].
      intros H. inversion H. subst. by apply IH.
    + intros H. inversion H. subst. by eapply depCall_failure.
Qed.

(** X5. The bindings of a structured entry are the entries of its [vars]
    mapping, each once, under their names; when [vars] is absent or is
    not a mapping, the call has no bindings and nothing fails. *)
Theorem X5_bindings_are_the_vars_entries entry :
  (forall passedVars, entry !! "vars" = Some (AMap passedVars) ->
     (forall name value,
        {| Name := name; Value := value |} ∈ passedVarsOf entry
        <-> passedVars !! name = Some value)
     /\ NoDup (Name <$> passedVarsOf entry)
     /\ length (passedVarsOf entry) = size passedVars)
  /\ ((forall passedVars, entry !! "vars" <> Some (AMap passedVars)) ->
      passedVarsOf entry = []).
Proof.
  unfold passedVarsOf. split.
  - intros passedVars ->. split; [|split].
    + intros name value. rewrite list_elem_of_In, in_map_iff. split.
      * intros (k & Hk & Hin). inversion Hk. subst.
        apply list_elem_of_In, slices_Sorted_elem, maps_Keys_elem in Hin as [x Hx].
        by rewrite Hx.
      * intros Hv. exists name. rewrite Hv. split; [reflexivity|].
        apply list_elem_of_In, slices_Sorted_elem, maps_Keys_elem. eauto.
    + rewrite (bindings_names (fun name => default ANil (passedVars !! name))).
      unfold slices_Sorted. rewrite merge_sort_Permutation. apply maps_Keys_NoDup.
    + rewrite length_map. unfold slices_Sorted, maps_Keys.
      rewrite merge_sort_Permutation, rangeOrder_permutes, length_map.
      apply length_map_to_list.
  - intros H. destruct (entry !! "vars") as [[| | | | | |passedVars]|]; try reflexivity.
    by destruct (H passedVars).
Qed.

(** * Beyond the claims: names, addresses and escaping *)

Lemma strings_Contains_append s1 s2 c :
  strings_Contains (s1 +:+ s2) c = strings_Contains s1 c || strings_Contains s2 c.
Proof.
  induction s1 as [|a s1 IH]; [reflexivity|]. rewrite append_String. simpl.
  by destruct (Ascii.eqb a c).
Qed.

(** X6. [strings.SplitN(s, ":", 2)] cuts at the first colon only: joining
    its chunks by a colon gives [s] back; a name with a colon has two
    chunks, the first without colon, and a name without colon is its
    only chunk, so that the indices 0 and 1 the caller reads under its
    [strings.Contains] guard exist; a colon-free namespace joined to any
    sub-task by a colon is split into these two. *)
Theorem X6_SplitN_round_trip s :
  String.concat ":" (strings_SplitN2 s ":") = s
  /\ (strings_Contains s ":" = true ->
      exists ns sub, strings_SplitN2 s ":" = [ns; sub]
                     /\ strings_Contains ns ":" = false)
  /\ (strings_Contains s ":" = false -> strings_SplitN2 s ":" = [s])
  /\ (forall ns sub, strings_Contains ns ":" = false ->
                     strings_SplitN2 (ns +:+ ":" +:+ sub) ":" = [ns; sub]).
Proof.
  split; [|split; [|split]].
  - unfold strings_SplitN2. destruct (after ":" s) as [sub|] eqn:E; [|reflexivity].
    simpl. symmetry. apply splitTarget_join. unfold splitTarget. by rewrite E.
  - intros Hc. apply strings_Contains_after in Hc as [sub Hsub].
    exists (before ":" s), sub. unfold strings_SplitN2. rewrite Hsub.
    split; [reflexivity|]. eapply (splitTarget_namespace s _ sub).
    unfold splitTarget. by rewrite Hsub.
  - intros Hc. apply strings_Contains_splitTarget in Hc.
    unfold splitTarget in Hc. unfold strings_SplitN2.
    by destruct (after ":" s).
  - intros ns sub Hns. apply splitTarget_of_join with (sub := sub) in Hns.
    unfold splitTarget in Hns. unfold strings_SplitN2.
    destruct (after ":" (ns +:+ ":" +:+ sub)); [|discriminate].
    injection Hns as H1 H2. by rewrite H1, H2.
Qed.

Lemma d2Name_append s1 s2 : d2Name (s1 +:+ s2) = d2Name s1 +:+ d2Name s2.
Proof.
  unfold d2Name. induction s1 as [|a s1 IH]; [reflexivity|].
  rewrite append_String. simpl. destruct (Ascii.eqb a ":").
  - by rewrite IH.
  - rewrite append_String. by rewrite IH.
Qed.

(** X7. The D2 address of a call target: every colon becomes the three
    bytes quote, dot, quote, so that the address has no colon left; a
    name without colon is its own address; the address of a namespaced
    target is its namespace, the three bytes, and the address of the
    rest; and a target [ns:sub] has the address of the colon-free name
    written with the three bytes in place of the colon. *)
Theorem X7_d2Name_address :
  (forall s, strings_Contains (d2Name s) ":" = false)
  /\ (forall s, strings_Contains s ":" = false -> d2Name s = s)
  /\ (forall s1 s2, d2Name (s1 +:+ s2) = d2Name s1 +:+ d2Name s2)
  /\ (forall name ns sub, splitTarget name = Some (ns, sub) ->
        d2Name name = ns +:+ "'.'" +:+ d2Name sub)
  /\ (forall ns sub, d2Name (ns +:+ ":" +:+ sub) = d2Name (ns +:+ "'.'" +:+ sub)).
Proof.
  split; [|split; [|split; [|split]]].
  - intros s. unfold d2Name. induction s as [|a s IH]; [reflexivity|]. simpl.
    destruct (Ascii.eqb a ":") eqn:E.
    + rewrite strings_Contains_append, IH. reflexivity.
    + simpl. by rewrite E.
  - apply d2Name_flat.
  - apply d2Name_append.
  - intros name ns sub H. rewrite (splitTarget_join _ _ _ H).
    rewrite !d2Name_append. rewrite (d2Name_flat ns); [reflexivity|].
    by eapply splitTarget_namespace.
  - intros ns sub. rewrite !d2Name_append. reflexivity.
Qed.

Lemma escape_Replace_append s1 s2 :
  escape_Replace (s1 +:+ s2) = escape_Replace s1 +:+ escape_Replace s2.
Proof.
  induction s1 as [|a s1 IH]; [reflexivity|]. rewrite append_String. simpl.
  destruct (escaped_byte a); rewrite !append_String, IH; reflexivity.
Qed.

(** X8. The escaping of a rendered value works byte by byte: the
    result is the text with every byte kept, in order, and one backslash
    put in front of each quote, double quote, opening brace and closing
    brace, and nowhere else.  So it distributes over concatenation, it
    is longer by one byte per such byte, a text without these four bytes
    is left as it is, and in the result each of the four bytes has a
    backslash right in front of it. *)
Theorem X8_escape_Replace s :
  escape_Replace s
  = string_of_list_ascii
      (flat_map (fun c => if (Ascii.eqb c "'" || Ascii.eqb c "034"
                              || Ascii.eqb c "{" || Ascii.eqb c "}")%bool
                          then ["092"%char; c] else [c])
                (list_ascii_of_string s))
  /\ (forall c, escaped_byte c = true
                <-> c = "'"%char \/ c = "034"%char \/ c = "{"%char \/ c = "}"%char)
  /\ (forall s2, escape_Replace (s +:+ s2) = escape_Replace s +:+ escape_Replace s2)
  /\ String.length (escape_Replace s)
     = String.length s + length (List.filter escaped_byte (list_ascii_of_string s))
  /\ (escape_Replace s = s <-> List.filter escaped_byte (list_ascii_of_string s) = [])
  /\ (forall i c, String.get i (escape_Replace s) = Some c ->
        escaped_byte c = true ->
        exists j, i = S j /\ String.get j (escape_Replace s) = Some "092"%char).
Proof.
  split; [exact (escape_Replace_bytes s)|]. split.
  { intros c. unfold escaped_byte. rewrite !orb_true_iff, !Ascii.eqb_eq. tauto. }
  split; [apply escape_Replace_append|].
  assert (String.length (escape_Replace s)
          = String.length s + length (List.filter escaped_byte (list_ascii_of_string s)))
    as Hlen.
  { induction s as [|a s IH]; [reflexivity|]. simpl.
    destruct (escaped_byte a); simpl; rewrite IH; lia. }
  split; [exact Hlen|]. split.
  - split.
    + intros H. rewrite H in Hlen.
      destruct (List.filter escaped_byte (list_ascii_of_string s)); [reflexivity|].
      simpl in Hlen. lia.
    + clear Hlen. induction s as [|a s IH]; [reflexivity|]. simpl.
      destruct (escaped_byte a); [intros H; discriminate H|]. intros H. by rewrite IH.
  - clear Hlen. induction s as [|a s IH]; intros i c; simpl; [discriminate|].
    destruct (escaped_byte a) eqn:Ea.
    + destruct i as [|[|i]]; simpl.
      * intros H. inversion H. subst. discriminate.
      * intros _ _. exists 0. split; reflexivity.
      * intros H Hc. destruct (IH i c H Hc) as (j & -> & Hj).
        exists (S (S j)). split; [reflexivity|exact Hj].
    + destruct i as [|i]; simpl.
      * intros H. inversion H. subst. congruence.
      * intros H Hc. destruct (IH i c H Hc) as (j & -> & Hj).
        exists (S j). split; [reflexivity|exact Hj].
Qed.

(** * Beyond the claims: how a run can die *)

Lemma M_bind_Died_inv {A B} (c : M A) (k : A -> M B) w f w' :
  M_bind c k w = Died f w' ->
  c w = Died f w' \/ exists a w1, c w = Returned a w1 /\ k a w1 = Died f w'.
Proof.
  unfold M_bind. destruct (c w) as [a w1|f1 w1]; intros H.
  - right. exists a, w1. split; [reflexivity|exact H].
  - left. inversion H. reflexivity.
Qed.

Lemma M_range_Died {A} (P : failure -> Prop) (body : A -> M unit) xs w f w' :
  (forall x w1 f1 w2, body x w1 = Died f1 w2 -> P f1) ->
  M_range body xs w = Died f w' -> P f.
Proof.
  intros Hbody. revert w. induction xs as [|x xs IH]; intros w; simpl; [discriminate|].
  intros [H|(a & w1 & _ & H)]%M_bind_Died_inv; eauto.
Qed.

Lemma M_lift_Died {A} (o : outcome A) w f w' :
  M_lift o w = Died f w' -> o = Failed f.
Proof. destruct o; simpl; intros H; inversion H; reflexivity. Qed.

Lemma outcome_mapM_failure {A B} (P : failure -> Prop) (g : A -> outcome B) xs f :
  (forall x f1, g x = Failed f1 -> P f1) ->
  outcome_mapM g xs = Failed f -> P f.
Proof.
  intros Hg. induction xs as [|x xs IH]; simpl; [discriminate|].
  destruct (g x) eqn:E; simpl.
  - destruct (outcome_mapM g xs); simpl; [discriminate|].
    intros H. inversion H. subst. by apply IH.
  - intros H. inversion H. subst. by eapply Hg.
Qed.

Lemma perform_Died taskfile a w f w' :
  perform taskfile a w = Died f w' -> f = PanicNilMap.
Proof.
  destruct a as [key value|site]; simpl.
  - rewrite Write_one. discriminate.
  - intros H. pose proof (EncapsulatePassedVars_outcome taskfile site w) as Hcase.
    rewrite H in Hcase. by inversion Hcase.
Qed.

Lemma GetCalls_failure task f :
  GetCalls task = Failed f -> f = LogFatal "task cannot have both cmd and cmds".
Proof.
  unfold GetCalls.
  destruct (GetCmds_cases task) as [[_ H]|[(_ & _ & H)|(_ & _ & H)]]; rewrite H; simpl;
    try discriminate.
  intros Hf. by inversion Hf.
Qed.

Lemma emitTask_Died taskfile taskName w f w' :
  emitTask taskfile taskName w = Died f w' -> runFailure f.
Proof.
  unfold emitTask. cbv zeta.
  set (task := default Task_zero (Tasks taskfile !! taskName)).
  intros H.
  apply M_bind_Died_inv in H as [H|(_ & w1 & _ & H)].
  { destruct (_ || _); [rewrite Write_one in H|]; discriminate. }
  apply M_bind_Died_inv in H as [H|(_ & w2 & _ & H)].
  { destruct (Silent task); [rewrite Write_one in H|]; discriminate. }
  apply M_bind_Died_inv in H as [H|(_ & w3 & _ & H)].
  { rewrite Write_one in H. discriminate. }
  apply M_bind_Died_inv in H as [H|(requiredVars & w4 & _ & H)].
  { apply M_lift_Died in H. unfold GetRequiredVars in H.
    apply (outcome_mapM_failure
             (fun f => f = PanicTypeAssertion \/ f = PanicExplicit)) in H;
      [|apply requiredVar_failure].
    unfold runFailure. tauto. }
  apply M_bind_Died_inv in H as [H|(_ & w5 & _ & H)].
  { apply (M_range_Died (fun _ => False)) in H; [contradiction|].
    intros rv w6 f1 w7 Hrv.
    apply M_bind_Died_inv in Hrv as [Hrv|(_ & w8 & _ & Hrv)];
      rewrite Write_one in Hrv; discriminate. }
  apply M_bind_Died_inv in H as [H|(depCalls & w6 & _ & H)].
  { apply M_lift_Died in H. unfold GetDepCalls in H.
    apply (outcome_mapM_failure
             (fun f => f = PanicTypeAssertion \/ f = PanicExplicit)) in H;
      [|intros dep f1 Hdep; by apply depCall_failure in Hdep as [_ ?]].
    unfold runFailure. tauto. }
  apply M_bind_Died_inv in H as [H|(_ & w7 & _ & H)].
  { rewrite depCalls_replay in H.
    apply (M_range_Died (fun f => f = PanicNilMap)) in H;
      [unfold runFailure; tauto|].
    intros a w8 f1 w9. apply perform_Died. }
  apply M_bind_Died_inv in H as [H|(calls & w8 & _ & H)].
  { apply M_lift_Died, GetCalls_failure in H. unfold runFailure. tauto. }
  rewrite callsLoop_replay in H.
  apply (M_range_Died (fun f => f = PanicNilMap)) in H;
    [unfold runFailure; tauto|].
  intros a w9 f1 w10. apply perform_Died.
Qed.

Lemma styleRules_run w :
  styleRules w = Returned tt (World_emit w styleStatements 0).
Proof.
  unfold styleRules. do 5 (erewrite M_bind_step by reflexivity).
  rewrite Write_one. unfold World_emit. simpl. by rewrite <- !app_assoc.
Qed.

(** X9. A run dies of one of five failures only: the two [log.Fatal]
    messages, the empty [panic] and the failed type assertion of the
    accessors, and the assignment to the nil memo; the two indices read
    from the chunks of [strings.SplitN] are never out of range. *)
Theorem X9_failures_of_a_run taskfile w f w' :
  TaskfileToD2 taskfile w = Died f w' ->
  runFailure f /\ f <> PanicIndex.
Proof.
  intros H. assert (runFailure f) as Hf.
  { unfold TaskfileToD2 in H.
    destruct (negb (String.eqb (Version taskfile) "3")).
    { inversion H. unfold runFailure. tauto. }
    apply M_bind_Died_inv in H as [H|(_ & w1 & _ & H)]; [discriminate|].
    apply M_bind_Died_inv in H as [H|(_ & w2 & _ & H)];
      [rewrite Write_one in H; discriminate|].
    apply M_bind_Died_inv in H as [H|(u & w3 & _ & H)]; [discriminate|].
    apply M_bind_Died_inv in H as [H|(_ & w4 & _ & H)];
      [rewrite Write_one in H; discriminate|].
    apply M_bind_Died_inv in H as [H|(_ & w5 & _ & H)];
      [rewrite emitIncludes_run in H; discriminate|].
    apply M_bind_Died_inv in H as [H|(_ & w6 & _ & H)].
    { unfold emitTasks in H. eapply (M_range_Died runFailure); [|exact H].
      intros taskName w7 f1 w8. apply emitTask_Died. }
    apply M_bind_Died_inv in H as [H|(_ & w7 & _ & H)];
      [rewrite styleRules_run in H; discriminate|].
    discriminate. }
  split; [exact Hf|]. intros ->.
  unfold runFailure in Hf. destruct Hf as [?|[?|[?|[?|?]]]]; discriminate.
Qed.

(** * Beyond the claims: what a run that returns leaves *)

Lemma styleRules_Returned wT w' :
  styleRules wT = Returned tt w' -> w' = World_emit wT styleStatements 0.
Proof. rewrite styleRules_run. intros H. by inversion H. Qed.

(** X10. After a run that returns, the memo of every include the
    document declares holds exactly the sub-tasks the run called in that
    namespace, and the memo has an inner map for a namespace the document
    does not declare only if it had one before the run. *)
Theorem X10_memo_after_a_run taskfile w text w' :
  TaskfileToD2 taskfile w = Returned text w' ->
  exists trace,
    runTrace taskfile = Ok trace /\
    (forall ns, is_Some (Includes taskfile !! ns) ->
       exists tasks,
         includesToIncludedTasks w' !! ns = Some tasks /\
         forall sub, sub ∈ tasks <->
           exists name, name ∈ calledNames trace /\ splitTarget name = Some (ns, sub)) /\
    (forall ns, Includes taskfile !! ns = None ->
       (includesToIncludedTasks w' !! ns = None
        <-> includesToIncludedTasks w !! ns = None)).
Proof.
  intros Hrun.
  apply TaskfileToD2_Returned in Hrun
    as (_ & trace & wS & wT & Htrace & HS & Hreplay & Hstyle & _).
  exists trace. split; [exact Htrace|].
  apply styleRules_Returned in Hstyle. subst w'. simpl.
  split.
  - intros ns Hdeclared.
    assert (replay taskfile (take (length trace) trace) wS = Returned tt wT) as Hpre
      by (rewrite firstn_all; exact Hreplay).
    destruct (memo_at taskfile w wS trace (length trace) wT ns HS Hpre Hdeclared)
      as (tasks & Htasks & Hiff).
    exists tasks. split; [exact Htasks|]. intros sub.
    rewrite Hiff, firstn_all. reflexivity.
  - intros ns Hundeclared.
    rewrite runToTasks_run in HS. inversion HS as [HwS]. clear HS.
    apply replay_memo in Hreplay. rewrite Hreplay, <- HwS. simpl.
    assert (memo_made (includesToIncludedTasks w) (GetIncludes taskfile) !! ns
            = includesToIncludedTasks w !! ns) as Hsame.
    { rewrite memo_made_lookup, decide_False; [reflexivity|].
      unfold GetIncludes. rewrite maps_Keys_elem, Hundeclared. by intros [? ?]. }
    split.
    + intros Hnone. rewrite <- Hsame.
      destruct (memo_made (includesToIncludedTasks w) (GetIncludes taskfile) !! ns)
        as [tasks|] eqn:E; [|reflexivity].
      destruct (memo_fold_Some _ trace _ _ E) as (tasks' & Htasks' & _).
      congruence.
    + intros Hnone. apply memo_fold_None. by rewrite Hsame.
Qed.

Lemma perform_uuids taskfile a w w' :
  perform taskfile a w = Returned tt w' ->
  uuidsDrawn w' = traceCost [a] + uuidsDrawn w.
Proof.
  unfold traceCost. destruct a as [key value|site]; simpl.
  - rewrite Write_one. intros H. by inversion H.
  - intros H. apply (call_Returned taskfile site) in H as (_ & _ & _ & ->).
    unfold afterEdges, World_emit. simpl. lia.
Qed.

Lemma replay_uuids taskfile trace w w' :
  replay taskfile trace w = Returned tt w' ->
  uuidsDrawn w' = traceCost trace + uuidsDrawn w.
Proof.
  unfold replay. revert w. induction trace as [|a trace IH]; intros w H; simpl in H.
  - inversion H. reflexivity.
  - apply M_bind_Returned in H as ([] & w1 & Ha & H).
    apply perform_uuids in Ha. apply IH in H. rewrite H, Ha.
    unfold traceCost. simpl. lia.
Qed.

(** X11. A run that returns has drawn one identifier for the legend and,
    for every call with bindings, one for its container and one per
    binding; writes and calls without bindings draw none. *)
Theorem X11_identifiers_drawn taskfile w text w' :
  TaskfileToD2 taskfile w = Returned text w' ->
  exists trace,
    runTrace taskfile = Ok trace /\
    uuidsDrawn w' = traceCost trace + S (uuidsDrawn w).
Proof.
  intros Hrun.
  apply TaskfileToD2_Returned in Hrun
    as (_ & trace & wS & wT & Htrace & HS & Hreplay & Hstyle & _).
  exists trace. split; [exact Htrace|].
  apply styleRules_Returned in Hstyle. subst w'.
  apply replay_uuids in Hreplay.
  rewrite runToTasks_run in HS. inversion HS as [HwS]. clear HS.
  simpl. rewrite Hreplay, <- HwS. reflexivity.
Qed.

(** A statement written on the trace is in the output of the run. *)
Lemma run_write taskfile trace wS wT w' key value :
  replay taskfile trace wS = Returned tt wT ->
  styleRules wT = Returned tt w' ->
  DoWrite key value ∈ trace ->
  statement key value ∈ data (d2Writer w').
Proof.
  intros Hreplay Hstyle [i Hi]%list_elem_of_lookup.
  destruct (run_at _ _ _ _ _ _ _ Hreplay Hstyle Hi)
    as (wi & wi' & rest & _ & Hwrite & ->).
  simpl in Hwrite. rewrite Write_one in Hwrite. inversion Hwrite. simpl.
  rewrite !elem_of_app. left. right. apply elem_of_cons. by left.
Qed.

(** The statements of a call on the trace are in the output of the run,
    one after the other. *)
Lemma run_call taskfile trace wS wT w' site :
  replay taskfile trace wS = Returned tt wT ->
  styleRules wT = Returned tt w' ->
  DoCall site ∈ trace ->
  exists n before after,
    data (d2Writer w')
    = before
      ++ callStatements n (site_source site) (d2Name (TaskName (site_call site)))
           (TaskCall_Vars (site_call site)) (site_first site) (site_second site)
      ++ after.
Proof.
  intros Hreplay Hstyle [i Hi]%list_elem_of_lookup.
  destruct (run_at _ _ _ _ _ _ _ Hreplay Hstyle Hi)
    as (wi & wi' & rest & _ & Hcall & ->).
  apply call_Returned in Hcall as (annotation & _ & -> & _).
  exists (uuidsDrawn wi), (data (d2Writer wi)), (annotation ++ rest).
  unfold afterEdges, World_emit. simpl. by rewrite <- !app_assoc.
Qed.

Lemma taskTrace_parts taskfile taskName task actions :
  Tasks taskfile !! taskName = Some task ->
  taskTrace taskfile taskName = Ok actions ->
  exists requiredVars depCalls calls,
    GetRequiredVars task = Ok requiredVars /\
    GetDepCalls task = Ok depCalls /\
    GetCalls task = Ok calls /\
    actions = taskHeader taskName task
              ++ concat (map (requiredVarActions taskName) requiredVars)
              ++ map (fun c => DoCall (dependencySite taskName c)) depCalls
              ++ map DoCall (inlineSites taskName 0%N calls).
Proof.
  unfold taskTrace. intros ->. simpl. intros H.
  apply outcome_bind_Ok in H as (requiredVars & Hreq & H).
  apply outcome_bind_Ok in H as (depCalls & Hdep & H).
  apply outcome_bind_Ok in H as (calls & Hcalls & H).
  inversion H. exists requiredVars, depCalls, calls. auto.
Qed.

(** The trace of a task of a run that returns, with the accessors'
    results it is made of. *)
Lemma run_task taskfile w text w' taskName task :
  TaskfileToD2 taskfile w = Returned text w' ->
  Tasks taskfile !! taskName = Some task ->
  exists requiredVars depCalls calls,
    GetRequiredVars task = Ok requiredVars /\
    GetDepCalls task = Ok depCalls /\
    GetCalls task = Ok calls /\
    (forall key value,
       DoWrite key value ∈ taskHeader taskName task
                           ++ concat (map (requiredVarActions taskName) requiredVars) ->
       statement key value ∈ data (d2Writer w')) /\
    (forall site,
       site ∈ map (dependencySite taskName) depCalls
              ++ inlineSites taskName 0%N calls ->
       exists n before after,
         data (d2Writer w')
         = before
           ++ callStatements n (site_source site) (d2Name (TaskName (site_call site)))
                (TaskCall_Vars (site_call site)) (site_first site) (site_second site)
           ++ after).
Proof.
  intros Hrun Htask.
  apply TaskfileToD2_Returned in Hrun
    as (_ & trace & wS & wT & Htrace & _ & Hreplay & Hstyle & _).
  destruct (runTrace_task _ _ _ _ Htrace Htask) as (actions & Hactions & Hsub).
  destruct (taskTrace_parts _ _ _ _ Htask Hactions)
    as (requiredVars & depCalls & calls & Hreq & Hdep & Hcalls & ->).
  exists requiredVars, depCalls, calls. repeat (split; [assumption|]). split.
  - intros key value Hin. eapply run_write; [exact Hreplay|exact Hstyle|].
    apply Hsub. rewrite app_assoc. apply elem_of_app. by left.
  - intros site Hin. eapply run_call; [exact Hreplay|exact Hstyle|].
    apply Hsub. rewrite !elem_of_app. right. right.
    apply elem_of_app in Hin as [Hin|Hin].
    + left. apply list_elem_of_fmap in Hin as (c & -> & Hc).
      apply list_elem_of_fmap. eauto.
    + right. apply list_elem_of_fmap. eauto.
Qed.

(** X12. In the output of a run that returns, every task of the document
    has its icon statement, with the internal icon if it is internal and
    the external icon otherwise; a silent task has its grey fill
    statement; a task with a description or a summary has its markdown
    [Text] statement. *)
Theorem X12_task_statements taskfile w text w' taskName task :
  TaskfileToD2 taskfile w = Returned text w' ->
  Tasks taskfile !! taskName = Some task ->
  statement ("'" +:+ taskName +:+ "'.icon")
            ("${" +:+ (if Internal task then internalTaskIconName
                       else externalTaskIconName) +:+ "}")
    ∈ data (d2Writer w')
  /\ (Silent task = true ->
      statement ("'" +:+ taskName +:+ "'.style.fill") "grey" ∈ data (d2Writer w'))
  /\ (Desc task <> EmptyString \/ Summary task <> EmptyString ->
      statement ("'" +:+ taskName +:+ "'.Text")
                ("|md" +:+ newline +:+ markdownText task +:+ "|")
        ∈ data (d2Writer w')).
Proof.
  intros Hrun Htask.
  destruct (run_task _ _ _ _ _ _ Hrun Htask)
    as (requiredVars & depCalls & calls & _ & _ & _ & Hwrites & _).
  assert (forall key value, DoWrite key value ∈ taskHeader taskName task ->
                            statement key value ∈ data (d2Writer w')) as Hheader.
  { intros key value Hin. apply Hwrites. apply elem_of_app. by left. }
  unfold taskHeader in Hheader. split; [|split].
  - apply Hheader. rewrite !elem_of_app. right. right. apply elem_of_cons. by left.
  - intros Hsilent. apply Hheader. rewrite !elem_of_app. right. left.
    rewrite Hsilent. apply elem_of_cons. by left.
  - intros Htext. apply Hheader. rewrite !elem_of_app. left.
    assert (negb (String.eqb (Desc task) EmptyString)
            || negb (String.eqb (Summary task) EmptyString) = true) as ->.
    { destruct Htext as [H|H]; apply String.eqb_neq in H; rewrite H; simpl;
        [reflexivity|apply orb_true_r]. }
    apply elem_of_cons. by left.
Qed.

(** X13. In the output of a run that returns, every required variable
    of every task has its node statement and its [required by] edge to
    the task.  The node is labelled with the name alone when the
    variable has no enumeration, and otherwise with, between double
    quotes, the name, a backslash and [n], and the enumeration in
    brackets, its values separated by a comma and a space. *)
Theorem X13_required_variable_statements taskfile w text w' taskName task :
  TaskfileToD2 taskfile w = Returned text w' ->
  Tasks taskfile !! taskName = Some task ->
  exists requiredVars,
    GetRequiredVars task = Ok requiredVars /\
    forall requiredVar, requiredVar ∈ requiredVars ->
      statement ("'" +:+ RV_Name requiredVar +:+ "'")
                (match Enum requiredVar with
                 | [] => RV_Name requiredVar
                 | _ => dquote +:+ RV_Name requiredVar +:+ backslash +:+ "n["
                        +:+ String.concat ", " (Enum requiredVar) +:+ "]" +:+ dquote
                 end +:+ " {shape: image; icon: ${varIcon}}")
        ∈ data (d2Writer w')
      /\ statement ("'" +:+ RV_Name requiredVar +:+ "' -> '" +:+ taskName +:+ "'")
                   "required by"
           ∈ data (d2Writer w').
Proof.
  intros Hrun Htask.
  destruct (run_task _ _ _ _ _ _ Hrun Htask)
    as (requiredVars & depCalls & calls & Hreq & _ & _ & Hwrites & _).
  exists requiredVars. split; [exact Hreq|]. intros rv Hrv.
  assert (forall a, a ∈ requiredVarActions taskName rv ->
                    a ∈ concat (map (requiredVarActions taskName) requiredVars)) as Hin.
  { intros a Ha. apply list_elem_of_In, in_concat.
    exists (requiredVarActions taskName rv). split; [|by apply list_elem_of_In].
    apply in_map. by apply list_elem_of_In. }
  assert (requiredVarLabel rv
          = match Enum rv with
            | [] => RV_Name rv
            | _ => dquote +:+ RV_Name rv +:+ backslash +:+ "n["
                   +:+ String.concat ", " (Enum rv) +:+ "]" +:+ dquote
            end) as Hlabel.
  { unfold requiredVarLabel. by destruct (Enum rv). }
  split; apply Hwrites, elem_of_app; right; apply Hin; unfold requiredVarActions.
  - rewrite Hlabel. apply elem_of_cons. by left.
  - apply elem_of_cons. right. apply elem_of_cons. by left.
Qed.

(** X14. In the output of a run that returns, every entry of [deps] of
    every task has the statements of its call, one after the other,
    under the labels [calls as dependency] and, with bindings, [passed
    to] in dashed green: for a bare task name, the one edge from the task
    to the address of the target. *)
Theorem X14_dependency_statements taskfile w text w' taskName task dep target :
  TaskfileToD2 taskfile w = Returned text w' ->
  Tasks taskfile !! taskName = Some task ->
  dep ∈ Deps task ->
  depTarget dep = Some target ->
  exists c n before after,
    depCall dep = Ok c /\
    TaskName c = target /\
    data (d2Writer w')
    = before
      ++ callStatements n taskName (d2Name target) (TaskCall_Vars c)
           "calls as dependency" "passed to {style {stroke-dash: 3; stroke: green}}"
      ++ after.
Proof.
  intros Hrun Htask Hdep Htarget.
  destruct (run_task _ _ _ _ _ _ Hrun Htask)
    as (requiredVars & depCalls & calls & _ & HdepCalls & _ & _ & Hsites).
  apply depTarget_depCall in Htarget as (c & Hc & Htarget).
  unfold GetDepCalls in HdepCalls.
  destruct (outcome_mapM_elem _ _ _ _ HdepCalls Hdep) as (c' & Hc' & Hin).
  assert (c' = c) as -> by congruence.
  destruct (Hsites (dependencySite taskName c)) as (n & before & after & Hdata).
  { apply elem_of_app. left. apply list_elem_of_fmap. eauto. }
  exists c, n, before, after. simpl in Hdata. rewrite Htarget in Hdata. auto.
Qed.

Lemma uint_succ_small (n : N) : (n + 1 < 2 ^ 64)%N -> uint_succ n = (n + 1)%N.
Proof. intros H. unfold uint_succ. by apply N.mod_small. Qed.

Lemma inlineSites_lookup taskName callCount calls i c k :
  calls !! i = Some c ->
  k = (callCount + N.of_nat (S i))%N ->
  (k < 2 ^ 64)%N ->
  inlineSites taskName callCount calls !! i
  = Some {| site_source := taskName; site_call := c;
            site_first := "calls (" +:+ pretty k +:+ ")";
            site_second := "passed to {style.stroke-dash: 3}" |}.
Proof.
  revert callCount i. induction calls as [|c' calls IH]; intros callCount i Hi Hk Hbound;
    [discriminate|].
  assert (uint_succ callCount = (callCount + 1)%N) as Hsucc
    by (apply uint_succ_small; lia).
  destruct i as [|i].
  - assert (k = (callCount + 1)%N) as -> by lia.
    simpl in Hi. inversion Hi. subst c'. simpl. rewrite Hsucc. reflexivity.
  - simpl in Hi. simpl. rewrite Hsucc. apply IH; [exact Hi|lia|exact Hbound].
Qed.

(** X15. The inline calls of a task are numbered from 1 in the order of
    the commands, counting the calls only, not the shell commands
    between them: in the output of a run that returns, the call at
    position [i] (from 0) of the list [GetCalls] returns has its
    statements under the label [calls (i+1)], as long as the count stays
    below 2^64. *)
Theorem X15_inline_calls_are_numbered taskfile w text w' taskName task :
  TaskfileToD2 taskfile w = Returned text w' ->
  Tasks taskfile !! taskName = Some task ->
  exists calls,
    GetCalls task = Ok calls /\
    forall i c,
      calls !! i = Some c ->
      (N.of_nat (S i) < 2 ^ 64)%N ->
      exists n before after,
        data (d2Writer w')
        = before
          ++ callStatements n taskName (d2Name (TaskName c)) (TaskCall_Vars c)
               ("calls (" +:+ pretty (N.of_nat (S i)) +:+ ")")
               "passed to {style.stroke-dash: 3}"
          ++ after.
Proof.
  intros Hrun Htask.
  destruct (run_task _ _ _ _ _ _ Hrun Htask)
    as (requiredVars & depCalls & calls & _ & _ & Hcalls & _ & Hsites).
  exists calls. split; [exact Hcalls|]. intros i c Hi Hbound.
  pose proof (inlineSites_lookup taskName 0%N calls i c (N.of_nat (S i)) Hi
                eq_refl Hbound) as Hsite.
  destruct (Hsites _ ltac:(apply elem_of_app; right;
                           apply list_elem_of_lookup; eauto))
    as (n & before & after & Hdata).
  exists n, before, after. exact Hdata.
Qed.

(** X16. A call of a target without colon that is a task of the document
    never fails and never gets the unknown-task icon: it appends its
    edge statements and nothing else, and leaves the memo as it was. *)
Theorem X16_call_of_a_known_task taskName taskfile taskCall first second w task :
  strings_Contains (TaskName taskCall) ":" = false ->
  Tasks taskfile !! TaskName taskCall = Some task ->
  EncapsulatePassedVars taskName taskfile taskCall first second w
  = Returned tt
      (World_emit w
         (callStatements (uuidsDrawn w) taskName (TaskName taskCall)
            (TaskCall_Vars taskCall) first second)
         (uuidCost (TaskCall_Vars taskCall))).
Proof.
  intros Hflat Hknown.
  pose (site := {| site_source := taskName; site_call := taskCall;
                   site_first := first; site_second := second |}).
  apply strings_Contains_splitTarget in Hflat as Hsplit.
  pose proof (call_flat_known taskfile site w task Hsplit Hknown) as Hcall.
  simpl in Hcall. rewrite Hcall.
  unfold afterEdges. simpl. by rewrite (d2Name_flat _ Hflat).
Qed.

(** X17. The output of a run that returns is framed the same way for
    every document: the [vars] block, the legend under the first
    identifier the run draws, one icon statement per include (each
    include once), the statements of the tasks, and the six style rules
    at the end; the text is these statements joined by newlines.  What
    the writer held before the run plays no part. *)
Theorem X17_output_frame taskfile w text w' :
  TaskfileToD2 taskfile w = Returned text w' ->
  (exists body,
     data (d2Writer w')
     = [statement "vars" d2Vars; statement (uuid_NewString (uuidsDrawn w)) legendBlock]
       ++ map includeStatement (GetIncludes taskfile)
       ++ body ++ styleStatements)
  /\ text = String.concat newline (data (d2Writer w'))
  /\ NoDup (GetIncludes taskfile)
  /\ (forall ns, ns ∈ GetIncludes taskfile <-> is_Some (Includes taskfile !! ns)).
Proof.
  intros Hrun.
  apply TaskfileToD2_Returned in Hrun
    as (_ & trace & wS & wT & _ & HS & Hreplay & Hstyle & Htext).
  split; [|split; [exact Htext|split]].
  - rewrite runToTasks_run in HS. inversion HS as [HwS]. clear HS.
    apply replay_data in Hreplay as [body Hbody].
    apply styleRules_Returned in Hstyle. subst w'.
    exists body. simpl. rewrite Hbody, <- HwS. simpl. by rewrite <- !app_assoc.
  - apply maps_Keys_NoDup.
  - intros ns. apply maps_Keys_elem.
Qed.

Lemma M_range_ext {A} (body body' : A -> M unit) xs w :
  (forall x w1, body x w1 = body' x w1) ->
  M_range body xs w = M_range body' xs w.
Proof.
  intros E. revert w. induction xs as [|x xs IH]; intros w; simpl; [reflexivity|].
  unfold M_bind. rewrite E. destruct (body' x w) as [[] w1|f w1]; [apply IH | reflexivity].
Qed.

Lemma EncapsulatePassedVars_same_tasks taskfile taskfile' taskName taskCall
    first second w :
  Tasks taskfile = Tasks taskfile' ->
  EncapsulatePassedVars taskName taskfile taskCall first second w
  = EncapsulatePassedVars taskName taskfile' taskCall first second w.
Proof.
  intros H. unfold EncapsulatePassedVars, classifyTarget. by rewrite H.
Qed.

Lemma callsLoop_same_tasks taskfile taskfile' taskName callCount calls w :
  Tasks taskfile = Tasks taskfile' ->
  callsLoop taskName taskfile callCount calls w
  = callsLoop taskName taskfile' callCount calls w.
Proof.
  intros H. revert callCount w.
  induction calls as [|c calls IH]; intros callCount w; [reflexivity|]. simpl.
  apply M_bind_ext; [by apply EncapsulatePassedVars_same_tasks|].
  intros _ w1. apply IH.
Qed.

Lemma emitTask_same_tasks taskfile taskfile' taskName w :
  Tasks taskfile = Tasks taskfile' ->
  emitTask taskfile taskName w = emitTask taskfile' taskName w.
Proof.
  intros H. unfold emitTask. rewrite H. cbv zeta.
  do 3 (apply M_bind_ext; [reflexivity|]; intros ? ?).
  apply M_bind_ext; [reflexivity|]; intros requiredVars ?.
  apply M_bind_ext; [reflexivity|]; intros ? ?.
  apply M_bind_ext; [reflexivity|]; intros depCalls ?.
  apply M_bind_ext.
  { apply M_range_ext. intros c w9. by apply EncapsulatePassedVars_same_tasks. }
  intros ? ?. apply M_bind_ext; [reflexivity|]; intros calls ?.
  by apply callsLoop_same_tasks.
Qed.

(** The run reads three things of the document: the version, the names
    of the includes, the tasks. *)
Lemma TaskfileToD2_reads taskfile taskfile' w :
  Version taskfile = Version taskfile' ->
  GetIncludes taskfile = GetIncludes taskfile' ->
  Tasks taskfile = Tasks taskfile' ->
  TaskfileToD2 taskfile w = TaskfileToD2 taskfile' w.
Proof.
  intros Hversion Hincludes Htasks.
  unfold TaskfileToD2, emitIncludes, emitTasks. rewrite Hversion, Hincludes, Htasks.
  destruct (negb (String.eqb (Version taskfile') "3")); [reflexivity|].
  repeat (apply M_bind_ext; [reflexivity|]; intros ? ?).
  apply M_bind_ext; [|reflexivity].
  apply M_range_ext. intros taskName wt. by apply emitTask_same_tasks.
Qed.

(** X18. The run never looks into what an include refers to, nor at the
    global [vars]: replacing the value of every include and the global
    variables leaves the outcome of the run, text and final world, as it
    was. *)
Theorem X18_include_values_and_vars_are_opaque taskfile (f : any -> any)
    (vars : gmap string any) w :
  TaskfileToD2 {| Includes := f <$> Includes taskfile; Version := Version taskfile;
                  Vars := vars; Tasks := Tasks taskfile |} w
  = TaskfileToD2 taskfile w.
Proof.
  apply TaskfileToD2_reads; [reflexivity| |reflexivity].
  unfold GetIncludes, maps_Keys. simpl. f_equal.
  rewrite map_to_list_fmap.
  induction (map_to_list (Includes taskfile)) as [|[k v] l IH]; [reflexivity|].
  simpl. f_equal. exact IH.
Qed.

(** * Beyond the claims: when a run returns *)

Lemma emitTasks_replay taskfile names traces w :
  outcome_mapM (taskTrace taskfile) names = Ok traces ->
  M_range (emitTask taskfile) names w = replay taskfile (concat traces) w.
Proof.
  revert traces w. induction names as [|name names IH]; intros traces w H; simpl in H.
  - inversion H. reflexivity.
  - apply outcome_bind_Ok in H as (trace & Htrace & H).
    apply outcome_bind_Ok in H as (traces' & Htraces & H). inversion H. subst traces.
    simpl. rewrite (replay_app taskfile).
    apply M_bind_ext; [by apply emitTask_replay|]. intros _ w1. by apply IH.
Qed.

Lemma memo_step_is_Some memo a ns :
  is_Some (memo !! ns) -> is_Some (memo_step memo a !! ns).
Proof.
  intros H. unfold memo_step.
  destruct (action_call a) as [site|]; [|exact H].
  destruct (splitTarget _) as [[ns' sub']|]; [|exact H].
  destruct (memo !! ns') as [tasks|] eqn:E; [|exact H].
  destruct (decide (ns' = ns)) as [->|Hne].
  - rewrite lookup_insert_eq. eauto.
  - by rewrite lookup_insert_ne.
Qed.

(** A trace is replayed to its end when the namespace of each of its
    namespaced calls has a memo. *)
Lemma replay_returns taskfile trace w :
  (forall name ns sub, name ∈ calledNames trace -> splitTarget name = Some (ns, sub) ->
                       is_Some (includesToIncludedTasks w !! ns)) ->
  exists w', replay taskfile trace w = Returned tt w'.
Proof.
  unfold replay. revert w. induction trace as [|a trace IH]; intros w Hmemo; simpl.
  - eexists. reflexivity.
  - assert (exists w1, perform taskfile a w = Returned tt w1) as [w1 Ha].
    { destruct a as [key value|site]; simpl; [rewrite Write_one; eauto|].
      destruct (EncapsulatePassedVars_outcome taskfile site w)
        as [task Hs Hk|Hs Hk|ns sub Hs Hm|ns sub tasks Hs Hm Hin|ns sub tasks Hs Hm Hin];
        eauto.
      destruct (Hmemo (TaskName (site_call site)) ns sub) as [tasks Htasks];
        [|exact Hs|congruence].
      unfold calledNames. simpl. apply elem_of_cons. by left. }
    rewrite (M_bind_step _ _ _ _ _ Ha). apply IH.
    intros name ns sub Hin Hs. rewrite (perform_memo _ _ _ _ Ha).
    apply memo_step_is_Some. apply (Hmemo name ns sub); [|exact Hs].
    unfold calledNames in *. simpl.
    destruct (action_call a); simpl; [apply elem_of_cons; by right|exact Hin].
Qed.

(** X20. A run returns exactly when the version is [3], the accessors
    succeed on every task (the run has a trace), and every namespaced
    target called has a namespace that the document declares as an
    include or that has an inner map in the memo left by earlier runs. *)
Theorem X20_when_a_run_returns taskfile w :
  (exists text w', TaskfileToD2 taskfile w = Returned text w')
  <-> Version taskfile = "3"
      /\ exists trace,
           runTrace taskfile = Ok trace /\
           forall name ns sub,
             name ∈ calledNames trace -> splitTarget name = Some (ns, sub) ->
             is_Some (Includes taskfile !! ns)
             \/ is_Some (includesToIncludedTasks w !! ns).
Proof.
  split.
  - intros (text & w' & Hrun).
    apply TaskfileToD2_Returned in Hrun
      as (Hv & trace & wS & wT & Htrace & HS & Hreplay & _).
    split; [exact Hv|]. exists trace. split; [exact Htrace|].
    intros name ns sub Hin Hsplit.
    destruct (Includes taskfile !! ns) as [v|] eqn:Hdeclared; [left; eauto|]. right.
    destruct (includesToIncludedTasks w !! ns) as [tasks|] eqn:Hmemo; [eauto|].
    exfalso.
    unfold calledNames in Hin. apply list_elem_of_omap in Hin as (a & Ha & Hname).
    destruct a as [key value|site]; [discriminate|]. simpl in Hname.
    inversion Hname. subst name.
    apply list_elem_of_lookup in Ha as [i Hi].
    destruct (replay_at _ _ _ _ _ _ Hreplay Hi) as (wi & wi' & Hpre & Hcall & _).
    rewrite runToTasks_run in HS. inversion HS as [HwS]. clear HS.
    apply replay_memo in Hpre.
    assert (includesToIncludedTasks wi !! ns = None) as Hnil.
    { rewrite Hpre. apply memo_fold_None. rewrite <- HwS. simpl.
      rewrite memo_made_lookup, decide_False; [exact Hmemo|].
      unfold GetIncludes. rewrite maps_Keys_elem, Hdeclared. by intros [? ?]. }
    simpl in Hcall. erewrite call_namespace_nil in Hcall by eassumption. discriminate.
  - intros (Hv & trace & Htrace & Hnamespaces).
    pose proof (runToTasks_run taskfile w) as HS.
    rewrite (TaskfileToD2_from_tasks _ _ _ Hv HS).
    unfold runTrace in Htrace.
    apply outcome_bind_Ok in Htrace as (traces & Htraces & Htrace).
    inversion Htrace. subst trace.
    match type of HS with _ = Returned tt ?wS0 =>
      destruct (replay_returns taskfile (concat traces) wS0) as [wT Hreplay] end.
    { intros name ns sub Hin Hsplit. simpl. rewrite memo_made_lookup.
      destruct (decide (ns ∈ GetIncludes taskfile)) as [?|Hnot]; [eauto|].
      destruct (Hnamespaces name ns sub Hin Hsplit) as [Hdecl|Hmemo]; [|exact Hmemo].
      destruct Hnot. by apply maps_Keys_elem. }
    unfold emitTasks.
    erewrite M_bind_step;
      [|rewrite (emitTasks_replay _ _ _ _ Htraces); exact Hreplay].
    erewrite M_bind_step by apply styleRules_run.
    eexists _, _. reflexivity.
Qed.

(** * Beyond the claims: the order of the tasks in the output *)

Lemma sorted_split (names : list string) a b :
  StronglySorted String_lt names -> a ∈ names -> b ∈ names -> String_lt a b ->
  exists l1 l2 l3, names = l1 ++ a :: l2 ++ b :: l3.
Proof.
  intros Hs. induction Hs as [|x rest Hs IH Hall]; intros Ha Hb Hab.
  - inversion Ha.
  - rewrite Forall_forall in Hall.
    apply elem_of_cons in Ha as [->|Ha]; apply elem_of_cons in Hb as [->|Hb].
    + destruct Hab as [_ Hne]. by destruct Hne.
    + apply list_elem_of_split in Hb as (l2 & l3 & ->). by exists [], l2, l3.
    + exfalso. destruct Hab as [Hle Hne]. destruct (Hall a Ha) as [Hle' _].
      apply Hne. by apply (anti_symm String.le).
    + destruct (IH Ha Hb Hab) as (l1 & l2 & l3 & ->). by exists (x :: l1), l2, l3.
Qed.

Lemma emitTasks_data taskfile names w w' :
  M_range (emitTask taskfile) names w = Returned tt w' ->
  exists l, data (d2Writer w') = data (d2Writer w) ++ l.
Proof.
  intros H. apply emitTasks_Returned in H as (traces & _ & H).
  by apply replay_data in H.
Qed.

Lemma emitTask_data taskfile taskName w w' :
  emitTask taskfile taskName w = Returned tt w' ->
  exists l, data (d2Writer w') = data (d2Writer w) ++ l.
Proof.
  intros H. apply (emitTasks_data taskfile [taskName]). simpl.
  by rewrite (M_bind_step _ _ _ _ _ H).
Qed.

(** X21. The statements of a task form one block of the output, and
    the blocks follow each other in strictly ascending order of the task
    names: of two tasks of a run that returns, the one with the smaller
    name is emitted, whole, before the other one starts. *)
Theorem X21_task_blocks_in_name_order taskfile w text w' a b :
  TaskfileToD2 taskfile w = Returned text w' ->
  is_Some (Tasks taskfile !! a) -> is_Some (Tasks taskfile !! b) ->
  String_lt a b ->
  exists w1 w2 w3 w4 blockA between blockB rest,
    emitTask taskfile a w1 = Returned tt w2 /\
    emitTask taskfile b w3 = Returned tt w4 /\
    data (d2Writer w2) = data (d2Writer w1) ++ blockA /\
    data (d2Writer w3) = data (d2Writer w2) ++ between /\
    data (d2Writer w4) = data (d2Writer w3) ++ blockB /\
    data (d2Writer w') = data (d2Writer w4) ++ rest.
Proof.
  intros Hrun Ha Hb Hab.
  pose proof Hrun as Hv. apply TaskfileToD2_Returned in Hv as [Hv _].
  rewrite (TaskfileToD2_from_tasks _ _ _ Hv (runToTasks_run taskfile w)) in Hrun.
  apply M_bind_Returned in Hrun as ([] & wT & Htasks & Hrun).
  apply M_bind_Returned in Hrun as ([] & w2' & Hstyle & Hrun).
  inversion Hrun. subst w2'. clear Hrun.
  destruct (emitTasks_order taskfile) as [Hsorted Hnames].
  destruct (sorted_split _ a b Hsorted) as (l1 & l2 & l3 & Hsplit);
    [by apply Hnames|by apply Hnames|exact Hab|].
  unfold emitTasks in Htasks. rewrite Hsplit in Htasks.
  rewrite M_range_app in Htasks.
  apply M_bind_Returned in Htasks as ([] & w1 & _ & Htasks). simpl in Htasks.
  apply M_bind_Returned in Htasks as ([] & w2 & HA & Htasks).
  rewrite M_range_app in Htasks.
  apply M_bind_Returned in Htasks as ([] & w3 & Hbetween & Htasks). simpl in Htasks.
  apply M_bind_Returned in Htasks as ([] & w4 & HB & Htasks).
  destruct (emitTask_data _ _ _ _ HA) as [blockA HblockA].
  destruct (emitTasks_data _ _ _ _ Hbetween) as [between Hbetween'].
  destruct (emitTask_data _ _ _ _ HB) as [blockB HblockB].
  destruct (emitTasks_data _ _ _ _ Htasks) as [rest1 Hrest1].
  destruct (styleRules_data _ _ Hstyle) as [rest2 Hrest2].
  exists w1, w2, w3, w4, blockA, between, blockB, (rest1 ++ rest2).
  repeat (split; [assumption|]).
  by rewrite Hrest2, Hrest1, app_assoc.
Qed.

End RangeOrder.

(** The include statements of a run are written in the order [GetIncludes]
    returns the names, which is the order of the [range] over the map. *)
Lemma TaskfileToD2_includes_order taskfile w text w' :
  TaskfileToD2 taskfile w = Returned text w' ->
  exists rest,
    data (d2Writer w')
    = [statement "vars" d2Vars; statement (uuid_NewString (uuidsDrawn w)) legendBlock]
      ++ map includeStatement (rangeOrder (map fst (map_to_list (Includes taskfile))))
      ++ rest.
Proof.
  intros Hrun.
  apply TaskfileToD2_Returned in Hrun
    as (_ & trace & wS & wT & _ & HS & Hreplay & Hstyle & _).
  rewrite runToTasks_run in HS. inversion HS as [HwS]. clear HS.
  apply replay_data in Hreplay as [l1 Hl1]. apply styleRules_data in Hstyle as [l2 Hl2].
  exists (l1 ++ l2). rewrite Hl2, Hl1, <- HwS. simpl. by rewrite <- !app_assoc.
Qed.

End Translation.

(** * The claims at the sample documents *)

Lemma id_permutes (keys : list string) : id keys ≡ₚ keys.
Proof. reflexivity. Defined.

Lemma reverse_permutes (keys : list string) : reverse keys ≡ₚ keys.
Proof. apply reverse_Permutation. Defined.

(** C1 at [doc_two_includes]: two runs in the same world with the same
    identifiers, one ranging over [includes] as [a, b] and one as [b, a]
    (both orders visit every key once), return different texts. *)
Theorem C1_include_order_changes_output :
  exists text1 w1 text2 w2,
    TaskfileToD2 sample_uuid id sample_GoSyntax doc_two_includes World_start
    = Returned text1 w1 /\
    TaskfileToD2 sample_uuid reverse sample_GoSyntax doc_two_includes World_start
    = Returned text2 w2 /\
    text1 <> text2 /\
    (forall keys : list string, id keys ≡ₚ keys /\ reverse keys ≡ₚ keys).
Proof.
  eexists _, _, _, _. split; [vm_compute; reflexivity|].
  split; [vm_compute; reflexivity|]. split.
  - apply String.eqb_neq. vm_compute. reflexivity.
  - intros keys. split; [apply id_permutes | apply reverse_permutes].
Qed.

(** C2 at [doc_two_includes]: when the [range] over [includes] visits [b]
    before [a], the statement of [b] is written before the statement of
    [a]. *)
Theorem C2_includes_follow_range_order :
  exists text w' rest,
    TaskfileToD2 sample_uuid reverse sample_GoSyntax doc_two_includes World_start
    = Returned text w' /\
    data (d2Writer w')
    = [statement "vars" d2Vars; statement (sample_uuid 0) legendBlock]
      ++ ["'b'.icon: ${includedTaskfileIcon}"; "'a'.icon: ${includedTaskfileIcon}"]
      ++ rest /\
    String_lt "a" "b" /\
    (forall keys : list string, reverse keys ≡ₚ keys).
Proof.
  eexists _, _, _. split; [vm_compute; reflexivity|].
  split; [vm_compute; reflexivity|]. split.
  - split; [vm_compute; exact I | discriminate].
  - apply reverse_permutes.
Qed.

(** C8 at [doc_version2]. *)
Lemma C8_witness :
  TaskfileToD2 sample_uuid id sample_GoSyntax doc_version2 World_start
  = Died (LogFatal "Only version 3 Taskfiles are supported") World_start
  /\ (forall text w',
        TaskfileToD2 sample_uuid id sample_GoSyntax doc_version2 World_start
        <> Returned text w')
  /\ result_outcome
       (TaskfileToD2 sample_uuid id sample_GoSyntax doc_version2 World_start)
     = Failed (LogFatal "Only version 3 Taskfiles are supported").
Proof.
  apply (C8_unsupported_version_is_fatal sample_uuid id sample_GoSyntax
           doc_version2 World_start).
  simpl. discriminate.
Defined.

(** C9 at [doc_cmd_and_cmds]. *)
Lemma C9_witness :
  GetCmds task_cmd_and_cmds = Failed (LogFatal "task cannot have both cmd and cmds")
  /\ exists f w',
       TaskfileToD2 sample_uuid id sample_GoSyntax doc_cmd_and_cmds World_start
       = Died f w'.
Proof.
  apply (C9_cmd_and_cmds_is_fatal sample_uuid id sample_GoSyntax id_permutes
           doc_cmd_and_cmds "build" task_cmd_and_cmds World_start).
  - vm_compute. reflexivity.
  - simpl. discriminate.
  - simpl. discriminate.
Defined.

(** C3 at [doc_undeclared_namespace], from the start of the process. *)
Lemma C3_witness :
  (forall site wi,
     TaskName (site_call site) = "infra:provision" ->
     includesToIncludedTasks wi !! "infra" = None ->
     EncapsulatePassedVars sample_uuid sample_GoSyntax (site_source site)
       doc_undeclared_namespace (site_call site) (site_first site) (site_second site) wi
     = Died PanicNilMap (afterEdges sample_uuid sample_GoSyntax site wi))
  /\ exists f w',
       TaskfileToD2 sample_uuid id sample_GoSyntax doc_undeclared_namespace World_start
       = Died f w'.
Proof.
  apply (C3_undeclared_namespace_panics sample_uuid id sample_GoSyntax id_permutes
           doc_undeclared_namespace "deploy" task_deploy_provision
           "infra:provision" "infra" "provision" World_start).
  - vm_compute. reflexivity.
  - left. exists (AString "infra:provision").
    split; [|reflexivity]. simpl. apply elem_of_cons. left. reflexivity.
  - reflexivity.
  - reflexivity.
  - reflexivity.
Defined.

(** C7, as first stated, at [task_requires_name_only]: the structured
    entry with a name and no enumeration does not yield a required
    variable without enumeration, it panics; and at
    [task_requires_numeric_enum] an enumerated number is not turned into
    text, it panics. *)
Lemma C7_counterexample :
  GetRequiredVars task_requires_name_only = Failed PanicTypeAssertion
  /\ GetRequiredVars task_requires_name_only
     <> Ok [{| RV_Name := "ENV"; Enum := [] |}]
  /\ GetRequiredVars task_requires_numeric_enum = Failed PanicTypeAssertion.
Proof.
  split; [vm_compute; reflexivity|]. split; [|vm_compute; reflexivity].
  intros H. vm_compute in H. discriminate H.
Qed.

(** C7 (amended) at [task_requires_enum]. *)
Lemma C7_witness :
  GetRequiredVars task_requires_enum
  = Ok [{| RV_Name := "REGION"; Enum := [] |};
        {| RV_Name := "ENV"; Enum := ["prod"; "staging"] |}].
Proof.
  destruct (C7_required_vars_shapes task_requires_enum) as (Hshapes & _ & _).
  apply Hshapes. simpl. repeat constructor.
Defined.



(** C5 at [doc_calls], whose task [deploy] depends twice on the absent
    [missing]. *)
Lemma C5_witness :
  exists text w',
    TaskfileToD2 sample_uuid id sample_GoSyntax doc_calls World_start = Returned text w'
    /\ exists trace wS,
         runTrace id doc_calls = Ok trace /\
         runToTasks sample_uuid id doc_calls World_start = Returned tt wS /\
         forall i site,
           trace !! i = Some (DoCall site) ->
           strings_Contains (TaskName (site_call site)) ":" = false ->
           Tasks doc_calls !! TaskName (site_call site) = None ->
           exists wi rest,
             replay sample_uuid sample_GoSyntax doc_calls (take i trace) wS
             = Returned tt wi /\
             EncapsulatePassedVars sample_uuid sample_GoSyntax
               (site_source site) doc_calls (site_call site)
               (site_first site) (site_second site) wi
             = Returned tt (World_emit (afterEdges sample_uuid sample_GoSyntax site wi)
                              [unknownIconStatement (TaskName (site_call site))] 0) /\
             data (d2Writer w')
             = data (d2Writer (afterEdges sample_uuid sample_GoSyntax site wi))
               ++ [unknownIconStatement (TaskName (site_call site))] ++ rest.
Proof.
  eexists _, _. split; [vm_compute; reflexivity|].
  eapply (C5_unknown_flat_target_every_time sample_uuid id sample_GoSyntax
           doc_calls World_start).
  vm_compute. reflexivity.
Defined.

(** C4 at [doc_calls], which calls [infra:provision] three times, from
    two tasks. *)
Lemma C4_witness :
  exists text w',
    TaskfileToD2 sample_uuid id sample_GoSyntax doc_calls World_start = Returned text w'
    /\ exists trace wS,
         runTrace id doc_calls = Ok trace /\
         runToTasks sample_uuid id doc_calls World_start = Returned tt wS /\
         forall i site ns sub,
           trace !! i = Some (DoCall site) ->
           splitTarget (TaskName (site_call site)) = Some (ns, sub) ->
           is_Some (Includes doc_calls !! ns) ->
           exists wi wi' rest,
             replay sample_uuid sample_GoSyntax doc_calls (take i trace) wS
             = Returned tt wi /\
             EncapsulatePassedVars sample_uuid sample_GoSyntax
               (site_source site) doc_calls (site_call site)
               (site_first site) (site_second site) wi
             = Returned tt wi' /\
             data (d2Writer wi')
             = data (d2Writer (afterEdges sample_uuid sample_GoSyntax site wi))
               ++ (if bool_decide (TaskName (site_call site)
                                     ∈ calledNames (take i trace))
                   then []
                   else [unknownIconStatement (TaskName (site_call site))]) /\
             data (d2Writer w') = data (d2Writer wi') ++ rest.
Proof.
  eexists _, _. split; [vm_compute; reflexivity|].
  eapply (C4_unknown_icon_once_per_pair sample_uuid id sample_GoSyntax id_permutes
           doc_calls World_start).
  vm_compute. reflexivity.
Defined.

(** C6 at [sample_call], emitted for [deploy] in [World_infra]. *)
Lemma C6_witness :
  StronglySorted String_lt (Name <$> TaskCall_Vars sample_call)
  /\ exists w' annotation,
       EncapsulatePassedVars sample_uuid sample_GoSyntax "deploy" doc_calls sample_call
         "calls as dependency" "passed to {style {stroke-dash: 3; stroke: green}}"
         World_infra
       = Returned tt w' /\
       (annotation = [] \/ annotation = [unknownIconStatement "infra:provision"]) /\
       data (d2Writer w')
       = ["'deploy' -> uuid-1: calls as dependency";
          "uuid-1 -> 'infra'.'provision': passed to {style {stroke-dash: 3; stroke: green}}";
          "uuid-1: With {shape: parallelogram; style.stroke-dash: 3}";
          "uuid-1.'env': {shape: image; icon: ${varIcon}}";
          "uuid-1.uuid-2: " +:+ backslash +:+ dquote +:+ "prod" +:+ backslash +:+ dquote
             +:+ " {shape: text}";
          "uuid-1.'env' -> uuid-1.uuid-2: set to";
          "uuid-1.'region': {shape: image; icon: ${varIcon}}";
          "uuid-1.uuid-3: " +:+ backslash +:+ dquote +:+ "us-east" +:+ backslash +:+ dquote
             +:+ " {shape: text}";
          "uuid-1.'region' -> uuid-1.uuid-3: set to"]
         ++ annotation /\
       uuidsDrawn w' = 4 /\
       escape_Replace "{'a'}" = backslash +:+ "{" +:+ backslash +:+ "'a"
                                +:+ backslash +:+ "'" +:+ backslash +:+ "}".
Proof.
  destruct (C6_call_emission sample_uuid id sample_GoSyntax id_permutes)
    as (Hsorted & Hemit & _ & _ & _ & Hescape).
  split.
  - apply (Hsorted (sample_task [call_provision_with_vars] ANil None) [sample_call]).
    + left. vm_compute. reflexivity.
    + apply elem_of_cons. left. reflexivity.
  - eexists _. 
    destruct (Hemit "deploy" doc_calls sample_call "calls as dependency"
                "passed to {style {stroke-dash: 3; stroke: green}}" World_infra _
                ltac:(vm_compute; reflexivity))
      as (annotation & Hann & Hdata & Hu).
    exists annotation. split; [vm_compute; reflexivity|]. split; [exact Hann|].
    split; [exact Hdata|]. split; [exact Hu|].
    rewrite (Hescape "{'a'}"). reflexivity.
Defined.

(** * Beyond the claims: the order of map iteration *)

Lemma outcome_mapM_ext {A B} (g g' : A -> outcome B) xs :
  (forall x, g x = g' x) -> outcome_mapM g xs = outcome_mapM g' xs.
Proof.
  intros E. induction xs as [|x xs IH]; simpl; [reflexivity|]. by rewrite E, IH.
Qed.

Section TwoOrders.

Variable uuid_NewString : nat -> string.
Variable GoSyntax : any -> string.
Variable order1 : list string -> list string.
Variable order2 : list string -> list string.
Hypothesis order1_permutes : forall keys, order1 keys ≡ₚ keys.
Hypothesis order2_permutes : forall keys, order2 keys ≡ₚ keys.

Lemma sorted_keys_order {V} (m : gmap string V) :
  slices_Sorted (maps_Keys order1 m) = slices_Sorted (maps_Keys order2 m).
Proof.
  rewrite (slices_Sorted_maps_Keys order1 order1_permutes).
  by rewrite (slices_Sorted_maps_Keys order2 order2_permutes).
Qed.

Lemma passedVarsOf_order entry : passedVarsOf order1 entry = passedVarsOf order2 entry.
Proof.
  unfold passedVarsOf.
  destruct (entry !! "vars") as [[| | | | | |passedVars]|]; try reflexivity.
  by rewrite sorted_keys_order.
Qed.

Lemma GetDepCalls_order task : GetDepCalls order1 task = GetDepCalls order2 task.
Proof.
  unfold GetDepCalls. apply outcome_mapM_ext. intros dep. unfold depCall.
  destruct dep as [|name|z|bits|b|l|m]; try reflexivity.
  by rewrite passedVarsOf_order.
Qed.

Lemma cmdCall_order cmd : cmdCall order1 cmd = cmdCall order2 cmd.
Proof.
  unfold cmdCall. destruct cmd as [|name|z|bits|b|l|m]; try reflexivity.
  by rewrite passedVarsOf_order.
Qed.

Lemma GetCalls_order task : GetCalls order1 task = GetCalls order2 task.
Proof.
  unfold GetCalls. destruct (GetCmds task) as [cmds|]; [|reflexivity].
  unfold outcome_bind. f_equal.
  apply list_omap_ext, Forall_Forall2_diag, Forall_forall.
  intros cmd _. apply cmdCall_order.
Qed.

Lemma emitTask_order taskfile taskName w :
  emitTask uuid_NewString order1 GoSyntax taskfile taskName w
  = emitTask uuid_NewString order2 GoSyntax taskfile taskName w.
Proof. unfold emitTask. by rewrite GetDepCalls_order, GetCalls_order. Qed.

Lemma TaskfileToD2_order taskfile w :
  GetIncludes order1 taskfile = GetIncludes order2 taskfile ->
  TaskfileToD2 uuid_NewString order1 GoSyntax taskfile w
  = TaskfileToD2 uuid_NewString order2 GoSyntax taskfile w.
Proof.
  intros Hincludes. unfold TaskfileToD2, emitIncludes, emitTasks.
  rewrite Hincludes, sorted_keys_order.
  destruct (negb (String.eqb (Version taskfile) "3")); [reflexivity|].
  repeat (apply M_bind_ext; [reflexivity|]; intros ? ?).
  apply M_bind_ext; [|reflexivity].
  apply M_range_ext. intros taskName wt. apply emitTask_order.
Qed.

(** X19. The order in which the runtime ranges over the maps matters for
    the includes only: two runs that visit the includes in the same order
    have the same outcome, whatever the order in which they visit the
    tasks and the bindings of the calls; so a document with at most one
    include has one outcome. *)
Theorem X19_map_order_matters_for_includes_only taskfile w :
  (GetIncludes order1 taskfile = GetIncludes order2 taskfile ->
   TaskfileToD2 uuid_NewString order1 GoSyntax taskfile w
   = TaskfileToD2 uuid_NewString order2 GoSyntax taskfile w)
  /\ (size (Includes taskfile) <= 1 ->
      TaskfileToD2 uuid_NewString order1 GoSyntax taskfile w
      = TaskfileToD2 uuid_NewString order2 GoSyntax taskfile w).
Proof.
  split; [apply TaskfileToD2_order|].
  intros Hsize. apply TaskfileToD2_order. unfold GetIncludes, maps_Keys.
  pose proof (order1_permutes (map fst (map_to_list (Includes taskfile)))) as H1.
  pose proof (order2_permutes (map fst (map_to_list (Includes taskfile)))) as H2.
  assert (length (map fst (map_to_list (Includes taskfile))) <= 1) as Hlen.
  { rewrite length_map, length_map_to_list. exact Hsize. }
  destruct (map fst (map_to_list (Includes taskfile))) as [|k [|k' l]].
  - apply Permutation_nil_r in H1, H2. congruence.
  - apply Permutation_singleton_r in H1, H2. congruence.
  - simpl in Hlen. lia.
Qed.

End TwoOrders.

(** * The properties beyond the claims at the sample documents *)

(** X5 at [sample_entry]. *)
Lemma X5_witness :
  (forall passedVars, sample_entry !! "vars" = Some (AMap passedVars) ->
     (forall name value,
        {| Name := name; Value := value |} ∈ passedVarsOf id sample_entry
        <-> passedVars !! name = Some value)
     /\ NoDup (Name <$> passedVarsOf id sample_entry)
     /\ length (passedVarsOf id sample_entry) = size passedVars)
  /\ ((forall passedVars, sample_entry !! "vars" <> Some (AMap passedVars)) ->
      passedVarsOf id sample_entry = []).
Proof. apply (X5_bindings_are_the_vars_entries id id_permutes sample_entry). Defined.

(** X9 at [doc_undeclared_namespace], which dies of the nil memo. *)
Lemma X9_witness : runFailure PanicNilMap /\ PanicNilMap <> PanicIndex.
Proof.
  eapply (X9_failures_of_a_run sample_uuid id sample_GoSyntax
            doc_undeclared_namespace World_start PanicNilMap).
  vm_compute. reflexivity.
Defined.

(** X10 at [doc_release]. *)
Lemma X10_witness :
  exists trace,
    runTrace id doc_release = Ok trace /\
    (forall ns, is_Some (Includes doc_release !! ns) ->
       exists tasks,
         includesToIncludedTasks (result_world
       (TaskfileToD2 sample_uuid id sample_GoSyntax doc_release World_start)) !! ns = Some tasks /\
         forall sub, sub ∈ tasks <->
           exists name, name ∈ calledNames trace /\ splitTarget name = Some (ns, sub)) /\
    (forall ns, Includes doc_release !! ns = None ->
       (includesToIncludedTasks (result_world
       (TaskfileToD2 sample_uuid id sample_GoSyntax doc_release World_start)) !! ns = None
        <-> includesToIncludedTasks World_start !! ns = None)).
Proof.
  eapply (X10_memo_after_a_run sample_uuid id sample_GoSyntax id_permutes
            doc_release World_start).
  vm_compute. reflexivity.
Defined.

(** X11 at [doc_release]. *)
Lemma X11_witness :
  exists trace,
    runTrace id doc_release = Ok trace /\
    uuidsDrawn (result_world
       (TaskfileToD2 sample_uuid id sample_GoSyntax doc_release World_start)) = traceCost trace + 1.
Proof.
  eapply (X11_identifiers_drawn sample_uuid id sample_GoSyntax doc_release World_start).
  vm_compute. reflexivity.
Defined.

(** X12 at the task [release] of [doc_release]. *)
Lemma X12_witness :
  statement ("'" +:+ "release" +:+ "'.icon")
            ("${" +:+ (if Internal task_release then internalTaskIconName
                       else externalTaskIconName) +:+ "}")
    ∈ data (d2Writer (result_world
       (TaskfileToD2 sample_uuid id sample_GoSyntax doc_release World_start)))
  /\ (Silent task_release = true ->
      statement ("'" +:+ "release" +:+ "'.style.fill") "grey" ∈ data (d2Writer (result_world
       (TaskfileToD2 sample_uuid id sample_GoSyntax doc_release World_start))))
  /\ (Desc task_release <> EmptyString \/ Summary task_release <> EmptyString ->
      statement ("'" +:+ "release" +:+ "'.Text")
                ("|md" +:+ newline +:+ markdownText task_release +:+ "|")
        ∈ data (d2Writer (result_world
       (TaskfileToD2 sample_uuid id sample_GoSyntax doc_release World_start)))).
Proof.
  eapply (X12_task_statements sample_uuid id sample_GoSyntax id_permutes
            doc_release World_start).
  - vm_compute. reflexivity.
  - vm_compute. reflexivity.
Defined.

(** X13 at the task [release] of [doc_release]. *)
Lemma X13_witness :
  exists requiredVars,
    GetRequiredVars task_release = Ok requiredVars /\
    forall requiredVar, requiredVar ∈ requiredVars ->
      statement ("'" +:+ RV_Name requiredVar +:+ "'")
                (match Enum requiredVar with
                 | [] => RV_Name requiredVar
                 | _ => dquote +:+ RV_Name requiredVar +:+ backslash +:+ "n["
                        +:+ String.concat ", " (Enum requiredVar) +:+ "]" +:+ dquote
                 end +:+ " {shape: image; icon: ${varIcon}}")
        ∈ data (d2Writer (result_world
       (TaskfileToD2 sample_uuid id sample_GoSyntax doc_release World_start)))
      /\ statement ("'" +:+ RV_Name requiredVar +:+ "' -> '" +:+ "release" +:+ "'")
                   "required by"
           ∈ data (d2Writer (result_world
       (TaskfileToD2 sample_uuid id sample_GoSyntax doc_release World_start))).
Proof.
  eapply (X13_required_variable_statements sample_uuid id sample_GoSyntax id_permutes
            doc_release World_start).
  - vm_compute. reflexivity.
  - vm_compute. reflexivity.
Defined.

(** X14 at the dependency [build] of the task [release]. *)
Lemma X14_witness :
  exists c n before after,
    depCall id (AString "build") = Ok c /\
    TaskName c = "build" /\
    data (d2Writer (result_world
       (TaskfileToD2 sample_uuid id sample_GoSyntax doc_release World_start)))
    = before
      ++ callStatements sample_uuid sample_GoSyntax n "release" (d2Name "build")
           (TaskCall_Vars c)
           "calls as dependency" "passed to {style {stroke-dash: 3; stroke: green}}"
      ++ after.
Proof.
  eapply (X14_dependency_statements sample_uuid id sample_GoSyntax id_permutes
            doc_release World_start _ _ "release" task_release).
  - vm_compute. reflexivity.
  - vm_compute. reflexivity.
  - simpl. apply elem_of_cons. left. reflexivity.
  - reflexivity.
Defined.

(** X15 at the task [release], whose second and fourth commands are calls. *)
Lemma X15_witness :
  exists calls,
    GetCalls id task_release = Ok calls /\
    forall i c,
      calls !! i = Some c ->
      (N.of_nat (S i) < 2 ^ 64)%N ->
      exists n before after,
        data (d2Writer (result_world
       (TaskfileToD2 sample_uuid id sample_GoSyntax doc_release World_start)))
        = before
          ++ callStatements sample_uuid sample_GoSyntax n "release"
               (d2Name (TaskName c)) (TaskCall_Vars c)
               ("calls (" +:+ pretty (N.of_nat (S i)) +:+ ")")
               "passed to {style.stroke-dash: 3}"
          ++ after.
Proof.
  eapply (X15_inline_calls_are_numbered sample_uuid id sample_GoSyntax id_permutes
            doc_release World_start).
  - vm_compute. reflexivity.
  - vm_compute. reflexivity.
Defined.

(** X16 at the call of [build] from [release]. *)
Lemma X16_witness :
  EncapsulatePassedVars sample_uuid sample_GoSyntax "release" doc_release
    {| TaskName := "build"; TaskCall_Vars := [] |}
    "calls (1)" "passed to {style.stroke-dash: 3}" World_infra
  = Returned tt
      (World_emit World_infra
         (callStatements sample_uuid sample_GoSyntax (uuidsDrawn World_infra)
            "release" "build" [] "calls (1)" "passed to {style.stroke-dash: 3}")
         (uuidCost [])).
Proof.
  eapply (X16_call_of_a_known_task sample_uuid sample_GoSyntax "release" doc_release
            {| TaskName := "build"; TaskCall_Vars := [] |}).
  - reflexivity.
  - vm_compute. reflexivity.
Defined.

(** X17 at [doc_release]. *)
Lemma X17_witness :
  (exists body,
     data (d2Writer (result_world
       (TaskfileToD2 sample_uuid id sample_GoSyntax doc_release World_start)))
     = [statement "vars" d2Vars;
        statement (sample_uuid (uuidsDrawn World_start)) legendBlock]
       ++ map includeStatement (GetIncludes id doc_release)
       ++ body ++ styleStatements)
  /\ D2Writer_String (d2Writer (result_world
       (TaskfileToD2 sample_uuid id sample_GoSyntax doc_release World_start)))
     = String.concat newline (data (d2Writer (result_world
       (TaskfileToD2 sample_uuid id sample_GoSyntax doc_release World_start))))
  /\ NoDup (GetIncludes id doc_release)
  /\ (forall ns, ns ∈ GetIncludes id doc_release
                 <-> is_Some (Includes doc_release !! ns)).
Proof.
  eapply (X17_output_frame sample_uuid id sample_GoSyntax id_permutes
            doc_release World_start).
  vm_compute. reflexivity.
Defined.

(** X19 at [doc_release], ranged over in the order of the keys and in the
    reverse order. *)
Lemma X19_witness :
  TaskfileToD2 sample_uuid id sample_GoSyntax doc_release World_start
  = TaskfileToD2 sample_uuid reverse sample_GoSyntax doc_release World_start.
Proof.
  apply (X19_map_order_matters_for_includes_only sample_uuid sample_GoSyntax
           id reverse id_permutes reverse_permutes doc_release World_start).
  vm_compute. lia.
Defined.

(** X20 at [doc_release], started in the world of a fresh process. *)
Lemma X20_witness :
  (exists text w',
     TaskfileToD2 sample_uuid id sample_GoSyntax doc_release World_start
     = Returned text w')
  <-> Version doc_release = "3"
      /\ exists trace,
           runTrace id doc_release = Ok trace /\
           forall name ns sub,
             name ∈ calledNames trace -> splitTarget name = Some (ns, sub) ->
             is_Some (Includes doc_release !! ns)
             \/ is_Some (includesToIncludedTasks World_start !! ns).
Proof.
  apply (X20_when_a_run_returns sample_uuid id sample_GoSyntax id_permutes
           doc_release World_start).
Defined.

(** X21 at the tasks [build] and [release] of [doc_release]. *)
Lemma X21_witness :
  exists w1 w2 w3 w4 blockA between blockB rest,
    emitTask sample_uuid id sample_GoSyntax doc_release "build" w1 = Returned tt w2 /\
    emitTask sample_uuid id sample_GoSyntax doc_release "release" w3 = Returned tt w4 /\
    data (d2Writer w2) = data (d2Writer w1) ++ blockA /\
    data (d2Writer w3) = data (d2Writer w2) ++ between /\
    data (d2Writer w4) = data (d2Writer w3) ++ blockB /\
    data (d2Writer (result_world
       (TaskfileToD2 sample_uuid id sample_GoSyntax doc_release World_start)))
    = data (d2Writer w4) ++ rest.
Proof.
  eapply (X21_task_blocks_in_name_order sample_uuid id sample_GoSyntax id_permutes
            doc_release World_start).
  - vm_compute. reflexivity.
  - eexists. vm_compute. reflexivity.
  - eexists. vm_compute. reflexivity.
  - split; [|discriminate]. vm_compute. exact I.
Defined.
